(** * Mini-CRM-Hub: customer segmentation

    A shallow embedding of the segment rule engine of the repository.

    Back end (the files are concatenated under
    [backend/src/routes/segments.js]):
    - the segment evaluator: [evaluateSegmentRules], [buildCondition],
      [buildNumericCondition], [buildDateCondition],
      [buildStringCondition];
    - the segment routes: [router.post('/')] and
      [router.post('/preview')];
    - the customer list route [router.get('/')] and the delivery
      statistics route [router.get('/stats/:campaignId')];
    - [verifyTokenMiddleware], under [backend/src/routes/auth.js].

    Front end:
    - the segments page and the dashboard, under
      [frontend/src/app/dashboard/page.tsx]: [getMatchedCustomers],
      [handleEdit], [handleDelete], [handleCreateSegment],
      [handleAddRule], [handleRemoveRule], [fetchStats],
      [formatTimestamp];
    - the customers page and the campaigns page, under
      [frontend/src/app/page.tsx]: [handleAddCustomer],
      [handleMakePurchase], [updateSegmentCustomerCount],
      [handleCreateCampaign], [handleStatusChange].

    JavaScript values are modelled as they are at run time: JSON values,
    numbers with NaN and the infinities, exceptions as an error result.
    The numbers of rules and customers are exact rationals, the rounding
    of IEEE doubles is not modelled there; the rates of the delivery
    statistics are binary64 doubles. Strings are sequences of ASCII code
    units. The Prisma client is a library: its [where] filters are given
    the meaning the query has over an in-memory store, with the string
    matching of the database left open. *)

From Stdlib Require Import List String Ascii Bool ZArith QArith Qabs Qround Lia DecimalString.
From Stdlib Require Import Sorted Permutation.
From Stdlib Require SpecFloat.
Import ListNotations.

Set Warnings "-register-all".

Local Open Scope string_scope.
Local Open Scope Z_scope.

(* ===================================================================== *)
(** * JavaScript values and the built-ins the code calls                  *)
(* ===================================================================== *)

Module Js.

(** A JavaScript number. *)
Inductive number : Type :=
| NaN
| Infinity (negative : bool)
| Fin (q : Q).

(** A JSON value as it arrives in a request body; [VUndefined] is what a
    missing property reads as. An object lists its properties in lookup
    order. *)
Inductive value : Type :=
| VUndefined
| VNull
| VBool (b : bool)
| VNumber (n : number)
| VString (s : string)
| VArray (l : list value)
| VObject (props : list (string * value)).

(** Exceptions the code can raise. An [Error] built from a template
    literal carries the interpolated value instead of the text. *)
Inductive exn : Type :=
| TypeError
| UnsupportedField (field : value)        (* Error(`Unsupported field: ${field}`) *)
| UnsupportedOperator (operator : value)  (* Error(`Unsupported operator: ${operator}`) *)
| PrismaClientError.                      (* thrown by a query; its classes are not told apart *)

Inductive result (A : Type) : Type :=
| Ok (a : A)
| Throw (e : exn).
Arguments Ok {A} a.
Arguments Throw {A} e.

Definition bind {A B} (c : result A) (k : A -> result B) : result B :=
  match c with
  | Ok a => k a
  | Throw e => Throw e
  end.

Notation "x <- c ;; k" := (bind c (fun x => k))
  (at level 61, c at next level, right associativity).

(** [Array.prototype.map] with a callback that may throw: elements are
    visited in index order and the first exception escapes. *)
Fixpoint mapM {A B} (f : A -> result B) (l : list A) : result (list B) :=
  match l with
  | [] => Ok []
  | a :: r => b <- f a ;; bs <- mapM f r ;; Ok (b :: bs)
  end.

Definition is_ok {A} (c : result A) : bool :=
  match c with Ok _ => true | Throw _ => false end.

(** ** Numbers *)

Definition Qlt_bool (x y : Q) : bool := negb (Qle_bool y x).

Definition num_lt (a b : number) : bool :=
  match a, b with
  | NaN, _ => false
  | _, NaN => false
  | Infinity true, Infinity true => false
  | Infinity true, _ => true
  | Infinity false, _ => false
  | Fin _, Infinity neg => negb neg
  | Fin x, Fin y => Qlt_bool x y
  end.

Definition num_eq (a b : number) : bool :=
  match a, b with
  | Infinity s, Infinity t => Bool.eqb s t
  | Fin x, Fin y => Qeq_bool x y
  | _, _ => false
  end.

Definition num_le (a b : number) : bool := num_lt a b || num_eq a b.

Definition isNaN (n : number) : bool :=
  match n with NaN => true | _ => false end.

(** ** Property access *)

Fixpoint assoc {A} (k : string) (l : list (string * A)) : option A :=
  match l with
  | [] => None
  | (k', v) :: r => if String.eqb k k' then Some v else assoc k r
  end.

(** [v.k] on a value that is not null or undefined, for a key that no
    prototype defines. *)
Definition get (v : value) (k : string) : value :=
  match v with
  | VObject props => match assoc k props with Some x => x | None => VUndefined end
  | _ => VUndefined
  end.

(** [v === 'lit'] *)
Definition is_string (v : value) (lit : string) : bool :=
  match v with
  | VString s => String.eqb s lit
  | _ => false
  end.

(** ** Strings *)

Definition code (a : ascii) : nat := nat_of_ascii a.

(** White space and line terminators in the ASCII range. *)
Definition is_ws (a : ascii) : bool :=
  let n := code a in
  ((9 <=? n) && (n <=? 13))%nat || (n =? 32)%nat.

Fixpoint trimStart (s : string) : string :=
  match s with
  | String a r => if is_ws a then trimStart r else s
  | EmptyString => s
  end.

Fixpoint trimEnd (s : string) : string :=
  match s with
  | String a r =>
      match trimEnd r with
      | EmptyString => if is_ws a then EmptyString else String a EmptyString
      | r' => String a r'
      end
  | EmptyString => EmptyString
  end.

Definition trim (s : string) : string := trimEnd (trimStart s).

(** [s.split(sep)] for a one-character separator. *)
Fixpoint split (sep : ascii) (s : string) : list string :=
  match s with
  | EmptyString => [EmptyString]
  | String a r =>
      if Ascii.eqb a sep then EmptyString :: split sep r
      else match split sep r with
           | h :: t => String a h :: t
           | [] => [String a EmptyString]
           end
  end.

Fixpoint startsWith (s p : string) : bool :=
  match p, s with
  | EmptyString, _ => true
  | String b p', String a s' => Ascii.eqb a b && startsWith s' p'
  | String _ _, EmptyString => false
  end.

Fixpoint includes (s p : string) : bool :=
  startsWith s p ||
  match s with
  | String _ s' => includes s' p
  | EmptyString => false
  end.

Fixpoint drop (n : nat) (s : string) : string :=
  match n, s with
  | S n', String _ r => drop n' r
  | _, _ => s
  end.

Definition endsWith (s p : string) : bool :=
  (String.length p <=? String.length s)%nat &&
  String.eqb (drop (String.length s - String.length p) s) p.

(** Code-unit order on strings, as [<] uses it when both sides are
    strings. *)
Fixpoint str_lt (s t : string) : bool :=
  match s, t with
  | _, EmptyString => false
  | EmptyString, String _ _ => true
  | String a s', String b t' =>
      if (code a <? code b)%nat then true
      else if (code b <? code a)%nat then false
      else str_lt s' t'
  end.

(** ** Numeric literals *)

Definition digit (radix : nat) (a : ascii) : option Z :=
  let n := code a in
  let d :=
    if ((48 <=? n) && (n <=? 57))%nat then Some (n - 48)%nat
    else if ((97 <=? n) && (n <=? 122))%nat then Some (n - 87)%nat
    else if ((65 <=? n) && (n <=? 90))%nat then Some (n - 55)%nat
    else None in
  match d with
  | Some k => if (k <? radix)%nat then Some (Z.of_nat k) else None
  | None => None
  end.

(** Reads the longest run of digits; returns the accumulated value, the
    number of digits read and the rest of the string. *)
Fixpoint digits (radix : nat) (s : string) (acc : Z) (count : nat)
  : Z * nat * string :=
  match s with
  | String a r =>
      match digit radix a with
      | Some d => digits radix r (Z.of_nat radix * acc + d) (S count)
      | None => (acc, count, s)
      end
  | EmptyString => (acc, count, s)
  end.

(** [m * 10^e] as a rational. *)
Definition scale10 (m e : Z) : Q :=
  if 0 <=? e then inject_Z (m * 10 ^ e)
  else Qmake m (Z.to_pos (10 ^ (- e))).

(** The exponent part of a decimal literal, when one is there in full. *)
Definition exponent (s : string) : Z * string :=
  match s with
  | String c r =>
      if Ascii.eqb c "e" || Ascii.eqb c "E" then
        let '(neg, r1) :=
          match r with
          | String "+" r' => (false, r')
          | String "-" r' => (true, r')
          | _ => (false, r)
          end in
        match digits 10 r1 0 0 with
        | (_, O, _) => (0, s)
        | (e, _, r2) => ((if neg then - e else e), r2)
        end
      else (0, s)
  | EmptyString => (0, s)
  end.

(** The longest prefix of [s] that is an unsigned StrDecimalLiteral. *)
Definition unsignedDecimal (s : string) : option (number * string) :=
  if startsWith s "Infinity" then Some (Infinity false, drop 8 s)
  else
    let '(m1, n1, r1) := digits 10 s 0 0 in
    let '(m2, n2, r2) :=
      match r1 with
      | String "." r =>
          let '(m, n, r') := digits 10 r m1 0 in
          if ((n1 =? 0) && (n =? 0))%nat then (m1, O, r1) else (m, n, r')
      | _ => (m1, O, r1)
      end in
    if ((n1 =? 0) && (n2 =? 0))%nat then None
    else
      let '(e, r3) := exponent r2 in
      Some (Fin (scale10 m2 (e - Z.of_nat n2)), r3).

Definition negate (n : number) : number :=
  match n with
  | NaN => NaN
  | Infinity s => Infinity (negb s)
  | Fin q => Fin (Qopp q)
  end.

Definition signedDecimal (s : string) : option (number * string) :=
  match s with
  | String "+" r => unsignedDecimal r
  | String "-" r =>
      match unsignedDecimal r with
      | Some (n, r') => Some (negate n, r')
      | None => None
      end
  | _ => unsignedDecimal s
  end.

(** [parseFloat] on a string: leading white space is skipped and the
    longest numeric prefix is read. *)
Definition parseFloat_string (s : string) : number :=
  match signedDecimal (trimStart s) with
  | Some (n, _) => n
  | None => NaN
  end.

(** [parseInt] on a string, no radix given. *)
Definition parseInt_string (s : string) : number :=
  let t := trimStart s in
  let '(neg, t1) :=
    match t with
    | String "+" r => (false, r)
    | String "-" r => (true, r)
    | _ => (false, t)
    end in
  let '(radix, t2) :=
    if startsWith t1 "0x" || startsWith t1 "0X" then (16%nat, drop 2 t1)
    else (10%nat, t1) in
  match digits radix t2 0 0 with
  | (_, O, _) => NaN
  | (v, _, _) => Fin (inject_Z (if neg then - v else v))
  end.

(** [Number(s)] on a string: the whole trimmed string has to be a numeric
    literal; the empty string is 0. *)
Definition Number_string (s : string) : number :=
  let t := trim s in
  let radixLiteral (radix : nat) :=
    match digits radix (drop 2 t) 0 0 with
    | (_, O, _) => NaN
    | (v, _, EmptyString) => Fin (inject_Z v)
    | _ => NaN
    end in
  match t with
  | EmptyString => Fin 0
  | _ =>
      if startsWith t "0x" || startsWith t "0X" then radixLiteral 16%nat
      else if startsWith t "0o" || startsWith t "0O" then radixLiteral 8%nat
      else if startsWith t "0b" || startsWith t "0B" then radixLiteral 2%nat
      else match signedDecimal t with
           | Some (n, EmptyString) => n
           | _ => NaN
           end
  end.

(** ** Dates *)

(** A [Date] object: its time value in milliseconds since the epoch, or
    an Invalid Date. *)
Inductive Date : Type :=
| InvalidDate
| Time (t : Z).

Definition TimeClip (n : number) : Date :=
  match n with
  | Fin q =>
      if Qle_bool (Qabs q) (inject_Z 8640000000000000)
      then Time (Z.quot (Qnum q) (Zpos (Qden q)))
      else InvalidDate
  | _ => InvalidDate
  end.

Definition msPerDay : Z := 86400000.

(** ** What the platform decides

    [ToString] of a value that is not a string (the text of a number is
    the shortest one that reads back as the same double, which exact
    rationals do not determine) and [Date.parse] (implementation-defined
    outside the ISO format) are left to the platform.

    So is the database behind the Prisma client, which the repository
    does not name. [LIKE pattern] is what its [LIKE] operator makes of a
    pattern: a test on a text column, or nothing when it rejects the
    pattern; the escape character and the treatment of letter case
    differ between databases. [sameText] is its [=] on a text column,
    which follows the collation. *)
Record Platform : Type := {
  ToString : value -> string;
  Date_parse : string -> Date;
  LIKE : string -> option (string -> bool);
  sameText : string -> string -> bool
}.

Section Builtins.
Variable P : Platform.

Definition toString (v : value) : string :=
  match v with
  | VString s => s
  | _ => ToString P v
  end.

(** [parseFloat(v)] and [parseInt(v)]: the argument is converted to a
    string first. *)
Definition parseFloat (v : value) : number := parseFloat_string (toString v).
Definition parseInt (v : value) : number := parseInt_string (toString v).

(** [new Date(v)]: a string is parsed, an object or array is converted
    to a string and parsed, anything else is converted to a number. *)
Definition newDate (v : value) : Date :=
  match v with
  | VString s => Date_parse P s
  | VArray _ | VObject _ => Date_parse P (ToString P v)
  | VNumber n => TimeClip n
  | VUndefined => InvalidDate
  | VNull => Time 0
  | VBool b => Time (if b then 1 else 0)
  end.

End Builtins.

End Js.


(* ===================================================================== *)
(** * The customer store behind the Prisma client                         *)
(* ===================================================================== *)

Module Prisma.
Import Js.

Record Customer : Type := {
  id : string;
  email : string;
  name : string;
  totalSpend : Q;
  visitCount : Z;
  lastVisit : option Z          (* time value; a customer may have no visit yet *)
}.

Record Segment : Type := {
  segment_id : string;
  segment_name : string;
  segment_description : option string;
  segment_rules : value;
  createdById : string
}.

Record CustomerSegment : Type := {
  customerId : string;
  segmentId : string
}.

Record Db : Type := {
  customer : list Customer;
  segment : list Segment;
  customerSegment : list CustomerSegment
}.

(** ** Filters of a [where] argument, as the builders write them *)

Inductive CompareOp : Type := gt | gte | lt | lte | equals.
Inductive StringOp : Type := contains | startsWith | endsWith | stringEquals.

Inductive Filter : Type :=
| NumberFilter (op : CompareOp) (v : number)         (* { gt: 5 } *)
| DateTimeFilter (op : CompareOp) (d : Date)         (* { lt: date } *)
| DateTimeRange (start : Date) (end_ : option Date)  (* { gte: start, lte: end } *)
| StringFilter (op : StringOp) (v : value).          (* { contains: value } *)

(** [{ [field]: filter }] *)
Record FieldWhere : Type := {
  key : string;
  filter : Filter
}.

Inductive CustomerWhere : Type :=
| AND (conditions : list FieldWhere)
| OR (conditions : list FieldWhere)
| Single (condition : FieldWhere).

(** ** Their meaning

    A comparison of a column with a bound; a null column matches
    nothing. *)

Definition compareQ (op : CompareOp) (x : Q) (bound : Q) : bool :=
  match op with
  | gt => Qlt_bool bound x
  | gte => Qle_bool bound x
  | lt => Qlt_bool x bound
  | lte => Qle_bool x bound
  | equals => Qeq_bool x bound
  end.

Definition compareZ (op : CompareOp) (x : Z) (bound : Z) : bool :=
  match op with
  | gt => bound <? x
  | gte => bound <=? x
  | lt => x <? bound
  | lte => x <=? bound
  | equals => x =? bound
  end.

(** A number that is finite as a double: from [2^1024 - 2^970] on, a
    literal reads as [Infinity]. *)
Definition finiteDouble (q : Q) : bool :=
  Qlt_bool (Qabs q) (inject_Z (2 ^ 1024 - 2 ^ 970)).

(** A number that fits the [Int] column: a 32-bit integer. *)
Definition isInt32 (q : Q) : bool :=
  (Qnum q mod Zpos (Qden q) =? 0) &&
  (- 2 ^ 31 <=? Qnum q / Zpos (Qden q)) && (Qnum q / Zpos (Qden q) <? 2 ^ 31).

(** The pattern the client sends for a string filter: the value between
    or beside [%], with its own [_] and [%] left as they are, so that
    they act as wild cards. *)
Definition likePattern (op : StringOp) (v : string) : string :=
  match op with
  | contains => "%" ++ v ++ "%"
  | startsWith => v ++ "%"
  | endsWith => "%" ++ v
  | stringEquals => v
  end.

Section WithPlatform.
Variable P : Platform.

(** The test a string filter is on a text column, if the database takes
    it: [LIKE] with the pattern of the value, [=] for [equals]. *)
Definition stringTest (op : StringOp) (v : string) : option (string -> bool) :=
  match op with
  | stringEquals => Some (fun s => sameText P s v)
  | _ => LIKE P (likePattern op v)
  end.

(** What makes a query fail: a bound that is not a finite number, that
    is not a 32-bit integer on the [Int] column [visitCount], or that is
    an invalid date; an operand of a string filter that is not a string;
    a pattern the database rejects. A key whose value is undefined counts
    as absent. *)
Definition validFilter (w : FieldWhere) : bool :=
  match filter w with
  | NumberFilter _ (Fin q) =>
      (String.eqb (key w) "totalSpend" && finiteDouble q) ||
      (String.eqb (key w) "visitCount" && isInt32 q)
  | NumberFilter _ _ => false
  | DateTimeFilter _ (Time _) => String.eqb (key w) "lastVisit"
  | DateTimeFilter _ InvalidDate => false
  | DateTimeRange (Time _) (Some (Time _)) => String.eqb (key w) "lastVisit"
  | DateTimeRange (Time _) None => String.eqb (key w) "lastVisit"
  | DateTimeRange _ _ => false
  | StringFilter op (VString v) =>
      String.eqb (key w) "email" &&
      match stringTest op v with Some _ => true | None => false end
  | StringFilter _ VUndefined => String.eqb (key w) "email"
  | StringFilter _ _ => false
  end.

Definition holds (w : FieldWhere) (c : Customer) : bool :=
  match filter w with
  | NumberFilter op (Fin bound) =>
      if String.eqb (key w) "totalSpend" then compareQ op (totalSpend c) bound
      else if String.eqb (key w) "visitCount"
           then compareQ op (inject_Z (visitCount c)) bound
      else false
  | DateTimeFilter op (Time bound) =>
      match lastVisit c with
      | Some t => String.eqb (key w) "lastVisit" && compareZ op t bound
      | None => false
      end
  | DateTimeRange (Time start) end_ =>
      match lastVisit c with
      | Some t =>
          String.eqb (key w) "lastVisit" && (start <=? t) &&
          match end_ with
          | Some (Time e) => t <=? e
          | Some InvalidDate => false
          | None => true
          end
      | None => false
      end
  | StringFilter op (VString v) =>
      String.eqb (key w) "email" &&
      match stringTest op v with
      | Some test => test (email c)
      | None => false
      end
  | StringFilter op VUndefined => String.eqb (key w) "email"
  | _ => false
  end.

Definition validWhere (w : CustomerWhere) : bool :=
  match w with
  | AND ws => forallb validFilter ws
  | OR ws => forallb validFilter ws
  | Single f => validFilter f
  end.

(** [AND: []] matches every row and [OR: []] none. *)
Definition matches (w : CustomerWhere) (c : Customer) : bool :=
  match w with
  | AND ws => forallb (fun f => holds f c) ws
  | OR ws => existsb (fun f => holds f c) ws
  | Single f => holds f c
  end.

(** [prisma.customer.findMany({ where })] *)
Definition findMany (w : CustomerWhere) (db : Db) : result (list Customer) :=
  if validWhere w then Ok (List.filter (matches w) (customer db))
  else Throw PrismaClientError.

End WithPlatform.

(** [prisma.segment.create({ data })] *)
Definition segment_create (row : Segment) (db : Db) : Db :=
  {| customer := customer db;
     segment := segment db ++ [row];
     customerSegment := customerSegment db |}.

Definition sameRow (a b : CustomerSegment) : bool :=
  String.eqb (customerId a) (customerId b) &&
  String.eqb (segmentId a) (segmentId b).

Definition insertUnlessPresent (rows : list CustomerSegment) (r : CustomerSegment)
  : list CustomerSegment :=
  if existsb (sameRow r) rows then rows else rows ++ [r].

(** [prisma.customerSegment.createMany({ data, skipDuplicates: true })] *)
Definition customerSegment_createMany (data : list CustomerSegment) (db : Db) : Db :=
  {| customer := customer db;
     segment := segment db;
     customerSegment := fold_left insertUnlessPresent data (customerSegment db) |}.

End Prisma.

(* ===================================================================== *)
(** * Back end: the segment evaluator                                     *)
(* ===================================================================== *)

Module SegmentEvaluator.
Import Js Prisma.

Section WithPlatform.
Variable P : Platform.
Variable now : Z.                (* the clock, read by [new Date()] *)

(** Reading a property throws on null and undefined only. *)
Definition getProp (v : value) (k : string) : result value :=
  match v with
  | VUndefined | VNull => Throw TypeError
  | _ => Ok (get v k)
  end.

(** [v.map(f)]: only an array has [map]. *)
Definition array_map {B} (v : value) (f : value -> result B) : result (list B) :=
  match v with
  | VArray l => mapM f l
  | _ => Throw TypeError
  end.

Definition buildNumericCondition (field : string) (operator : value) (v : number)
  : result FieldWhere :=
  if is_string operator "gt" then Ok {| key := field; filter := NumberFilter gt v |}
  else if is_string operator "gte" then Ok {| key := field; filter := NumberFilter gte v |}
  else if is_string operator "lt" then Ok {| key := field; filter := NumberFilter lt v |}
  else if is_string operator "lte" then Ok {| key := field; filter := NumberFilter lte v |}
  else if is_string operator "eq" then Ok {| key := field; filter := NumberFilter equals v |}
  else Throw (UnsupportedOperator operator).

(** [now.setDate(now.getDate() - n)] moves the clock back by [n] calendar
    days; in a time zone without clock changes that is [n] times 24
    hours. *)
Definition daysBefore (n : number) : Date :=
  match n with
  | Fin q => TimeClip (Fin (inject_Z (now - Qnum q / Zpos (Qden q) * msPerDay)))
  | _ => InvalidDate
  end.

Definition buildDateCondition (field : string) (operator : value) (v : value)
  : result FieldWhere :=
  let date := newDate P v in
  if is_string operator "before" then
    Ok {| key := field; filter := DateTimeFilter lt date |}
  else if is_string operator "after" then
    Ok {| key := field; filter := DateTimeFilter gt date |}
  else if is_string operator "between" then
    match v with
    | VString s =>
        match map (fun d => newDate P (VString d)) (split "," s) with
        | start :: end_ :: _ =>
            Ok {| key := field; filter := DateTimeRange start (Some end_) |}
        | [start] => Ok {| key := field; filter := DateTimeRange start None |}
        | [] => Throw TypeError
        end
    | _ => Throw TypeError       (* value.split is not a function *)
    end
  else if is_string operator "daysAgo" then
    Ok {| key := field; filter := DateTimeFilter lt (daysBefore (parseInt P v)) |}
  else Throw (UnsupportedOperator operator).

Definition buildStringCondition (field : string) (operator : value) (v : value)
  : result FieldWhere :=
  if is_string operator "contains" then
    Ok {| key := field; filter := StringFilter contains v |}
  else if is_string operator "startsWith" then
    Ok {| key := field; filter := StringFilter startsWith v |}
  else if is_string operator "endsWith" then
    Ok {| key := field; filter := StringFilter endsWith v |}
  else if is_string operator "equals" then
    Ok {| key := field; filter := StringFilter stringEquals v |}
  else Throw (UnsupportedOperator operator).

Definition buildCondition (condition : value) : result FieldWhere :=
  field <- getProp condition "field" ;;
  let operator := get condition "operator" in
  let v := get condition "value" in
  if is_string field "totalSpend" then
    buildNumericCondition "totalSpend" operator (parseFloat P v)
  else if is_string field "visitCount" then
    buildNumericCondition "visitCount" operator (parseInt P v)
  else if is_string field "lastVisit" then
    buildDateCondition "lastVisit" operator v
  else if is_string field "email" then
    buildStringCondition "email" operator v
  else Throw (UnsupportedField field).

(** The first half of [evaluateSegmentRules]: the [where] clause. *)
Definition buildWhereClause (rules : value) : result CustomerWhere :=
  type <- getProp rules "type" ;;
  if is_string type "AND" then
    ws <- array_map (get rules "conditions") buildCondition ;; Ok (AND ws)
  else if is_string type "OR" then
    ws <- array_map (get rules "conditions") buildCondition ;; Ok (OR ws)
  else
    w <- buildCondition rules ;; Ok (Single w).

(** The [catch] logs and throws again, so an exception of either half
    escapes as it is. *)
Definition evaluateSegmentRules (rules : value) (db : Db) : result (list string) :=
  whereClause <- buildWhereClause rules ;;
  customers <- findMany P whereClause db ;;
  Ok (map id customers).

End WithPlatform.
End SegmentEvaluator.

(* ===================================================================== *)
(** * Back end: the segment routes                                        *)
(* ===================================================================== *)

Module SegmentsRoute.
Import Js Prisma SegmentEvaluator.

(** The JSON body of a request and the authenticated user. [name] and
    [description] are strings when present. *)
Record Request : Type := {
  body_name : option string;
  body_description : option string;
  body_rules : value;
  user_id : string
}.

Inductive Response : Type :=
| Status400                                   (* { errors } *)
| Status201 (created : Segment) (customerCount : nat)
| Status200 (customerCount : nat) (sampleCustomers : list string)
| Status500 (message : string).

(** [body('name').trim().notEmpty()] *)
Definition nameValid (r : Request) : bool :=
  match body_name r with
  | Some s => negb (String.eqb (trim s) "")
  | None => false
  end.

(** [body('rules').isObject()] *)
Definition rulesValid (r : Request) : bool :=
  match body_rules r with
  | VObject _ => true
  | _ => false
  end.

(** [l.slice(i, j)] for [i <= j] *)
Definition slice {A} (i j : nat) (l : list A) : list A :=
  firstn (j - i) (skipn i l).

Definition batchSize : nat := 100.

(** [for (let i = 0; i < matchingCustomers.length; i += batchSize)];
    [fuel] bounds the number of iterations, and the length of the list
    is always enough. *)
Fixpoint addInBatches (fuel i : nat) (matchingCustomers : list string)
  (segId : string) (db : Db) : Db :=
  match fuel with
  | O => db
  | S fuel' =>
      if (i <? List.length matchingCustomers)%nat then
        let batch := slice i (i + batchSize) matchingCustomers in
        addInBatches fuel' (i + batchSize) matchingCustomers segId
          (customerSegment_createMany
             (map (fun customerId => {| customerId := customerId; segmentId := segId |}) batch)
             db)
      else db
  end.

Section WithPlatform.
Variable P : Platform.
Variable now : Z.

(** [router.post('/')]; [newId] is the id the store gives the new row. *)
Definition postSegment (newId : string) (req : Request) (db : Db) : Db * Response :=
  if negb (nameValid req && rulesValid req) then (db, Status400)
  else
    let name := match body_name req with Some s => trim s | None => "" end in
    let description := option_map trim (body_description req) in
    let rules := body_rules req in
    let segment :=
      {| segment_id := newId; segment_name := name;
         segment_description := description; segment_rules := rules;
         createdById := user_id req |} in
    let db1 := segment_create segment db in
    match evaluateSegmentRules P now rules db1 with
    | Throw _ => (db1, Status500 "Error creating segment")
    | Ok matchingCustomers =>
        let db2 := addInBatches (List.length matchingCustomers) 0 matchingCustomers newId db1 in
        (db2, Status201 segment (List.length matchingCustomers))
    end.

(** [router.post('/preview')] *)
Definition postPreview (req : Request) (db : Db) : Db * Response :=
  if negb (rulesValid req) then (db, Status400)
  else
    match evaluateSegmentRules P now (body_rules req) db with
    | Throw _ => (db, Status500 "Error previewing segment")
    | Ok matchingCustomers =>
        (db, Status200 (List.length matchingCustomers) (slice 0 5 matchingCustomers))
    end.

End WithPlatform.
End SegmentsRoute.

(* ===================================================================== *)
(** * Front end: records kept in localStorage                             *)
(* ===================================================================== *)

Module Frontend.
Import Js.

Record Customer : Type := {
  id : string;
  name : string;
  email : string;
  phone : string;
  totalPurchases : Z
}.

Record Segment : Type := {
  segment_id : string;
  segment_name : string;
  segment_description : string;
  customerCount : nat;
  rules : list string;
  matchedCustomerIds : list string
}.

(** The two keys the pages read and write; [None] is a key never set. *)
Record LocalStorage : Type := {
  stored_customers : option (list Customer);
  stored_segments : option (list Segment)
}.

(** [JSON.parse(localStorage.getItem(key) || "[]")] *)
Definition orEmpty {A} (item : option (list A)) : list A :=
  match item with
  | Some l => l
  | None => []
  end.

(** ** Values the rule evaluator compares *)

Inductive jsval : Type :=
| Undefined
| Number (n : number)
| Str (s : string)
| Inherited (text : string).   (* a member of Object.prototype, with its text *)

(** The members every object inherits, with the string each converts to. *)
Definition prototypeMember (k : string) : option string :=
  let native (f : string) := Some ("function " ++ f ++ "() { [native code] }") in
  if String.eqb k "constructor" then native "Object"
  else if String.eqb k "__proto__" then Some "[object Object]"
  else if existsb (String.eqb k)
            ["toString"; "toLocaleString"; "valueOf"; "hasOwnProperty";
             "isPrototypeOf"; "propertyIsEnumerable"; "__defineGetter__";
             "__defineSetter__"; "__lookupGetter__"; "__lookupSetter__"]
       then native k
  else None.

(** [customer[field]] *)
Definition getField (customer : Customer) (field : string) : jsval :=
  if String.eqb field "id" then Str (id customer)
  else if String.eqb field "name" then Str (name customer)
  else if String.eqb field "email" then Str (email customer)
  else if String.eqb field "phone" then Str (phone customer)
  else if String.eqb field "totalPurchases"
       then Number (Fin (inject_Z (totalPurchases customer)))
  else match prototypeMember field with
       | Some text => Inherited text
       | None => Undefined
       end.

Definition isKey (field : string) : bool :=
  existsb (String.eqb field) ["id"; "name"; "email"; "phone"; "totalPurchases"].

Definition toPrimitive (v : jsval) : jsval :=
  match v with
  | Inherited text => Str text
  | _ => v
  end.

Definition toNumber (v : jsval) : number :=
  match v with
  | Undefined => NaN
  | Number n => n
  | Str s => Number_string s
  | Inherited text => Number_string text
  end.

(** [x < y] *)
Definition lessThan (x y : jsval) : bool :=
  match toPrimitive x, toPrimitive y with
  | Str a, Str b => str_lt a b
  | px, py => num_lt (toNumber px) (toNumber py)
  end.

(** [x > y] *)
Definition greaterThan (x y : jsval) : bool := lessThan y x.

(** [x == y]; the right-hand side is never an object here. *)
Definition looseEquals (x y : jsval) : bool :=
  match toPrimitive x, y with
  | Undefined, Undefined => true
  | Number a, Number b => num_eq a b
  | Str a, Str b => String.eqb a b
  | Number a, Str b => num_eq a (Number_string b)
  | Str a, Number b => num_eq (Number_string a) b
  | _, _ => false
  end.

End Frontend.

(* ===================================================================== *)
(** * Front end: the segments page                                        *)
(* ===================================================================== *)

Module SegmentsPage.
Import Js Frontend.

(** [isNaN(Number(value)) ? value : Number(value)]; a rule with fewer
    than three words leaves [value] undefined. *)
Definition parseValue (value : option string) : jsval :=
  match value with
  | None => Undefined
  | Some s => if isNaN (Number_string s) then Str s else Number (Number_string s)
  end.

(** The callback of [rules.every]. *)
Definition ruleHolds (customer : Customer) (rule : string) : bool :=
  let parts := split " " rule in
  let field := nth 0 parts "" in
  let operator := nth_error parts 1 in
  let value := nth_error parts 2 in
  let fieldValue := getField customer field in
  let parsedValue := parseValue value in
  match operator with
  | Some op =>
      if String.eqb op ">" then greaterThan fieldValue parsedValue
      else if String.eqb op "<" then lessThan fieldValue parsedValue
      else if String.eqb op "=" || String.eqb op "=="
           then looseEquals fieldValue parsedValue
      else if String.eqb op "!=" then negb (looseEquals fieldValue parsedValue)
      else false
  | None => false                (* switch (undefined) takes the default *)
  end.

Definition getMatchedCustomers (customers : list Customer) (rules : list string)
  : list Customer :=
  List.filter (fun customer => forallb (ruleHolds customer) rules) customers.

(** The component state. *)
Record State : Type := {
  segments : list Segment;
  customers : list Customer;
  name : string;
  description : string;
  rules : list string;
  isCreating : bool;
  editingId : option string
}.

(** A string or null used as a condition. *)
Definition truthy (s : option string) : bool :=
  match s with
  | Some s => negb (String.eqb s "")
  | None => false
  end.

Inductive Outcome : Type :=
| Alerted (message : string)
| Saved.

Definition handleEdit (segment : Segment) (st : State) : State :=
  {| segments := segments st; customers := customers st;
     name := segment_name segment;
     description := segment_description segment;
     rules := Frontend.rules segment;
     isCreating := true;
     editingId := Some (segment_id segment) |}.

(** [handleDelete], after the user's answer to the confirm dialog. *)
Definition handleDelete (confirmed : bool) (segmentId : string)
  (st : State) (ls : LocalStorage) : State * LocalStorage :=
  if negb confirmed then (st, ls)
  else
    let updatedSegments :=
      List.filter (fun s => negb (String.eqb (segment_id s) segmentId)) (segments st) in
    ({| segments := updatedSegments; customers := customers st;
        name := name st; description := description st; rules := rules st;
        isCreating := isCreating st; editingId := editingId st |},
     {| stored_customers := stored_customers ls;
        stored_segments := Some updatedSegments |}).

(** [handleCreateSegment]; [dateNow] is [Date.now().toString()]. *)
Definition handleCreateSegment (dateNow : string) (st : State) (ls : LocalStorage)
  : State * LocalStorage * Outcome :=
  if String.eqb (name st) "" || String.eqb (description st) ""
     || (List.length (rules st) =? 0)%nat
  then (st, ls, Alerted "Please fill in all fields and define at least one rule.")
  else
    let matched := getMatchedCustomers (customers st) (rules st) in
    let newSegment :=
      {| segment_id := if truthy (editingId st)
                       then match editingId st with Some i => i | None => dateNow end
                       else dateNow;
         segment_name := name st;
         segment_description := description st;
         customerCount := List.length matched;
         Frontend.rules := rules st;
         matchedCustomerIds := map id matched |} in
    let updatedSegments :=
      if truthy (editingId st) then
        map (fun s => if String.eqb (segment_id s)
                           (match editingId st with Some i => i | None => "" end)
                      then newSegment else s)
            (segments st)
      else (segments st ++ [newSegment])%list in
    ({| segments := updatedSegments; customers := customers st;
        name := ""; description := ""; rules := [];
        isCreating := false; editingId := None |},
     {| stored_customers := stored_customers ls;
        stored_segments := Some updatedSegments |},
     Saved).

End SegmentsPage.

(* ===================================================================== *)
(** * Front end: the customers page                                       *)
(* ===================================================================== *)

Module CustomersPage.
Import Js Frontend.

(** [updateSegmentCustomerCount]; [customers] is the component state the
    closure was created with. *)
Definition updateSegmentCustomerCount (customers : list Customer) (ls : LocalStorage)
  : LocalStorage :=
  let segments := orEmpty (stored_segments ls) in
  let customersInSegment :=
    List.filter (fun customer => 1 <? totalPurchases customer) customers in
  let segments' :=
    map (fun segment =>
           {| segment_id := segment_id segment;
              segment_name := segment_name segment;
              segment_description := segment_description segment;
              customerCount := List.length customersInSegment;
              rules := rules segment;
              matchedCustomerIds := matchedCustomerIds segment |})
        segments in
  {| stored_customers := stored_customers ls;
     stored_segments := Some segments' |}.

(** [handleMakePurchase]: returns the new component state and storage.
    [setCustomers] takes effect at the next render, so the call of
    [updateSegmentCustomerCount] still sees the list from before the
    purchase. *)
Definition handleMakePurchase (customerId : string) (customers : list Customer)
  (ls : LocalStorage) : list Customer * LocalStorage :=
  let updatedCustomers :=
    map (fun customer =>
           if String.eqb (id customer) customerId then
             {| id := id customer; name := name customer;
                email := email customer; phone := phone customer;
                totalPurchases := totalPurchases customer + 1 |}
           else customer)
        customers in
  let ls1 := {| stored_customers := Some updatedCustomers;
                stored_segments := stored_segments ls |} in
  (updatedCustomers, updateSegmentCustomerCount customers ls1).

End CustomersPage.

(* ===================================================================== *)
(** * Data for the examples                                               *)
(* ===================================================================== *)

Module Samples.
Import Js.

Definition printZ (z : Z) : string :=
  DecimalString.NilZero.string_of_int (Z.to_int z).

(** Up to [n] digits after the point of [r / d], for [0 <= r < d]. *)
Fixpoint fraction (n : nat) (r d : Z) : string :=
  match n with
  | O => ""
  | S n' =>
      if r =? 0 then ""
      else printZ (10 * r / d) ++ fraction n' (10 * r mod d) d
  end.

Definition printNumber (n : number) : string :=
  match n with
  | NaN => "NaN"
  | Infinity neg => if neg then "-Infinity" else "Infinity"
  | Fin q =>
      let d := Zpos (Qden q) in
      let a := Z.abs (Qnum q) in
      let whole := printZ (a / d) in
      let sign := if Qnum q <? 0 then "-" else "" in
      if a mod d =? 0 then sign ++ whole
      else sign ++ whole ++ "." ++ fraction 20 (a mod d) d
  end.

(** [ToString] of null, undefined, booleans, plain objects, arrays of
    those, and of numbers that print in plain decimal notation. *)
Fixpoint printValue (v : value) : string :=
  match v with
  | VUndefined => "undefined"
  | VNull => "null"
  | VBool b => if b then "true" else "false"
  | VNumber n => printNumber n
  | VString s => s
  | VObject _ => "[object Object]"
  | VArray l =>
      let element (x : value) : string :=
        match x with
        | VUndefined | VNull => ""
        | _ => printValue x
        end in
      (fix join (l : list value) : string :=
         match l with
         | [] => ""
         | [x] => element x
         | x :: r => element x ++ "," ++ join r
         end) l
  end.

(** [Date.parse] on a few ISO dates. *)
Definition parseIso (s : string) : Date :=
  if String.eqb s "1970-01-01T00:00:00.000Z" then Time 0
  else if String.eqb s "2024-01-01T00:00:00.000Z" then Time 1704067200000
  else if String.eqb s "2024-06-30T00:00:00.000Z" then Time 1719705600000
  else if String.eqb s "2024-12-31T00:00:00.000Z" then Time 1735603200000
  else InvalidDate.

(** [LIKE] as PostgreSQL has it: [%] stands for any text, [_] for any
    one character, a backslash takes the next character literally, and
    letter case counts. *)
Definition backslash : ascii := Ascii.ascii_of_nat 92.

Fixpoint like (pattern text : string) {struct pattern} : bool :=
  match pattern with
  | EmptyString => String.eqb text ""
  | String p rest =>
      if Ascii.eqb p "%" then
        (fix anywhere (t : string) : bool :=
           like rest t ||
           match t with
           | String _ t' => anywhere t'
           | EmptyString => false
           end) text
      else if Ascii.eqb p "_" then
        match text with
        | String _ t' => like rest t'
        | EmptyString => false
        end
      else if Ascii.eqb p backslash then
        match rest, text with
        | String q rest', String a t' => Ascii.eqb a q && like rest' t'
        | _, _ => false
        end
      else
        match text with
        | String a t' => Ascii.eqb a p && like rest t'
        | EmptyString => false
        end
  end.

(** A pattern that ends in its escape character is rejected. *)
Fixpoint escapesClosed (pattern : string) : bool :=
  match pattern with
  | EmptyString => true
  | String p rest =>
      if Ascii.eqb p backslash then
        match rest with
        | String _ rest' => escapesClosed rest'
        | EmptyString => false
        end
      else escapesClosed rest
  end.

Definition platform : Platform :=
  {| ToString := printValue; Date_parse := parseIso;
     LIKE := fun pattern => if escapesClosed pattern then Some (like pattern) else None;
     sameText := String.eqb |}.

(** A condition [{ field, operator, value }]. *)
Definition condition (field operator : string) (v : value) : value :=
  VObject [("field", VString field); ("operator", VString operator); ("value", v)].

Definition tree (type : string) (conditions : list value) : value :=
  VObject [("type", VString type); ("conditions", VArray conditions)].

Definition num (z : Z) : value := VNumber (Fin (inject_Z z)).

Definition shopper (i : string) (spend : Z) (visits : Z) (last : option Z)
  : Prisma.Customer :=
  {| Prisma.id := i; Prisma.email := i ++ "@example.com"; Prisma.name := i;
     Prisma.totalSpend := inject_Z spend; Prisma.visitCount := visits;
     Prisma.lastVisit := last |}.

(** The three customers of the scenario, and four more. *)
Definition db : Prisma.Db :=
  {| Prisma.customer :=
       [ shopper "c1" 1200 3 (Some 1704067200000);
         shopper "c2" 50 1 None;
         shopper "c3" 800 5 (Some 1719705600000);
         shopper "c4" 500 3 (Some 1735603200000);
         shopper "c5" 900 7 (Some 0);
         shopper "c6" 2000 9 (Some 1704067200000);
         shopper "c7" 700 4 (Some 1719705600001) ];
     Prisma.segment := [];
     Prisma.customerSegment := [] |}.

(** The scenario: spend 1200, 50, 800 and visits 3, 1, 5. *)
Definition scenario : Prisma.Db :=
  {| Prisma.customer :=
       [ shopper "1" 1200 3 None; shopper "2" 50 1 None; shopper "3" 800 5 None ];
     Prisma.segment := [];
     Prisma.customerSegment := [] |}.

Definition request (n d : option string) (r : value) : SegmentsRoute.Request :=
  {| SegmentsRoute.body_name := n; SegmentsRoute.body_description := d;
     SegmentsRoute.body_rules := r; SegmentsRoute.user_id := "u1" |}.

Definition buyer (i : string) (purchases : Z) : Frontend.Customer :=
  {| Frontend.id := i; Frontend.name := "Customer " ++ i;
     Frontend.email := i ++ "@example.com"; Frontend.phone := "555-0100";
     Frontend.totalPurchases := purchases |}.

(** The segments page with two customers and a filled form. *)
Definition form (n d : string) (r : list string) (editing : option string)
  (saved : list Frontend.Segment) : SegmentsPage.State :=
  {| SegmentsPage.segments := saved;
     SegmentsPage.customers := [buyer "1" 2; buyer "2" 3];
     SegmentsPage.name := n; SegmentsPage.description := d;
     SegmentsPage.rules := r; SegmentsPage.isCreating := true;
     SegmentsPage.editingId := editing |}.

Definition emptyStorage : Frontend.LocalStorage :=
  {| Frontend.stored_customers := Some [buyer "1" 2; buyer "2" 3];
     Frontend.stored_segments := None |}.

(** The storage after a segment was created for customers with more
    than two purchases. *)
Definition storageWithFrequent : Frontend.LocalStorage :=
  snd (fst (SegmentsPage.handleCreateSegment "100"
              (form "Frequent" "more than two purchases" ["totalPurchases > 2"] None [])
              emptyStorage)).

(** The storage after two segments were created, neither of which any
    customer matches. *)
Definition storageWithTwo : Frontend.LocalStorage :=
  let '(st1, ls1, _) :=
    SegmentsPage.handleCreateSegment "100"
      (form "Big" "more than five purchases" ["totalPurchases > 5"] None [])
      emptyStorage in
  snd (fst (SegmentsPage.handleCreateSegment "101"
              (form "New" "no purchase yet" ["totalPurchases < 1"] None
                 (SegmentsPage.segments st1))
              ls1)).

(** A create request without a description and with no condition. *)
Definition everyone : SegmentsRoute.Request :=
  request (Some "Everyone") None (tree "AND" []).

(** A create request whose rule names a field the builder does not know. *)
Definition ageOver30 : SegmentsRoute.Request :=
  request (Some "VIP") (Some "over thirty") (condition "age" "gt" (num 30)).

Definition bigSpenders : SegmentsRoute.Request :=
  request (Some " Big spenders ") (Some "spend of 900 or more")
    (tree "AND" [condition "totalSpend" "gte" (VString "900")]).

Definition c1 : Prisma.Customer := shopper "c1" 1200 3 (Some 1704067200000).
Definition c4 : Prisma.Customer := shopper "c4" 500 3 (Some 1735603200000).

Definition year2024 : value :=
  condition "lastVisit" "between"
    (VString "2024-01-01T00:00:00.000Z,2024-12-31T00:00:00.000Z").

Definition spendOver500 : value := condition "totalSpend" "gt" (num 500).
Definition threeVisits : value := condition "visitCount" "gte" (num 3).
Definition spendOver1000 : value := condition "totalSpend" "gt" (VString "1000").

Definition badOperatorFirst : value :=
  tree "AND" [ condition "totalSpend" "foo" (num 500);
               condition "age" "gt" (num 1) ].

Definition unknownFieldLast : value :=
  tree "OR" [ condition "totalSpend" "gt" (num 500);
              condition "age" "gt" (num 1);
              condition "email" "like" (VString "x") ].

(** A tree that evaluates on its own, to be nested in another. *)
Definition visitsOrSpend : value := tree "OR" [threeVisits; spendOver1000].

End Samples.

(* ===================================================================== *)
(** * Vocabulary of the statements                                        *)
(* ===================================================================== *)

Module Spec.
Import Js Prisma SegmentEvaluator.

(** The ids of the customers a predicate selects, in store order. *)
Definition matchedIds (p : Customer -> bool) (db : Db) : list string :=
  map id (List.filter p (customer db)).

Definition allIds (db : Db) : list string := map id (customer db).

(** The fields [buildCondition] has a case for. *)
Definition recognizedField (field : value) : bool :=
  is_string field "totalSpend" || is_string field "visitCount" ||
  is_string field "lastVisit" || is_string field "email".

Definition isConnective (rules : value) : bool :=
  is_string (get rules "type") "AND" || is_string (get rules "type") "OR".

(** The conditions of a rule tree: the children of an AND or OR node, the
    rule itself when it is a bare condition. *)
Definition conditionsOf (rules : value) : option (list value) :=
  if isConnective rules then
    match get rules "conditions" with
    | VArray l => Some l
    | _ => None
    end
  else Some [rules].

(** The comparison a numeric operator name stands for. *)
Definition numericOp (operator : value) : option CompareOp :=
  if is_string operator "gt" then Some gt
  else if is_string operator "gte" then Some gte
  else if is_string operator "lt" then Some lt
  else if is_string operator "lte" then Some lte
  else if is_string operator "eq" then Some equals
  else None.

(** A membership row of a segment. *)
Definition member (segId customerId : string) : CustomerSegment :=
  {| customerId := customerId; segmentId := segId |}.

(** The row [router.post('/')] hands to [prisma.segment.create]. *)
Definition newSegment (newId : string) (req : SegmentsRoute.Request) : Segment :=
  {| segment_id := newId;
     segment_name := match SegmentsRoute.body_name req with
                     | Some s => trim s
                     | None => ""
                     end;
     segment_description := option_map trim (SegmentsRoute.body_description req);
     segment_rules := SegmentsRoute.body_rules req;
     createdById := SegmentsRoute.user_id req |}.

(** The invariant of a stored front-end segment. *)
Definition countConsistent (s : Frontend.Segment) : Prop :=
  Frontend.customerCount s = List.length (Frontend.matchedCustomerIds s).

(** The segment [handleCreateSegment] builds from the form. *)
Definition materialized (segId : string) (st : SegmentsPage.State) : Frontend.Segment :=
  let matched :=
    SegmentsPage.getMatchedCustomers (SegmentsPage.customers st) (SegmentsPage.rules st) in
  {| Frontend.segment_id := segId;
     Frontend.segment_name := SegmentsPage.name st;
     Frontend.segment_description := SegmentsPage.description st;
     Frontend.customerCount := List.length matched;
     Frontend.rules := SegmentsPage.rules st;
     Frontend.matchedCustomerIds := map Frontend.id matched |}.

(** The form after a save. *)
Definition afterSave (updatedSegments : list Frontend.Segment) (st : SegmentsPage.State)
  : SegmentsPage.State :=
  {| SegmentsPage.segments := updatedSegments;
     SegmentsPage.customers := SegmentsPage.customers st;
     SegmentsPage.name := ""; SegmentsPage.description := "";
     SegmentsPage.rules := []; SegmentsPage.isCreating := false;
     SegmentsPage.editingId := None |}.

Definition withSegments (updatedSegments : list Frontend.Segment)
  (ls : Frontend.LocalStorage) : Frontend.LocalStorage :=
  {| Frontend.stored_customers := Frontend.stored_customers ls;
     Frontend.stored_segments := Some updatedSegments |}.

(** The three words of a rule string. *)
Definition fieldOf (rule : string) : string := nth 0 (split " " rule) "".
Definition operatorOf (rule : string) : option string := nth_error (split " " rule) 1.
Definition valueOf (rule : string) : option string := nth_error (split " " rule) 2.

Definition knownOperator (op : string) : bool :=
  existsb (String.eqb op) [">"; "<"; "="; "=="; "!="].

Definition unknownOperator (rule : string) : Prop :=
  match operatorOf rule with
  | Some op => knownOperator op = false
  | None => True
  end.

(** A field that [customer[field]] reads as undefined. *)
Definition noSuchProperty (field : string) : Prop :=
  Frontend.isKey field = false /\ Frontend.prototypeMember field = None.

End Spec.

(* ===================================================================== *)
(** * Front end: the rest of the segments page                            *)
(* ===================================================================== *)

Module SegmentsForm.
Import Js Frontend SegmentsPage.

Definition withRules (r : list string) (st : State) : State :=
  {| segments := segments st; customers := customers st;
     name := name st; description := description st; rules := r;
     isCreating := isCreating st; editingId := editingId st |}.

(** [handleAddRule]; [answer] is what [prompt] returned, [None] when the
    dialog was dismissed. *)
Definition handleAddRule (answer : option string) (st : State) : State :=
  match answer with
  | Some newRule =>
      if truthy answer then withRules (rules st ++ [newRule])%list st else st
  | None => st
  end.

(** [handleRemoveRule] *)
Definition handleRemoveRule (rule : string) (st : State) : State :=
  withRules (List.filter (fun r => negb (String.eqb r rule)) (rules st)) st.

(** [onOpenChange={setIsCreating}] of the dialog *)
Definition setIsCreating (open : bool) (st : State) : State :=
  {| segments := segments st; customers := customers st;
     name := name st; description := description st; rules := rules st;
     isCreating := open; editingId := editingId st |}.

(** The Cancel button: [setIsCreating(false); setEditingId(null)]. *)
Definition handleCancel (st : State) : State :=
  {| segments := segments st; customers := customers st;
     name := name st; description := description st; rules := rules st;
     isCreating := false; editingId := None |}.

End SegmentsForm.

(* ===================================================================== *)
(** * Front end: the rest of the customers page                           *)
(* ===================================================================== *)

Module CustomersForm.
Import Js Frontend.

Record NewCustomer : Type := {
  new_name : string;
  new_email : string;
  new_phone : string
}.

Record State : Type := {
  customers : list Customer;
  newCustomer : NewCustomer;
  isDialogOpen : bool
}.

(** [handleAddCustomer]; [dateNow] is [Date.now().toString()]. The last
    component is the text of the alert, if one was shown. *)
Definition handleAddCustomer (dateNow : string) (st : State) (ls : LocalStorage)
  : State * LocalStorage * option string :=
  let form := newCustomer st in
  if String.eqb (new_name form) "" || String.eqb (new_email form) ""
     || String.eqb (new_phone form) ""
  then (st, ls, Some "Please fill in all fields.")
  else
    let newCustomerData :=
      {| id := dateNow; totalPurchases := 0;
         name := new_name form; email := new_email form; phone := new_phone form |} in
    let updatedCustomers := (customers st ++ [newCustomerData])%list in
    ({| customers := updatedCustomers;
        newCustomer := {| new_name := ""; new_email := ""; new_phone := "" |};
        isDialogOpen := false |},
     {| stored_customers := Some updatedCustomers;
        stored_segments := stored_segments ls |},
     None).

End CustomersForm.

(* ===================================================================== *)
(** * Front end: the campaigns page                                       *)
(* ===================================================================== *)

Module CampaignsPage.
Import Js.

Record Metrics : Type := {
  sent : Z;
  opened : Z;
  clicked : Z
}.

Record Campaign : Type := {
  id : string;
  name : string;
  description : string;
  deliveryStatus : string;
  status : string;
  metrics : option Metrics        (* [metrics?]: absent in campaigns stored earlier *)
}.

Record State : Type := {
  campaigns : list Campaign;
  form_name : string;
  form_description : string;
  form_status : string;
  filterStatus : string
}.

Definition withCampaigns (cs : list Campaign) (st : State) : State :=
  {| campaigns := cs; form_name := form_name st;
     form_description := form_description st; form_status := form_status st;
     filterStatus := filterStatus st |}.

(** [{ ...c, metrics: c.metrics ?? { sent: 0, opened: 0, clicked: 0 } }] *)
Definition migrate (c : Campaign) : Campaign :=
  {| id := id c; name := name c; description := description c;
     deliveryStatus := deliveryStatus c; status := status c;
     metrics := Some (match metrics c with
                      | Some m => m
                      | None => {| sent := 0; opened := 0; clicked := 0 |}
                      end) |}.

(** The effect run when the page mounts; [stored] is the item under the
    key [campaigns]. *)
Definition onMount (stored : option (list Campaign)) (st : State)
  : State * option (list Campaign) :=
  match stored with
  | Some parsed => (withCampaigns (map migrate parsed) st, Some (map migrate parsed))
  | None => (st, None)
  end.

(** [Math.random() < 0.9 ? "SENT" : "NOT RECEIVED"] *)
Definition simulateDeliveryStatus (random : Q) : string :=
  if Qlt_bool random (9 # 10) then "SENT" else "NOT RECEIVED".

(** [Math.floor(Math.random() * n)] for each of the three counters. *)
Definition simulateMetrics (r1 r2 r3 : Q) : Metrics :=
  {| sent := Qfloor (r1 * 100);
     opened := Qfloor (r2 * 50);
     clicked := Qfloor (r3 * 20) |}.

(** [handleCreateCampaign]; [r0] to [r3] are the four values
    [Math.random()] returns, in call order. *)
Definition handleCreateCampaign (dateNow : string) (r0 r1 r2 r3 : Q)
  (st : State) (stored : option (list Campaign))
  : State * option (list Campaign) * option string :=
  if String.eqb (form_name st) "" || String.eqb (form_description st) ""
  then (st, stored, Some "Please fill in all fields.")
  else
    let newCampaign :=
      {| id := dateNow; name := form_name st; description := form_description st;
         deliveryStatus := simulateDeliveryStatus r0;
         status := form_status st;
         metrics := Some (simulateMetrics r1 r2 r3) |} in
    let updated := (campaigns st ++ [newCampaign])%list in
    ({| campaigns := updated; form_name := ""; form_description := "";
        form_status := "draft"; filterStatus := filterStatus st |},
     Some updated, None).

(** [{ ...c, status: newStatus }] *)
Definition withStatus (newStatus : string) (c : Campaign) : Campaign :=
  {| id := id c; name := name c; description := description c;
     deliveryStatus := deliveryStatus c; status := newStatus;
     metrics := metrics c |}.

Definition handleStatusChange (i newStatus : string)
  (st : State) (stored : option (list Campaign))
  : State * option (list Campaign) :=
  let updated :=
    map (fun c => if String.eqb (id c) i then withStatus newStatus c else c)
        (campaigns st) in
  (withCampaigns updated st, Some updated).

Definition filtered (st : State) : list Campaign :=
  if String.eqb (filterStatus st) "all" then campaigns st
  else List.filter (fun c => String.eqb (status c) (filterStatus st)) (campaigns st).

End CampaignsPage.

(* ===================================================================== *)
(** * Front end: the dashboard page                                       *)
(* ===================================================================== *)

Module DashboardPage.
Import Js.

Record Activity : Type := {
  id : string;
  type : string;
  action : string;
  name : string;
  timestamp : Z
}.

Record DashboardStats : Type := {
  totalCustomers : nat;
  totalSegments : nat;
  totalCampaigns : nat;
  activeCampaigns : nat
}.

(** The text of an integer in a template literal. *)
Definition decimal (z : Z) : string :=
  DecimalString.NilZero.string_of_int (Z.to_int z).

(** [formatTimestamp]; [now] is [Date.now()]. *)
Definition formatTimestamp (now : Z) (timestamp : Z) : string :=
  let diff := now - timestamp in
  let minutes := diff / 60000 in
  let hours := minutes / 60 in
  let days := hours / 24 in
  if 0 <? days then decimal days ++ "d ago"
  else if 0 <? hours then decimal hours ++ "h ago"
  else if 0 <? minutes then decimal minutes ++ "m ago"
  else "Just now".

(** [l.sort((a, b) => b.timestamp - a.timestamp)]: the sort is stable, so
    an activity goes in front of the first one that is not newer. *)
Fixpoint insertByTimestamp (a : Activity) (sorted : list Activity) : list Activity :=
  match sorted with
  | [] => [a]
  | b :: r =>
      if timestamp b <=? timestamp a then a :: sorted
      else b :: insertByTimestamp a r
  end.

Definition sortByTimestamp (l : list Activity) : list Activity :=
  fold_right insertByTimestamp [] l.

(** [fetchStats]: the four arguments are the items stored under
    [customers], [segments], [campaigns] and [activities]. *)
Definition fetchStats
  (customers : option (list Frontend.Customer))
  (segments : option (list Frontend.Segment))
  (campaigns : option (list CampaignsPage.Campaign))
  (storedActivities : option (list Activity))
  : DashboardStats * list Activity :=
  ({| totalCustomers := List.length (Frontend.orEmpty customers);
      totalSegments := List.length (Frontend.orEmpty segments);
      totalCampaigns := List.length (Frontend.orEmpty campaigns);
      activeCampaigns :=
        List.length
          (List.filter (fun c => String.eqb (CampaignsPage.status c) "active")
             (Frontend.orEmpty campaigns)) |},
   SegmentsRoute.slice 0 5 (sortByTimestamp (Frontend.orEmpty storedActivities))).

End DashboardPage.

(* ===================================================================== *)
(** * Back end: the customer list route                                   *)
(* ===================================================================== *)

Module CustomersRoute.
Import Js.




Record Pagination : Type := {
  total : Z;
  pagination_page : Z;
  pagination_limit : Z;
  pages : Z
}.

Inductive Response (A : Type) : Type :=
| Json (customers : list A) (pagination : Pagination)
| Status500 (message : string).
Arguments Json {A} customers pagination.
Arguments Status500 {A} message.



End CustomersRoute.

(* ===================================================================== *)
(** * Back end: the delivery statistics route                             *)
(* ===================================================================== *)

Module DeliveryRoute.
Import Js.

Record Campaign : Type := {
  id : string;
  createdById : string
}.

Record CommunicationLog : Type := {
  campaignId : string;
  status : string
}.

Record Db : Type := {
  campaign : list Campaign;
  communicationLog : list CommunicationLog
}.

(** One more row in the group of [s]. *)
Fixpoint bump (s : string) (groups : list (string * Z)) : list (string * Z) :=
  match groups with
  | [] => [(s, 1)]
  | (s', n) :: r =>
      if String.eqb s s' then (s', n + 1) :: r else (s', n) :: bump s r
  end.

(** [groupBy({ by: ['status'], where: { campaignId }, _count: true })]:
    one group for each status that occurs, with the number of its rows. *)
Definition groupByStatus (cid : string) (db : Db) : list (string * Z) :=
  fold_left (fun groups row => bump (status row) groups)
    (List.filter (fun row => String.eqb (campaignId row) cid) (communicationLog db))
    [].

(** [stats.find(s => s.status === lit)?._count || 0] *)
Definition countOf (lit : string) (stats : list (string * Z)) : Z :=
  match List.find (fun g => String.eqb (fst g) lit) stats with
  | Some g => snd g
  | None => 0
  end.

(** A count as a double (binary64); a count below [2^53] is one
    exactly. *)
Definition double (z : Z) : SpecFloat.spec_float :=
  SpecFloat.binary_normalize 53 1024 z 0 false.

(** [(part / total) * 100] in doubles: the quotient is rounded, then the
    product. *)
Definition percent (part total : Z) : SpecFloat.spec_float :=
  SpecFloat.SFmul 53 1024 (SpecFloat.SFdiv 53 1024 (double part) (double total))
    (double 100).

Record Stats : Type := {
  total : Z;
  sent : Z;
  failed : Z;
  pending : Z;
  deliveryRate : SpecFloat.spec_float;
  failureRate : SpecFloat.spec_float
}.

Inductive Response : Type :=
| Json (stats : Stats)
| Status404 (message : string).

(** [router.get('/stats/:campaignId')] *)
Definition getStats (cid userId : string) (db : Db) : Response :=
  match List.find (fun c => String.eqb (id c) cid && String.eqb (createdById c) userId)
          (campaign db) with
  | None => Status404 "Campaign not found"
  | Some _ =>
      let stats := groupByStatus cid db in
      let total := fold_left (fun acc curr => acc + snd curr) stats 0 in
      let sent := countOf "SENT" stats in
      let failed := countOf "FAILED" stats in
      let pending := countOf "PENDING" stats in
      Json {| total := total; sent := sent; failed := failed; pending := pending;
              deliveryRate := if 0 <? total then percent sent total else double 0;
              failureRate := if 0 <? total then percent failed total else double 0 |}
  end.

End DeliveryRoute.

(* ===================================================================== *)
(** * Back end: the bearer token check                                    *)
(* ===================================================================== *)

Module AuthRoute.
Import Js.

(** What [jwt.verify] does with a token. *)
Inductive Verified (A : Type) : Type :=
| Decoded (payload : A)
| TokenExpiredError
| OtherError.
Arguments Decoded {A} payload.
Arguments TokenExpiredError {A}.
Arguments OtherError {A}.

Inductive Outcome (A : Type) : Type :=
| Next (user : A)                 (* [req.user = decoded; next()] *)
| Status401 (message : string).
Arguments Next {A} user.
Arguments Status401 {A} message.

(** [verifyTokenMiddleware]; [authHeader] is [req.headers.authorization]. *)
Definition verifyTokenMiddleware {A} (verify : option string -> Verified A)
  (authHeader : option string) : Outcome A :=
  match authHeader with
  | None => Status401 "No token provided"
  | Some header =>
      if String.eqb header "" || negb (startsWith header "Bearer ")
      then Status401 "No token provided"
      else
        let token := nth_error (split " " header) 1 in
        match verify token with
        | Decoded decoded => Next decoded
        | TokenExpiredError => Status401 "Token has expired. Please log in again."
        | OtherError => Status401 "Invalid token"
        end
  end.

End AuthRoute.

(* ===================================================================== *)
(** * Vocabulary of the further statements                                *)
(* ===================================================================== *)

Module Spec2.
Import Js.

(** The operators the rule generator is told each field has, as its
    prompt lists them. *)
Definition advertised : list (string * list string) :=
  [ ("totalSpend", ["gt"; "gte"; "lt"; "lte"; "eq"]);
    ("visitCount", ["gt"; "gte"; "lt"; "lte"; "eq"]);
    ("lastVisit", ["before"; "after"; "between"; "daysAgo"]);
    ("email", ["contains"; "startsWith"; "endsWith"; "equals"]) ].

(** A word of a rule string: no space in it. *)
Fixpoint noSpace (s : string) : bool :=
  match s with
  | EmptyString => true
  | String a r => negb (Ascii.eqb a " ") && noSpace r
  end.

(** A stored segment as the segments page writes it. *)
Definition wellFormed (s : Frontend.Segment) : Prop :=
  Frontend.segment_name s <> "" /\ Frontend.segment_description s <> "" /\
  Frontend.rules s <> [].

(** Customers with more than one purchase. *)
Definition repeatBuyers (customers : list Frontend.Customer) : list Frontend.Customer :=
  List.filter (fun c => 1 <? Frontend.totalPurchases c) customers.

(** Newest first. *)
Definition newestFirst (l : list DashboardPage.Activity) : Prop :=
  StronglySorted
    (fun a b => DashboardPage.timestamp b <= DashboardPage.timestamp a) l.


Definition rowsOf (cid : string) (db : DeliveryRoute.Db) : list DeliveryRoute.CommunicationLog :=
  List.filter (fun row => String.eqb (DeliveryRoute.campaignId row) cid)
    (DeliveryRoute.communicationLog db).

Definition rowsWithStatus (lit : string) (rows : list DeliveryRoute.CommunicationLog)
  : list DeliveryRoute.CommunicationLog :=
  List.filter (fun row => String.eqb (DeliveryRoute.status row) lit) rows.

Definition isString (v : value) : bool :=
  match v with VString _ => true | _ => false end.

(** The table of [advertised] as a test. *)
Definition listed (f o v : value) : bool :=
  existsb (fun row => is_string f (fst row) && existsb (is_string o) (snd row)) advertised
  && (negb (is_string o "between") || isString v).

(** The purchases of all customers together. *)
Definition purchasesOf (customers : list Frontend.Customer) : Z :=
  fold_right (fun c acc => Frontend.totalPurchases c + acc) 0 customers.

(** Customers with the id [i]. *)
Definition withId (i : string) (customers : list Frontend.Customer)
  : list Frontend.Customer :=
  List.filter (fun c => String.eqb (Frontend.id c) i) customers.

(** A customer list as the customers page keeps it. *)
Definition sound (customers : list Frontend.Customer) : Prop :=
  NoDup (map Frontend.id customers) /\
  Forall (fun c => 0 <= Frontend.totalPurchases c) customers.

(** A campaign with its three counters. *)
Definition hasMetrics (c : CampaignsPage.Campaign) : Prop :=
  CampaignsPage.metrics c <> None.

(** The counters a new campaign can get. *)
Definition withinBounds (m : CampaignsPage.Metrics) : Prop :=
  0 <= CampaignsPage.sent m <= 99 /\ 0 <= CampaignsPage.opened m <= 49 /\
  0 <= CampaignsPage.clicked m <= 19.

(** A value [Math.random()] can return. *)
Definition unitInterval (r : Q) : Prop := (0 <= r)%Q /\ (r < 1)%Q.

(** A rule none of whose conditions reads the clock: none has the
    operator [daysAgo]. *)
Definition clockFree (rules : value) : bool :=
  let timeless (c : value) := negb (is_string (get c "operator") "daysAgo") in
  if Spec.isConnective rules then
    match get rules "conditions" with
    | VArray cs => forallb timeless cs
    | _ => true
    end
  else timeless rules.

End Spec2.

(* ===================================================================== *)
(** * Data for the further examples                                       *)
(* ===================================================================== *)

Module Samples2.
Import Js Samples.

(** A rule tree with a tree among its conditions. *)
Definition nestedTree : value :=
  tree "AND" [spendOver500; tree "OR" [threeVisits]].

Definition sinceNewYear : value :=
  condition "lastVisit" "between" (VString "2024-01-01T00:00:00.000Z").

Definition thirtyDays : value := condition "lastVisit" "daysAgo" (num 30).

(** The form of the segments page, filled for a first segment, the page
    after the save, and the segment it stored. *)
Definition frequentForm : SegmentsPage.State :=
  form "Frequent" "more than two purchases" ["totalPurchases > 2"] None [].

Definition afterFrequent : SegmentsPage.State :=
  fst (fst (SegmentsPage.handleCreateSegment "100" frequentForm emptyStorage)).

Definition frequent : Frontend.Segment :=
  {| Frontend.segment_id := "100"; Frontend.segment_name := "Frequent";
     Frontend.segment_description := "more than two purchases";
     Frontend.customerCount := 1; Frontend.rules := ["totalPurchases > 2"];
     Frontend.matchedCustomerIds := ["2"] |}.

(** That segment opened for edit and then deleted. *)
Definition deletedWhileEditing : SegmentsPage.State * Frontend.LocalStorage :=
  SegmentsPage.handleDelete true "100"
    (SegmentsPage.handleEdit frequent afterFrequent) storageWithFrequent.

(** The form of the campaigns page, filled. *)
Definition springForm : CampaignsPage.State :=
  {| CampaignsPage.campaigns := []; CampaignsPage.form_name := "Spring sale";
     CampaignsPage.form_description := "ten percent off";
     CampaignsPage.form_status := "active"; CampaignsPage.filterStatus := "all" |}.


(** A communication row. *)
Definition logged (campaignId status : string) : DeliveryRoute.CommunicationLog :=
  {| DeliveryRoute.campaignId := campaignId; DeliveryRoute.status := status |}.

(** One campaign of user u1 with eleven communication rows, two sent and
    nine failed, and a row of another campaign. *)
Definition deliveries : DeliveryRoute.Db :=
  {| DeliveryRoute.campaign :=
       [ {| DeliveryRoute.id := "k1"; DeliveryRoute.createdById := "u1" |} ];
     DeliveryRoute.communicationLog :=
       [ logged "k1" "SENT"; logged "k1" "FAILED"; logged "k2" "SENT";
         logged "k1" "FAILED"; logged "k1" "FAILED"; logged "k1" "SENT";
         logged "k1" "FAILED"; logged "k1" "FAILED"; logged "k1" "FAILED";
         logged "k1" "FAILED"; logged "k1" "FAILED"; logged "k1" "FAILED" ] |}.

(** A verifier that knows one valid and one expired token. *)
Definition verifier (token : option string) : AuthRoute.Verified string :=
  match token with
  | Some t =>
      if String.eqb t "abc" then AuthRoute.Decoded "user-1"
      else if String.eqb t "old" then AuthRoute.TokenExpiredError
      else AuthRoute.OtherError
  | None => AuthRoute.OtherError
  end.

(** The customers page with two customers and a filled form. *)
Definition addAnn : CustomersForm.State :=
  {| CustomersForm.customers := [buyer "1" 1; buyer "2" 3];
     CustomersForm.newCustomer :=
       {| CustomersForm.new_name := "Ann"; CustomersForm.new_email := "ann@example.com";
          CustomersForm.new_phone := "555-0101" |};
     CustomersForm.isDialogOpen := true |}.

(** The campaigns page after the campaign of the form was created. *)
Definition afterSpring : CampaignsPage.State :=
  fst (fst (CampaignsPage.handleCreateCampaign "200" (1 # 2) (1 # 2) (1 # 2) (1 # 2)
              springForm None)).

(** A campaign stored before campaigns had metrics. *)
Definition legacy : CampaignsPage.Campaign :=
  {| CampaignsPage.id := "7"; CampaignsPage.name := "Winter";
     CampaignsPage.description := "old"; CampaignsPage.deliveryStatus := "SENT";
     CampaignsPage.status := "completed"; CampaignsPage.metrics := None |}.

(** A clock reading 40 days after the last visit of customer c4. *)
Definition fortyDaysOn : Z := 1735603200000 + 40 * msPerDay.

Definition awayThirtyDays : SegmentsRoute.Request :=
  request (Some "Away") (Some "no visit for thirty days") thirtyDays.

End Samples2.

(* ===================================================================== *)
(** * The built-ins on a few inputs                                       *)
(* ===================================================================== *)

Module JsExamples.
Import Js Samples.

Example parseFloat_reads_a_prefix :
  parseFloat_string "  12.5abc" = Fin (125 # 10) /\
  parseFloat_string "-1e3" = Fin (-1000) /\
  parseFloat_string "1e" = Fin 1 /\
  parseFloat_string "." = NaN /\
  parseFloat_string "abc" = NaN /\
  parseFloat_string "-Infinity" = Infinity true.
Proof. repeat split. Qed.

Example parseInt_reads_a_prefix :
  parseInt_string " 42px" = Fin 42 /\
  parseInt_string "0x1f" = Fin 31 /\
  parseInt_string "-7.9" = Fin (-7) /\
  parseInt_string "" = NaN /\
  parseInt_string "many" = NaN.
Proof. repeat split. Qed.

Example Number_reads_the_whole_string :
  Number_string "" = Fin 0 /\
  Number_string " 12 " = Fin 12 /\
  Number_string "12px" = NaN /\
  Number_string "0x10" = Fin 16 /\
  Number_string "1e2" = Fin 100 /\
  Number_string "Infinity" = Infinity false.
Proof. repeat split. Qed.

Example split_keeps_empty_words :
  split " " "totalPurchases > 1000" = ["totalPurchases"; ">"; "1000"] /\
  split " " "a  > 5" = ["a"; ""; ">"; "5"] /\
  split "," "" = [""].
Proof. repeat split. Qed.

Example printValue_of_numbers_and_arrays :
  printValue (num 500) = "500" /\
  printValue (VNumber (Fin (-15 # 10))) = "-1.5" /\
  printValue (VArray [num 1; VNull; VString "a"]) = "1,,a".
Proof. repeat split. Qed.

Example loose_comparisons :
  Frontend.looseEquals Frontend.Undefined Frontend.Undefined = true /\
  Frontend.looseEquals (Frontend.Number (Fin 5)) (Frontend.Str "5.0") = true /\
  Frontend.lessThan (Frontend.Str "10") (Frontend.Str "9") = true /\
  Frontend.lessThan (Frontend.Number (Fin 10)) (Frontend.Str "9") = false /\
  Frontend.lessThan Frontend.Undefined (Frontend.Number (Fin 1)) = false.
Proof. repeat split. Qed.

End JsExamples.

(* ===================================================================== *)
(** * Rule evaluation                                                     *)
(* ===================================================================== *)

Module EvaluatorFacts.
Import Js Prisma SegmentEvaluator Spec.

Lemma in_matchedIds (p : Customer -> bool) (db : Db) (x : string) :
  In x (matchedIds p db) <->
  exists c, In c (customer db) /\ id c = x /\ p c = true.
Proof.
  unfold matchedIds. rewrite in_map_iff. split.
  - intros [c [Hid Hin]]. apply filter_In in Hin. exists c. tauto.
  - intros [c [Hin [Hid Hp]]]. exists c. split; [assumption|].
    apply filter_In. tauto.
Qed.

(** Two rows of a table with a unique key that agree on the key are the
    same row. *)
Lemma unique_key {A B} (f : A -> B) (l : list A) (a b : A) :
  NoDup (map f l) -> In a l -> In b l -> f a = f b -> a = b.
Proof.
  induction l as [|x l IH]; simpl; [tauto|].
  intros Hnd Ha Hb Hf. inversion Hnd as [|? ? Hnotin Hnd']; subst.
  destruct Ha as [Ha|Ha], Hb as [Hb|Hb]; subst.
  - reflexivity.
  - exfalso. apply Hnotin. rewrite Hf. now apply in_map.
  - exfalso. apply Hnotin. rewrite <- Hf. now apply in_map.
  - now apply IH.
Qed.

Section WithPlatform.
Variable P : Platform.
Variable now : Z.

Lemma connective_is_object (rules : value) (t : string) :
  get rules "type" = VString t -> getProp rules "type" = Ok (VString t).
Proof.
  destruct rules; simpl; intros H; try discriminate; now rewrite H.
Qed.

Lemma evaluate_AND (db : Db) (rules : value) (cs : list value) (ws : list FieldWhere) :
  get rules "type" = VString "AND" ->
  get rules "conditions" = VArray cs ->
  mapM (buildCondition P now) cs = Ok ws ->
  forallb (validFilter P) ws = true ->
  evaluateSegmentRules P now rules db =
  Ok (matchedIds (fun c => forallb (fun w => holds P w c) ws) db).
Proof.
  intros Ht Hc Hws Hv. unfold evaluateSegmentRules, buildWhereClause.
  rewrite (connective_is_object _ _ Ht). simpl. rewrite Hc. simpl.
  rewrite Hws. simpl. unfold findMany. simpl. now rewrite Hv.
Qed.

Lemma evaluate_OR (db : Db) (rules : value) (cs : list value) (ws : list FieldWhere) :
  get rules "type" = VString "OR" ->
  get rules "conditions" = VArray cs ->
  mapM (buildCondition P now) cs = Ok ws ->
  forallb (validFilter P) ws = true ->
  evaluateSegmentRules P now rules db =
  Ok (matchedIds (fun c => existsb (fun w => holds P w c) ws) db).
Proof.
  intros Ht Hc Hws Hv. unfold evaluateSegmentRules, buildWhereClause.
  rewrite (connective_is_object _ _ Ht). simpl. rewrite Hc. simpl.
  rewrite Hws. simpl. unfold findMany. simpl. now rewrite Hv.
Qed.

Lemma buildCondition_not_nullish (c : value) (w : FieldWhere) :
  buildCondition P now c = Ok w ->
  forall k, getProp c k = Ok (get c k).
Proof.
  unfold buildCondition. destruct c; simpl; intros H k; try discriminate; reflexivity.
Qed.

Lemma evaluate_single (db : Db) (rules : value) (w : FieldWhere) :
  isConnective rules = false ->
  buildCondition P now rules = Ok w ->
  validFilter P w = true ->
  evaluateSegmentRules P now rules db = Ok (matchedIds (holds P w) db).
Proof.
  intros Hn Hw Hv. unfold evaluateSegmentRules, buildWhereClause.
  rewrite (buildCondition_not_nullish _ _ Hw). simpl.
  unfold isConnective in Hn. apply orb_false_iff in Hn as [Ha Ho].
  rewrite Ha, Ho, Hw. simpl. unfold findMany. simpl. now rewrite Hv.
Qed.

Lemma AND_is_intersection (db : Db) (ws : list FieldWhere) (x : string) :
  NoDup (allIds db) ->
  In x (matchedIds (fun c => forallb (fun w => holds P w c) ws) db) <->
  In x (allIds db) /\ forall w, In w ws -> In x (matchedIds (holds P w) db).
Proof.
  intros Hnd. rewrite in_matchedIds. split.
  - intros [c [Hin [Hid Hall]]]. split.
    + unfold allIds. rewrite <- Hid. now apply in_map.
    + intros w Hw. apply in_matchedIds. exists c. repeat split; try assumption.
      rewrite forallb_forall in Hall. now apply Hall.
  - intros [Hx Hall]. unfold allIds in Hx. apply in_map_iff in Hx as [c [Hid Hin]].
    exists c. repeat split; try assumption.
    apply forallb_forall. intros w Hw.
    destruct (proj1 (in_matchedIds _ _ _) (Hall w Hw)) as [c' [Hin' [Hid' Hh]]].
    assert (c' = c) as ->.
    { apply (unique_key id (customer db)); try assumption. congruence. }
    assumption.
Qed.

Lemma OR_is_union (db : Db) (ws : list FieldWhere) (x : string) :
  In x (matchedIds (fun c => existsb (fun w => holds P w c) ws) db) <->
  exists w, In w ws /\ In x (matchedIds (holds P w) db).
Proof.
  rewrite in_matchedIds. split.
  - intros [c [Hin [Hid Hex]]]. apply existsb_exists in Hex as [w [Hw Hh]].
    exists w. split; [assumption|]. apply in_matchedIds. now exists c.
  - intros [w [Hw Hx]]. apply in_matchedIds in Hx as [c [Hin [Hid Hh]]].
    exists c. repeat split; try assumption. apply existsb_exists. now exists w.
Qed.

End WithPlatform.

(** C1. On a rule [{type: 'AND', conditions}] whose children are
    conditions that all build, into filters the query accepts,
    [evaluateSegmentRules] returns the ids of exactly the customers for
    which every child predicate holds, that is, the intersection of the
    per-child matched sets; on [{type: 'OR', conditions}] the ids of the
    customers for which some child predicate holds, the union of the
    per-child sets; on a bare condition the ids of the customers that
    satisfy its predicate. *)
Theorem evaluate_intersection_union_single :
  forall (P : Platform) (now : Z) (db : Db),
  (forall rules cs ws,
      get rules "type" = VString "AND" ->
      get rules "conditions" = VArray cs ->
      mapM (buildCondition P now) cs = Ok ws ->
      forallb (validFilter P) ws = true ->
      exists ids,
        evaluateSegmentRules P now rules db = Ok ids /\
        ids = matchedIds (fun c => forallb (fun w => holds P w c) ws) db /\
        (forall x, In x ids <->
           exists c, In c (customer db) /\ id c = x /\
                     forall w, In w ws -> holds P w c = true) /\
        (NoDup (allIds db) ->
         forall x, In x ids <->
           In x (allIds db) /\ forall w, In w ws -> In x (matchedIds (holds P w) db)))
  /\
  (forall rules cs ws,
      get rules "type" = VString "OR" ->
      get rules "conditions" = VArray cs ->
      mapM (buildCondition P now) cs = Ok ws ->
      forallb (validFilter P) ws = true ->
      exists ids,
        evaluateSegmentRules P now rules db = Ok ids /\
        ids = matchedIds (fun c => existsb (fun w => holds P w c) ws) db /\
        (forall x, In x ids <->
           exists w, In w ws /\ In x (matchedIds (holds P w) db)))
  /\
  (forall rule w,
      isConnective rule = false ->
      buildCondition P now rule = Ok w ->
      validFilter P w = true ->
      evaluateSegmentRules P now rule db = Ok (matchedIds (holds P w) db) /\
      (forall x, In x (matchedIds (holds P w) db) <->
         exists c, In c (customer db) /\ id c = x /\ holds P w c = true)).
Proof.
  intros P now db. split; [|split].
  - intros rules cs ws Ht Hc Hws Hv. eexists. split; [|split; [reflexivity|split]].
    + now apply (evaluate_AND P now db rules cs ws).
    + intros x. rewrite in_matchedIds. split.
      * intros [c [Hin [Hid Hall]]]. exists c. repeat split; try assumption.
        now apply forallb_forall.
      * intros [c [Hin [Hid Hall]]]. exists c. repeat split; try assumption.
        now apply forallb_forall.
    + intros Hnd x. now apply AND_is_intersection.
  - intros rules cs ws Ht Hc Hws Hv. eexists. split; [|split; [reflexivity|]].
    + now apply (evaluate_OR P now db rules cs ws).
    + intros x. apply OR_is_union.
  - intros rule w Hn Hw Hv. split.
    + now apply evaluate_single.
    + intros x. apply in_matchedIds.
Qed.

End EvaluatorFacts.

Module EvaluatorExamples.
Import Js Prisma SegmentEvaluator Spec Samples.

(** The scenario of the specification: AND[spend gt 500, visits gte 3]
    matches customers 1 and 3 only; the OR of two conditions and a bare
    condition on the same store. *)
Lemma evaluate_intersection_union_single_witness :
  evaluateSegmentRules platform 0 (tree "AND" [spendOver500; threeVisits]) scenario
    = Ok ["1"; "3"] /\
  (forall x, In x ["1"; "3"] <->
     In x (allIds scenario) /\
     forall w, In w [ {| key := "totalSpend"; filter := NumberFilter gt (Fin 500) |};
                      {| key := "visitCount"; filter := NumberFilter gte (Fin 3) |} ] ->
               In x (matchedIds (holds platform w) scenario)) /\
  evaluateSegmentRules platform 0 (tree "OR" [spendOver1000; threeVisits]) scenario
    = Ok ["1"; "3"] /\
  evaluateSegmentRules platform 0 spendOver1000 scenario = Ok ["1"].
Proof.
  destruct (EvaluatorFacts.evaluate_intersection_union_single platform 0 scenario)
    as [Hand [Hor Hone]].
  destruct (Hand (tree "AND" [spendOver500; threeVisits]) _ _
              eq_refl eq_refl eq_refl eq_refl) as [ids [He [Hids [_ Hinter]]]].
  destruct (Hor (tree "OR" [spendOver1000; threeVisits]) _ _
              eq_refl eq_refl eq_refl eq_refl) as [ids' [He' [Hids' _]]].
  destruct (Hone spendOver1000 _ eq_refl eq_refl eq_refl) as [He1 _].
  assert (Hnd : NoDup (allIds scenario)).
  { unfold allIds, scenario, shopper; simpl.
    repeat constructor; simpl; intuition discriminate. }
  split; [|split; [|split]].
  - rewrite He, Hids. reflexivity.
  - intros x. rewrite <- (Hinter Hnd x), Hids. reflexivity.
  - rewrite He', Hids'. reflexivity.
  - rewrite He1. reflexivity.
Defined.

(** C1 as stated fails on a rule tree with a tree among its conditions.
    Each of the two children evaluates on its own, to customers 1 and 3,
    so the intersection of the per-child sets is customers 1 and 3; the
    AND of the two is rejected with the unsupported-field error. *)
Lemma nested_conditions_counterexample :
  evaluateSegmentRules platform 0 spendOver500 scenario = Ok ["1"; "3"] /\
  evaluateSegmentRules platform 0 visitsOrSpend scenario = Ok ["1"; "3"] /\
  evaluateSegmentRules platform 0 (tree "AND" [spendOver500; visitsOrSpend]) scenario
  = Throw (UnsupportedField VUndefined) /\
  ~ (exists ids, evaluateSegmentRules platform 0 (tree "AND" [spendOver500; visitsOrSpend])
                   scenario = Ok ids).
Proof.
  repeat split. intros [ids H]. discriminate H.
Qed.

(** The value of a string condition reaches the database inside a LIKE
    pattern: [_] and [%] in it are wild cards. Every e-mail address of
    the store contains [_] in this sense, and none a [+]. *)
Example contains_takes_wild_cards :
  evaluateSegmentRules platform 0 (condition "email" "contains" (VString "_")) db
  = Ok (allIds db) /\
  evaluateSegmentRules platform 0 (condition "email" "startsWith" (VString "c_@")) db
  = Ok (allIds db) /\
  evaluateSegmentRules platform 0 (condition "email" "contains" (VString "+")) db = Ok [] /\
  evaluateSegmentRules platform 0 (condition "email" "equals" (VString "c_@example.com")) db
  = Ok [].
Proof. repeat split. Qed.

(** A bound outside the 32-bit integers on [visitCount], or one that is
    [Infinity] as a double on [totalSpend], fails the query. *)
Example bounds_the_query_rejects :
  evaluateSegmentRules platform 0 (condition "visitCount" "gt" (VString "3000000000")) db
  = Throw PrismaClientError /\
  evaluateSegmentRules platform 0 (condition "totalSpend" "lt" (VString "1e999")) db
  = Throw PrismaClientError /\
  evaluateSegmentRules platform 0 (condition "visitCount" "gt" (VString "2147483647")) db
  = Ok [].
Proof. repeat split. Qed.

End EvaluatorExamples.

(* ===================================================================== *)
(** * Predicate construction and its errors                               *)
(* ===================================================================== *)

Module BuilderFacts.
Import Js Prisma SegmentEvaluator Spec.

(** Case analysis on every test [operator === 'lit'] of the goal. *)
Ltac switch_cases :=
  repeat match goal with
         | |- context [is_string ?o ?s] => destruct (is_string o s); try reflexivity
         end.

Lemma mapM_first_throw {A B} (f : A -> result B) (pre post : list A) (c : A) (e : exn) :
  Forall (fun a => is_ok (f a) = true) pre ->
  f c = Throw e ->
  mapM f (pre ++ c :: post)%list = Throw e.
Proof.
  intros Hpre Hc. induction Hpre as [|a pre Ha _ IH]; simpl.
  - now rewrite Hc.
  - destruct (f a); [|discriminate]. simpl. now rewrite IH.
Qed.

Lemma mapM_some_throw {A B} (f : A -> result B) (pre post : list A) (c : A) (e : exn) :
  f c = Throw e ->
  exists e', mapM f (pre ++ c :: post)%list = Throw e'.
Proof.
  intros Hc. induction pre as [|a pre IH]; simpl.
  - rewrite Hc. now exists e.
  - destruct (f a) as [b|e0]; simpl.
    + destruct IH as [e' ->]. now exists e'.
    + now exists e0.
Qed.

Section WithPlatform.
Variable P : Platform.
Variable now : Z.

Lemma buildCondition_unrecognized (c f : value) :
  getProp c "field" = Ok f ->
  recognizedField f = false ->
  buildCondition P now c = Throw (UnsupportedField f).
Proof.
  intros Hf Hr. unfold buildCondition. rewrite Hf. simpl.
  unfold recognizedField in Hr.
  repeat (apply orb_false_iff in Hr as [Hr ?]).
  now repeat match goal with H : is_string f _ = false |- _ => rewrite H; clear H end.
Qed.

Lemma evaluate_throws_at_build (rules : value) (e : exn) :
  buildWhereClause P now rules = Throw e ->
  forall db, evaluateSegmentRules P now rules db = Throw e.
Proof.
  intros H db. unfold evaluateSegmentRules. now rewrite H.
Qed.

Lemma buildWhereClause_connective (rules : value) (l : list value) :
  isConnective rules = true ->
  get rules "conditions" = VArray l ->
  buildWhereClause P now rules =
  (ws <- mapM (buildCondition P now) l ;;
   Ok (if is_string (get rules "type") "AND" then AND ws else OR ws)).
Proof.
  intros Hc Hl. unfold buildWhereClause, isConnective in *.
  assert (Hobj : getProp rules "type" = Ok (get rules "type")).
  { destruct rules; simpl in *; try discriminate; reflexivity. }
  rewrite Hobj. simpl. rewrite Hl. simpl.
  destruct (is_string (get rules "type") "AND"); simpl.
  - now destruct (mapM (buildCondition P now) l).
  - simpl in Hc. rewrite Hc. now destruct (mapM (buildCondition P now) l).
Qed.

Lemma buildWhereClause_bare (rules : value) (f : value) :
  isConnective rules = false ->
  getProp rules "field" = Ok f ->
  buildWhereClause P now rules = (w <- buildCondition P now rules ;; Ok (Single w)).
Proof.
  intros Hc Hf. unfold buildWhereClause, isConnective in *.
  apply orb_false_iff in Hc as [Ha Ho].
  assert (Hobj : getProp rules "type" = Ok (get rules "type")).
  { destruct rules; simpl in *; try discriminate; reflexivity. }
  rewrite Hobj. simpl. now rewrite Ha, Ho.
Qed.

End WithPlatform.

(** C3, as the code has it. A rule tree that contains a condition with an
    unrecognized field never evaluates: [evaluateSegmentRules] throws
    while the where clause is built, before the store is queried, with
    the same exception whatever the customers are. The exception is the
    one of the first condition, in order, that fails to build: it is the
    unsupported-field error when every condition before the offending one
    builds. *)
Theorem unrecognized_field_aborts :
  forall (P : Platform) (now : Z) (rules : value)
         (pre post : list value) (c f : value),
  conditionsOf rules = Some (pre ++ c :: post)%list ->
  getProp c "field" = Ok f ->
  recognizedField f = false ->
  (exists e,
      buildWhereClause P now rules = Throw e /\
      forall db, evaluateSegmentRules P now rules db = Throw e) /\
  (Forall (fun p => is_ok (buildCondition P now p) = true) pre ->
   buildWhereClause P now rules = Throw (UnsupportedField f) /\
   forall db, evaluateSegmentRules P now rules db = Throw (UnsupportedField f)).
Proof.
  intros P now rules pre post c f Hcs Hf Hr.
  pose proof (buildCondition_unrecognized P now c f Hf Hr) as Hc.
  unfold conditionsOf in Hcs.
  destruct (isConnective rules) eqn:Hconn.
  - destruct (get rules "conditions") eqn:Hl; try discriminate.
    injection Hcs as ->.
    pose proof (buildWhereClause_connective P now rules _ Hconn Hl) as Hb.
    split.
    + destruct (mapM_some_throw (buildCondition P now) pre post c _ Hc) as [e He].
      exists e. assert (Hbe : buildWhereClause P now rules = Throw e).
      { rewrite Hb, He. reflexivity. }
      split; [assumption | now apply evaluate_throws_at_build].
    + intros Hpre.
      assert (Hbe : buildWhereClause P now rules = Throw (UnsupportedField f)).
      { rewrite Hb, (mapM_first_throw _ pre post c _ Hpre Hc). reflexivity. }
      split; [assumption | now apply evaluate_throws_at_build].
  - assert (pre = [] /\ c = rules) as [-> ->].
    { destruct pre as [|a pre]; simpl in Hcs.
      - injection Hcs as -> _. now split.
      - injection Hcs as _ Habs. now destruct pre. }
    assert (Hbe : buildWhereClause P now rules = Throw (UnsupportedField f)).
    { rewrite (buildWhereClause_bare P now rules f Hconn Hf), Hc. reflexivity. }
    split; [exists (UnsupportedField f); split | intros _; split];
      try assumption; now apply evaluate_throws_at_build.
Qed.

(** C4, as the code has it. A condition on [totalSpend] or [visitCount]
    is never rejected for its value: with one of the operators gt, gte,
    lt, lte, eq the builder returns a filter whose bound is whatever
    [parseFloat] or [parseInt] made of the value, NaN included; with any
    other operator it throws the unsupported-operator error. *)
Theorem numeric_condition_outcome :
  forall (P : Platform) (now : Z) (c : value),
  (getProp c "field" = Ok (VString "totalSpend") ->
   buildCondition P now c =
   match numericOp (get c "operator") with
   | Some op => Ok {| key := "totalSpend";
                      filter := NumberFilter op (parseFloat P (get c "value")) |}
   | None => Throw (UnsupportedOperator (get c "operator"))
   end) /\
  (getProp c "field" = Ok (VString "visitCount") ->
   buildCondition P now c =
   match numericOp (get c "operator") with
   | Some op => Ok {| key := "visitCount";
                      filter := NumberFilter op (parseInt P (get c "value")) |}
   | None => Throw (UnsupportedOperator (get c "operator"))
   end).
Proof.
  intros P now c. split; intros Hf; unfold buildCondition; rewrite Hf; simpl;
    unfold buildNumericCondition, numericOp; switch_cases.
Qed.

End BuilderFacts.

Module BuilderExamples.
Import Js Prisma SegmentEvaluator Spec Samples.

(** C3 as stated fails: a tree whose second condition has the
    unrecognized field [age] and whose first has a bad operator is
    rejected with the unsupported-operator error, not the
    unsupported-field one. *)
Lemma unrecognized_field_counterexample :
  conditionsOf badOperatorFirst
    = Some ([condition "totalSpend" "foo" (num 500)]
            ++ condition "age" "gt" (num 1) :: [])%list /\
  getProp (condition "age" "gt" (num 1)) "field" = Ok (VString "age") /\
  recognizedField (VString "age") = false /\
  evaluateSegmentRules platform 0 badOperatorFirst db
    = Throw (UnsupportedOperator (VString "foo")) /\
  ~ (exists f, evaluateSegmentRules platform 0 badOperatorFirst db
               = Throw (UnsupportedField f)).
Proof.
  repeat split. intros [f H]. discriminate H.
Qed.

Lemma unrecognized_field_aborts_witness :
  evaluateSegmentRules platform 0 unknownFieldLast db
    = Throw (UnsupportedField (VString "age")).
Proof.
  refine (proj2 (proj2 (BuilderFacts.unrecognized_field_aborts platform 0 unknownFieldLast
           [condition "totalSpend" "gt" (num 500)]
           [condition "email" "like" (VString "x")]
           (condition "age" "gt" (num 1)) (VString "age")
           eq_refl eq_refl eq_refl) _) db).
  repeat constructor.
Defined.

(** C4 as stated fails: a value that is not a number is not rejected,
    the builder returns a filter whose bound is NaN. *)
Lemma non_numeric_value_counterexample :
  parseFloat platform (VString "abc") = NaN /\
  buildCondition platform 0 (condition "totalSpend" "gt" (VString "abc"))
    = Ok {| key := "totalSpend"; filter := NumberFilter gt NaN |} /\
  parseInt platform (VString "many") = NaN /\
  buildCondition platform 0 (condition "visitCount" "lte" (VString "many"))
    = Ok {| key := "visitCount"; filter := NumberFilter lte NaN |}.
Proof.
  repeat split.
Qed.

Lemma numeric_condition_outcome_witness :
  buildCondition platform 0 (condition "totalSpend" "gte" (VString "12.5"))
    = Ok {| key := "totalSpend"; filter := NumberFilter gte (Fin (125 # 10)) |} /\
  buildCondition platform 0 (condition "visitCount" "contains" (num 3))
    = Throw (UnsupportedOperator (VString "contains")).
Proof.
  split.
  - exact (proj1 (BuilderFacts.numeric_condition_outcome platform 0
                    (condition "totalSpend" "gte" (VString "12.5"))) eq_refl).
  - exact (proj2 (BuilderFacts.numeric_condition_outcome platform 0
                    (condition "visitCount" "contains" (num 3))) eq_refl).
Defined.

End BuilderExamples.

(* ===================================================================== *)
(** * Comparison at the boundary                                          *)
(* ===================================================================== *)

Module BoundaryFacts.
Import Js Prisma SegmentEvaluator Spec.

Lemma compareQ_boundary (x q : Q) :
  (x == q)%Q ->
  compareQ gte x q = true /\ compareQ lte x q = true /\
  compareQ gt x q = false /\ compareQ lt x q = false.
Proof.
  intros H. unfold compareQ, Qlt_bool.
  assert (H1 : Qle_bool q x = true) by (apply Qle_bool_iff; rewrite H; apply Qle_refl).
  assert (H2 : Qle_bool x q = true) by (apply Qle_bool_iff; rewrite H; apply Qle_refl).
  now rewrite H1, H2.
Qed.

Lemma compareZ_boundary (d : Z) :
  compareZ gte d d = true /\ compareZ lte d d = true /\
  compareZ gt d d = false /\ compareZ lt d d = false.
Proof.
  unfold compareZ. now rewrite Z.leb_refl, Z.ltb_irrefl.
Qed.

Section WithPlatform.
Variable P : Platform.
Variable now : Z.
Variable c : Customer.

Lemma totalSpend_boundary (cond : value) (q : Q) (operator : string) :
  getProp cond "field" = Ok (VString "totalSpend") ->
  get cond "operator" = VString operator ->
  parseFloat P (get cond "value") = Fin q ->
  (totalSpend c == q)%Q ->
  (operator = "gte" \/ operator = "lte" ->
   exists w, buildCondition P now cond = Ok w /\ holds P w c = true) /\
  (operator = "gt" \/ operator = "lt" ->
   exists w, buildCondition P now cond = Ok w /\ holds P w c = false).
Proof.
  intros Hf Ho Hv Hq.
  destruct (compareQ_boundary _ _ Hq) as [Hgte [Hlte [Hgt Hlt]]].
  unfold buildCondition. rewrite Hf, Ho, Hv.
  split; intros [-> | ->]; eexists; (split; [reflexivity|]);
    unfold holds; simpl; assumption.
Qed.

Lemma visitCount_boundary (cond : value) (q : Q) (operator : string) :
  getProp cond "field" = Ok (VString "visitCount") ->
  get cond "operator" = VString operator ->
  parseInt P (get cond "value") = Fin q ->
  (inject_Z (visitCount c) == q)%Q ->
  (operator = "gte" \/ operator = "lte" ->
   exists w, buildCondition P now cond = Ok w /\ holds P w c = true) /\
  (operator = "gt" \/ operator = "lt" ->
   exists w, buildCondition P now cond = Ok w /\ holds P w c = false).
Proof.
  intros Hf Ho Hv Hq.
  destruct (compareQ_boundary _ _ Hq) as [Hgte [Hlte [Hgt Hlt]]].
  unfold buildCondition. rewrite Hf, Ho, Hv.
  split; intros [-> | ->]; eexists; (split; [reflexivity|]);
    unfold holds; simpl; assumption.
Qed.

Lemma lastVisit_boundary (cond : value) (d : Z) (operator : string) :
  getProp cond "field" = Ok (VString "lastVisit") ->
  get cond "operator" = VString operator ->
  newDate P (get cond "value") = Time d ->
  lastVisit c = Some d ->
  operator = "before" \/ operator = "after" ->
  exists w, buildCondition P now cond = Ok w /\ holds P w c = false.
Proof.
  intros Hf Ho Hv Hd Hop.
  destruct (compareZ_boundary d) as [_ [_ [Hgt Hlt]]].
  unfold buildCondition. rewrite Hf, Ho. simpl. unfold buildDateCondition. rewrite Hv.
  destruct Hop as [-> | ->]; eexists; (split; [reflexivity|]);
    unfold holds; simpl; rewrite Hd; assumption.
Qed.

Lemma between_boundary (cond : value) (s s1 s2 : string) (rest : list string) (d1 d2 : Z) :
  getProp cond "field" = Ok (VString "lastVisit") ->
  get cond "operator" = VString "between" ->
  get cond "value" = VString s ->
  split "," s = s1 :: s2 :: rest ->
  Date_parse P s1 = Time d1 ->
  Date_parse P s2 = Time d2 ->
  exists w,
    buildCondition P now cond = Ok w /\
    (holds P w c = true <-> exists t, lastVisit c = Some t /\ d1 <= t <= d2) /\
    (d1 <= d2 ->
     (lastVisit c = Some d1 -> holds P w c = true) /\
     (lastVisit c = Some d2 -> holds P w c = true)).
Proof.
  intros Hf Ho Hv Hs H1 H2.
  unfold buildCondition. rewrite Hf, Ho, Hv. simpl. unfold buildDateCondition. simpl.
  rewrite Hs. simpl. rewrite H1, H2.
  eexists; split; [reflexivity|].
  assert (Hiff : holds P {| key := "lastVisit";
                          filter := DateTimeRange (Time d1) (Some (Time d2)) |} c = true
                 <-> exists t, lastVisit c = Some t /\ d1 <= t <= d2).
  { unfold holds; simpl. destruct (lastVisit c) as [t|].
    - rewrite andb_true_iff, Z.leb_le, Z.leb_le. split.
      + intros [? ?]. exists t. auto.
      + intros [t' [Ht ?]]. injection Ht as <-. tauto.
    - split; [discriminate | intros [t [Ht _]]; discriminate]. }
  split; [exact Hiff|].
  intros Hle. split; intros Hd; apply Hiff; eexists; (split; [exact Hd | lia]).
Qed.

End WithPlatform.

(** C6. At a field value equal to the bound, a condition with [gte] or
    [lte] matches and one with [gt] or [lt] does not, on [totalSpend] and
    on [visitCount]; on [lastVisit], [before] and [after] do not match a
    visit at exactly the bound, and [between] matches exactly the visits
    from its first endpoint to its second, both included. *)
Theorem boundary_inclusive_or_strict :
  forall (P : Platform) (now : Z) (c : Customer) (cond : value),
  (forall q operator,
      getProp cond "field" = Ok (VString "totalSpend") ->
      get cond "operator" = VString operator ->
      parseFloat P (get cond "value") = Fin q ->
      (totalSpend c == q)%Q ->
      (operator = "gte" \/ operator = "lte" ->
       exists w, buildCondition P now cond = Ok w /\ holds P w c = true) /\
      (operator = "gt" \/ operator = "lt" ->
       exists w, buildCondition P now cond = Ok w /\ holds P w c = false)) /\
  (forall q operator,
      getProp cond "field" = Ok (VString "visitCount") ->
      get cond "operator" = VString operator ->
      parseInt P (get cond "value") = Fin q ->
      (inject_Z (visitCount c) == q)%Q ->
      (operator = "gte" \/ operator = "lte" ->
       exists w, buildCondition P now cond = Ok w /\ holds P w c = true) /\
      (operator = "gt" \/ operator = "lt" ->
       exists w, buildCondition P now cond = Ok w /\ holds P w c = false)) /\
  (forall d operator,
      getProp cond "field" = Ok (VString "lastVisit") ->
      get cond "operator" = VString operator ->
      newDate P (get cond "value") = Time d ->
      lastVisit c = Some d ->
      operator = "before" \/ operator = "after" ->
      exists w, buildCondition P now cond = Ok w /\ holds P w c = false) /\
  (forall s s1 s2 rest d1 d2,
      getProp cond "field" = Ok (VString "lastVisit") ->
      get cond "operator" = VString "between" ->
      get cond "value" = VString s ->
      split "," s = s1 :: s2 :: rest ->
      Date_parse P s1 = Time d1 ->
      Date_parse P s2 = Time d2 ->
      exists w,
        buildCondition P now cond = Ok w /\
        (holds P w c = true <-> exists t, lastVisit c = Some t /\ d1 <= t <= d2) /\
        (d1 <= d2 ->
         (lastVisit c = Some d1 -> holds P w c = true) /\
         (lastVisit c = Some d2 -> holds P w c = true))).
Proof.
  intros P now c cond. repeat split.
  - now apply (totalSpend_boundary P now c cond q operator).
  - now apply (totalSpend_boundary P now c cond q operator).
  - now apply (visitCount_boundary P now c cond q operator).
  - now apply (visitCount_boundary P now c cond q operator).
  - intros. now apply (lastVisit_boundary P now c cond d operator).
  - intros. now apply (between_boundary P now c cond s s1 s2 rest d1 d2).
Qed.

End BoundaryFacts.

(* ===================================================================== *)
(** * The segment routes                                                  *)
(* ===================================================================== *)

Module RouteFacts.
Import Js Prisma SegmentEvaluator SegmentsRoute Spec.

Lemma sameRow_eq (a b : CustomerSegment) : sameRow a b = true -> a = b.
Proof.
  unfold sameRow. rewrite andb_true_iff, !String.eqb_eq.
  destruct a, b; simpl. now intros [-> ->].
Qed.

Lemma in_insertUnlessPresent (rows : list CustomerSegment) (a r : CustomerSegment) :
  In r (insertUnlessPresent rows a) <-> In r rows \/ r = a.
Proof.
  unfold insertUnlessPresent. destruct (existsb (sameRow a) rows) eqn:E.
  - split; [tauto|]. intros [H | ->]; [assumption|].
    apply existsb_exists in E as [b [Hb Hs]]. now rewrite (sameRow_eq _ _ Hs).
  - rewrite in_app_iff. simpl. intuition.
Qed.

Lemma in_createMany (data : list CustomerSegment) (db : Db) (r : CustomerSegment) :
  In r (customerSegment (customerSegment_createMany data db)) <->
  In r (customerSegment db) \/ In r data.
Proof.
  unfold customerSegment_createMany. simpl.
  generalize (customerSegment db) as rows.
  induction data as [|a data IH]; intros rows; simpl.
  - tauto.
  - rewrite IH, in_insertUnlessPresent. intuition.
Qed.

Lemma in_skipn_batch {A} (i : nat) (l : list A) (x : A) :
  In x (skipn i l) <->
  In x (firstn batchSize (skipn i l)) \/ In x (skipn (i + batchSize) l).
Proof.
  rewrite <- in_app_iff.
  replace (skipn (i + batchSize) l) with (skipn batchSize (skipn i l))
    by (rewrite skipn_skipn; f_equal; lia).
  now rewrite firstn_skipn.
Qed.

(** The batch loop, given fuel for every batch, adds one row per matched
    id from index [i] on and touches nothing else. *)
Lemma addInBatches_spec (fuel : nat) :
  forall (i : nat) (l : list string) (segId : string) (db : Db),
  (List.length l - i <= fuel)%nat ->
  let db' := addInBatches fuel i l segId db in
  customer db' = customer db /\
  segment db' = segment db /\
  forall r, In r (customerSegment db') <->
            In r (customerSegment db) \/
            exists cid, In cid (skipn i l) /\ r = member segId cid.
Proof.
  induction fuel as [|fuel IH]; intros i l segId db Hfuel; simpl.
  - repeat split; try tauto.
    intros [H | [cid [Hin _]]]; [assumption|].
    rewrite skipn_all2 in Hin by lia. destruct Hin.
  - destruct (i <? List.length l)%nat eqn:Hi.
    + apply Nat.ltb_lt in Hi.
      destruct (IH (i + batchSize)%nat l segId
                  (customerSegment_createMany
                     (map (fun customerId => {| customerId := customerId; segmentId := segId |})
                        (slice i (i + batchSize) l)) db))
        as [Hc [Hs Hr]]; [unfold batchSize; lia|].
      split; [exact Hc | split; [exact Hs|]].
      intros r. rewrite Hr, in_createMany, in_map_iff.
      unfold slice. replace (i + batchSize - i)%nat with batchSize by lia.
      split.
      * intros [[H | [cid [Hrow Hin]]] | [cid [Hin Hrow]]].
        -- now left.
        -- right. exists cid. rewrite in_skipn_batch. unfold member.
           split; [tauto | now symmetry].
        -- right. exists cid. rewrite in_skipn_batch. tauto.
      * intros [H | [cid [Hin Hrow]]]; [tauto|].
        apply in_skipn_batch in Hin as [Hin | Hin].
        -- left. right. exists cid. unfold member in Hrow. split; [now symmetry | assumption].
        -- right. now exists cid.
    + apply Nat.ltb_ge in Hi. repeat split; try tauto.
      intros [H | [cid [Hin _]]]; [assumption|].
      rewrite skipn_all2 in Hin by lia. destruct Hin.
Qed.

Section WithPlatform.
Variable P : Platform.
Variable now : Z.

Lemma postSegment_invalid (newId : string) (req : Request) (db : Db) :
  nameValid req && rulesValid req = false ->
  postSegment P now newId req db = (db, Status400).
Proof.
  intros H. unfold postSegment. now rewrite H.
Qed.

Lemma postSegment_throws (newId : string) (req : Request) (db : Db) (e : exn) :
  nameValid req = true -> rulesValid req = true ->
  evaluateSegmentRules P now (body_rules req) (segment_create (newSegment newId req) db)
    = Throw e ->
  postSegment P now newId req db
    = (segment_create (newSegment newId req) db, Status500 "Error creating segment").
Proof.
  intros Hn Hr He. unfold postSegment. rewrite Hn, Hr. simpl.
  fold (newSegment newId req). now rewrite He.
Qed.

Lemma postSegment_created (newId : string) (req : Request) (db : Db) (ids : list string) :
  nameValid req = true -> rulesValid req = true ->
  evaluateSegmentRules P now (body_rules req) (segment_create (newSegment newId req) db)
    = Ok ids ->
  exists db',
    postSegment P now newId req db
      = (db', Status201 (newSegment newId req) (List.length ids)) /\
    customer db' = customer db /\
    segment db' = (segment db ++ [newSegment newId req])%list /\
    forall r, In r (customerSegment db') <->
              In r (customerSegment db) \/ exists cid, In cid ids /\ r = member newId cid.
Proof.
  intros Hn Hr He. unfold postSegment. rewrite Hn, Hr. simpl.
  fold (newSegment newId req). rewrite He.
  eexists. split; [reflexivity|].
  destruct (addInBatches_spec (List.length ids) 0 ids newId
              (segment_create (newSegment newId req) db)) as [Hc [Hs Hm]]; [lia|].
  rewrite Hc, Hs. simpl. repeat split; apply Hm.
Qed.

End WithPlatform.


(** C8, as the code has it. The create handler writes in steps: the
    segment row first, then the membership rows batch by batch. When the
    evaluation throws, the request is answered with status 500 and the
    segment row stays in the store without any membership row; when it
    succeeds, the store gains the segment row and one membership row for
    each matched customer. *)
Theorem create_writes_in_steps :
  forall (P : Platform) (now : Z) (newId : string) (req : Request) (db : Db),
  nameValid req = true ->
  rulesValid req = true ->
  (forall e,
      evaluateSegmentRules P now (body_rules req) (segment_create (newSegment newId req) db)
        = Throw e ->
      postSegment P now newId req db
        = ({| customer := customer db;
              segment := (segment db ++ [newSegment newId req])%list;
              customerSegment := customerSegment db |},
           Status500 "Error creating segment")) /\
  (forall ids,
      evaluateSegmentRules P now (body_rules req) (segment_create (newSegment newId req) db)
        = Ok ids ->
      exists db',
        postSegment P now newId req db
          = (db', Status201 (newSegment newId req) (List.length ids)) /\
        customer db' = customer db /\
        segment db' = (segment db ++ [newSegment newId req])%list /\
        forall r, In r (customerSegment db') <->
                  In r (customerSegment db) \/
                  exists cid, In cid ids /\ r = member newId cid).
Proof.
  intros P now newId req db Hn Hr. split.
  - intros e He. now apply (postSegment_throws P now newId req db e).
  - intros ids He. now apply postSegment_created.
Qed.

End RouteFacts.

(* ===================================================================== *)
(** * The front-end pages                                                 *)
(* ===================================================================== *)

Module FrontendFacts.
Import Js Frontend SegmentsPage CustomersPage Spec.

Lemma eqb_empty_false (s : string) : s <> "" -> String.eqb s "" = false.
Proof. intros H. now apply String.eqb_neq. Qed.

Lemma length_eqb_false {A} (l : list A) : l <> [] -> (List.length l =? 0)%nat = false.
Proof. destruct l; [congruence | reflexivity]. Qed.

Lemma handleCreateSegment_rejects (dateNow : string) (st : State) (ls : LocalStorage) :
  name st = "" \/ description st = "" \/ rules st = [] ->
  exists message, handleCreateSegment dateNow st ls = (st, ls, Alerted message).
Proof.
  intros H. unfold handleCreateSegment. eexists.
  destruct H as [-> | [-> | ->]]; simpl; rewrite ?orb_true_r; reflexivity.
Qed.

Lemma handleCreateSegment_creates (dateNow : string) (st : State) (ls : LocalStorage) :
  name st <> "" -> description st <> "" -> rules st <> [] ->
  truthy (editingId st) = false ->
  handleCreateSegment dateNow st ls =
  (afterSave (segments st ++ [materialized dateNow st]) st,
   withSegments (segments st ++ [materialized dateNow st]) ls,
   Saved).
Proof.
  intros Hn Hd Hr He. unfold handleCreateSegment.
  rewrite (eqb_empty_false _ Hn), (eqb_empty_false _ Hd), (length_eqb_false _ Hr), He.
  reflexivity.
Qed.

Lemma handleCreateSegment_updates (dateNow : string) (st : State) (ls : LocalStorage)
  (i : string) :
  name st <> "" -> description st <> "" -> rules st <> [] ->
  editingId st = Some i -> i <> "" ->
  let replaced :=
    map (fun s => if String.eqb (segment_id s) i then materialized i st else s)
        (segments st) in
  handleCreateSegment dateNow st ls
  = (afterSave replaced st, withSegments replaced ls, Saved).
Proof.
  intros Hn Hd Hr He Hi. unfold handleCreateSegment.
  rewrite (eqb_empty_false _ Hn), (eqb_empty_false _ Hd), (length_eqb_false _ Hr), He.
  simpl. rewrite (eqb_empty_false _ Hi). reflexivity.
Qed.

Lemma materialized_consistent (segId : string) (st : State) :
  countConsistent (materialized segId st).
Proof.
  unfold countConsistent, materialized. simpl. now rewrite length_map.
Qed.

(** An update replaces the membership of the edited segment by the
    evaluation of the submitted rules; nothing of the former membership
    is kept. *)
Lemma update_replaces_membership (dateNow : string) (st : State) (ls : LocalStorage)
  (i : string) (s : Segment) :
  name st <> "" -> description st <> "" -> rules st <> [] ->
  editingId st = Some i -> i <> "" ->
  In s (orEmpty (stored_segments (snd (fst (handleCreateSegment dateNow st ls))))) ->
  segment_id s = i ->
  Frontend.rules s = rules st /\
  matchedCustomerIds s = map id (getMatchedCustomers (customers st) (rules st)) /\
  customerCount s = List.length (getMatchedCustomers (customers st) (rules st)).
Proof.
  intros Hn Hd Hr He Hi Hin Hid.
  rewrite (handleCreateSegment_updates dateNow st ls i Hn Hd Hr He Hi) in Hin.
  simpl in Hin. apply in_map_iff in Hin as [s0 [Hs0 _]].
  destruct (String.eqb (segment_id s0) i) eqn:E.
  - subst s. now repeat split.
  - subst s0. apply String.eqb_neq in E. contradiction.
Qed.

(** Create, update and delete keep every stored count equal to the size
    of the stored membership. *)
Lemma handleCreateSegment_keeps_counts (dateNow : string) (st : State) (ls : LocalStorage) :
  Forall countConsistent (segments st) ->
  Forall countConsistent (orEmpty (stored_segments ls)) ->
  let '(st', ls', _) := handleCreateSegment dateNow st ls in
  Forall countConsistent (segments st') /\
  Forall countConsistent (orEmpty (stored_segments ls')).
Proof.
  intros Hst Hls. unfold handleCreateSegment.
  destruct (String.eqb (name st) "" || String.eqb (description st) ""
            || (List.length (rules st) =? 0)%nat); [now split|].
  fold (materialized
          (if truthy (editingId st)
           then match editingId st with Some i => i | None => dateNow end
           else dateNow) st).
  simpl. destruct (truthy (editingId st)).
  - assert (H : forall (new : Segment) (f : Segment -> bool), countConsistent new ->
                Forall countConsistent
                  (map (fun s : Segment => if f s then new else s) (segments st))).
    { intros new f Hnew. apply Forall_map.
      eapply Forall_impl; [|exact Hst]. intros s Hs. now destruct (f s). }
    split; apply H; apply materialized_consistent.
  - split; apply Forall_app; (split; [assumption|]);
      constructor; auto using materialized_consistent.
Qed.

Lemma handleDelete_keeps_counts (confirmed : bool) (segmentId : string)
  (st : State) (ls : LocalStorage) :
  Forall countConsistent (segments st) ->
  Forall countConsistent (orEmpty (stored_segments ls)) ->
  let '(st', ls') := handleDelete confirmed segmentId st ls in
  Forall countConsistent (segments st') /\
  Forall countConsistent (orEmpty (stored_segments ls')).
Proof.
  intros Hst Hls. unfold handleDelete. destruct confirmed; simpl; [|now split].
  assert (H : Forall countConsistent
                (List.filter (fun s => negb (String.eqb (segment_id s) segmentId))
                   (segments st))).
  { apply Forall_forall. intros s Hs. apply filter_In in Hs as [Hs _].
    rewrite Forall_forall in Hst. now apply Hst. }
  now split.
Qed.

(** What [customer[field]] and the comparisons make of a missing
    property. *)
Lemma getField_missing (c : Customer) (field : string) :
  noSuchProperty field -> getField c field = Undefined.
Proof.
  intros [Hk Hp]. unfold getField, isKey in *. simpl in Hk.
  repeat (apply orb_false_iff in Hk as [? Hk]).
  repeat match goal with H : String.eqb field _ = false |- _ => rewrite H; clear H end.
  now rewrite Hp.
Qed.

Lemma num_lt_NaN_r (n : number) : num_lt n NaN = false.
Proof. now destruct n as [|[]|]. Qed.

Lemma undefined_never_less (v : jsval) :
  lessThan Undefined v = false /\ greaterThan Undefined v = false.
Proof.
  unfold greaterThan, lessThan. split.
  - now destruct v.
  - destruct v; simpl; try apply num_lt_NaN_r; reflexivity.
Qed.

Lemma undefined_looseEquals (value : option string) :
  looseEquals Undefined (parseValue value)
  = match value with None => true | Some _ => false end.
Proof.
  destruct value as [s|]; simpl; [|reflexivity].
  now destruct (isNaN (Number_string s)).
Qed.

Lemma ruleHolds_unknown_operator (c : Customer) (rule : string) :
  unknownOperator rule -> ruleHolds c rule = false.
Proof.
  unfold unknownOperator, operatorOf, ruleHolds.
  destruct (nth_error (split " " rule) 1) as [op|]; [|reflexivity].
  unfold knownOperator. simpl. intros H.
  repeat (apply orb_false_iff in H as [? H]).
  repeat match goal with E : String.eqb op _ = false |- _ => rewrite E; clear E end.
  reflexivity.
Qed.

Lemma ruleHolds_missing_property (c : Customer) (rule op : string) :
  noSuchProperty (fieldOf rule) ->
  operatorOf rule = Some op ->
  (op = ">" \/ op = "<" -> ruleHolds c rule = false) /\
  (op = "=" \/ op = "==" ->
   ruleHolds c rule = match valueOf rule with None => true | Some _ => false end) /\
  (op = "!=" ->
   ruleHolds c rule = match valueOf rule with None => false | Some _ => true end).
Proof.
  intros Hf Ho. unfold ruleHolds.
  fold (fieldOf rule). fold (operatorOf rule). fold (valueOf rule).
  rewrite (getField_missing c _ Hf), Ho.
  destruct (undefined_never_less (parseValue (valueOf rule))) as [Hlt Hgt].
  pose proof (undefined_looseEquals (valueOf rule)) as Heq.
  repeat split.
  - intros [-> | ->]; simpl; assumption.
  - intros [-> | ->]; simpl; assumption.
  - intros ->. simpl. rewrite Heq. now destruct (valueOf rule).
Qed.

Lemma filter_none {A} (p : A -> bool) (l : list A) :
  (forall a, p a = false) -> List.filter p l = [].
Proof.
  intros H. induction l as [|a l IH]; simpl; [reflexivity|]. now rewrite H.
Qed.

Lemma forallb_false {A} (p : A -> bool) (l : list A) (a : A) :
  In a l -> p a = false -> forallb p l = false.
Proof.
  intros Hin Hp. destruct (forallb p l) eqn:E; [|reflexivity].
  rewrite forallb_forall in E. rewrite (E a Hin) in Hp. discriminate.
Qed.

End FrontendFacts.

(* ===================================================================== *)
(** * Creating a segment                                                  *)
(* ===================================================================== *)

Module CreateFacts.
Import Js Prisma SegmentEvaluator SegmentsRoute Spec.

(** C5, as the code has it. The segments page refuses to save when the
    name, the description or the rule list is empty: it alerts and
    leaves state and storage as they were; otherwise it stores a new
    segment whose matched ids are the ids of the customers the rules
    select and whose count is their number. The create route answers 400
    and writes nothing only when the name is missing or blank or the
    rules are not an object (a description is optional and a rule without
    conditions is accepted); when the rule evaluates it stores the
    segment, one membership row for each matched customer, and answers
    with their number. *)
Theorem create_validates_then_materializes :
  (forall (dateNow : string) (st : SegmentsPage.State) (ls : Frontend.LocalStorage),
      (SegmentsPage.name st = "" \/ SegmentsPage.description st = "" \/
       SegmentsPage.rules st = [] ->
       exists message,
         SegmentsPage.handleCreateSegment dateNow st ls
         = (st, ls, SegmentsPage.Alerted message)) /\
      (SegmentsPage.name st <> "" -> SegmentsPage.description st <> "" ->
       SegmentsPage.rules st <> [] ->
       SegmentsPage.truthy (SegmentsPage.editingId st) = false ->
       exists new,
         SegmentsPage.handleCreateSegment dateNow st ls
         = (afterSave (SegmentsPage.segments st ++ [new]) st,
            withSegments (SegmentsPage.segments st ++ [new]) ls,
            SegmentsPage.Saved) /\
         Frontend.segment_id new = dateNow /\
         Frontend.rules new = SegmentsPage.rules st /\
         Frontend.matchedCustomerIds new
         = map Frontend.id
             (SegmentsPage.getMatchedCustomers (SegmentsPage.customers st)
                (SegmentsPage.rules st)) /\
         Frontend.customerCount new
         = List.length (Frontend.matchedCustomerIds new)))
  /\
  (forall (P : Platform) (now : Z) (newId : string) (req : Request) (db : Db),
      (nameValid req = false \/ rulesValid req = false ->
       postSegment P now newId req db = (db, Status400)) /\
      (nameValid req = true -> rulesValid req = true ->
       forall ids,
         evaluateSegmentRules P now (body_rules req)
           (segment_create (newSegment newId req) db) = Ok ids ->
         exists db',
           postSegment P now newId req db
           = (db', Status201 (newSegment newId req) (List.length ids)) /\
           customer db' = customer db /\
           segment db' = (segment db ++ [newSegment newId req])%list /\
           forall r, In r (customerSegment db') <->
                     In r (customerSegment db) \/
                     exists cid, In cid ids /\ r = member newId cid)).
Proof.
  split.
  - intros dateNow st ls. split.
    + apply FrontendFacts.handleCreateSegment_rejects.
    + intros Hn Hd Hr He. exists (materialized dateNow st).
      split; [now apply FrontendFacts.handleCreateSegment_creates|].
      repeat split. apply FrontendFacts.materialized_consistent.
  - intros P now newId req db. split.
    + intros H. apply RouteFacts.postSegment_invalid.
      destruct H as [-> | ->]; [reflexivity | apply andb_false_r].
    + intros Hn Hr ids He. now apply RouteFacts.postSegment_created.
Qed.

End CreateFacts.

Module RouteExamples.
Import Js Prisma SegmentEvaluator SegmentsRoute Spec Samples.

(** C5 as stated fails on the create route: a request with no
    description and a rule with zero conditions is accepted, and the
    segment is stored with every customer as a member. *)
Lemma create_validation_counterexample :
  body_description everyone = None /\
  conditionsOf (body_rules everyone) = Some [] /\
  exists db',
    postSegment platform 0 "s1" everyone db
    = (db', Status201 (newSegment "s1" everyone) 7) /\
    segment db' = [newSegment "s1" everyone] /\
    map customerId (customerSegment db') = ["c1"; "c2"; "c3"; "c4"; "c5"; "c6"; "c7"].
Proof.
  repeat split. eexists. repeat split.
Qed.

Lemma create_validates_then_materializes_witness :
  (exists message,
      SegmentsPage.handleCreateSegment "100" (form "Frequent" "" ["totalPurchases > 2"] None [])
        emptyStorage
      = (form "Frequent" "" ["totalPurchases > 2"] None [], emptyStorage,
         SegmentsPage.Alerted message)) /\
  (exists new,
      Frontend.stored_segments storageWithFrequent = Some [new] /\
      Frontend.matchedCustomerIds new = ["2"] /\ Frontend.customerCount new = 1%nat) /\
  postSegment platform 0 "s1" (request None (Some "d") (tree "AND" [])) db
    = (db, Status400) /\
  (exists db',
      postSegment platform 0 "s1" bigSpenders db
      = (db', Status201 (newSegment "s1" bigSpenders) 3) /\
      forall r, In r (customerSegment db') <->
                In r [] \/ exists cid, In cid ["c1"; "c5"; "c6"] /\ r = member "s1" cid).
Proof.
  destruct CreateFacts.create_validates_then_materializes as [Hfront Hback].
  split; [|split; [|split]].
  - apply (proj1 (Hfront "100" (form "Frequent" "" ["totalPurchases > 2"] None [])
                    emptyStorage)).
    right. left. reflexivity.
  - destruct (proj2 (Hfront "100"
                       (form "Frequent" "more than two purchases" ["totalPurchases > 2"] None [])
                       emptyStorage))
      as [new [Hrun [_ [_ [Hids Hcount]]]]]; try discriminate; try reflexivity.
    exists new. unfold storageWithFrequent. rewrite Hrun. simpl.
    split; [reflexivity|]. rewrite Hcount, Hids. split; reflexivity.
  - apply (proj1 (Hback platform 0 "s1" (request None (Some "d") (tree "AND" [])) db)).
    left. reflexivity.
  - destruct (proj2 (Hback platform 0 "s1" bigSpenders db) eq_refl eq_refl
                ["c1"; "c5"; "c6"] eq_refl) as [db' [Hrun [_ [_ Hrows]]]].
    exists db'. split; [exact Hrun | exact Hrows].
Defined.


(** C8 as stated fails: the rule of this request does not evaluate, the
    request is answered with status 500, and the segment row is in the
    store all the same, with no membership. *)
Lemma create_atomic_counterexample :
  evaluateSegmentRules platform 0 (body_rules ageOver30) db
    = Throw (UnsupportedField (VString "age")) /\
  segment db = [] /\
  postSegment platform 0 "s1" ageOver30 db
  = ({| customer := customer db;
        segment := [newSegment "s1" ageOver30];
        customerSegment := [] |},
     Status500 "Error creating segment").
Proof.
  repeat split.
Qed.

Lemma create_writes_in_steps_witness :
  postSegment platform 0 "s1" ageOver30 db
  = ({| customer := customer db;
        segment := [newSegment "s1" ageOver30];
        customerSegment := [] |},
     Status500 "Error creating segment").
Proof.
  exact (proj1 (RouteFacts.create_writes_in_steps platform 0 "s1" ageOver30 db
                  eq_refl eq_refl) (UnsupportedField (VString "age")) eq_refl).
Defined.

End RouteExamples.

Module BoundaryExamples.
Import Js Prisma SegmentEvaluator Spec Samples.

(** Customer c4 spent exactly 500, made exactly 3 visits and came last at
    the very end of the range; customer c1 came at its very start. *)
Lemma boundary_inclusive_or_strict_witness :
  (exists w, buildCondition platform 0 (condition "totalSpend" "gte" (VString "500")) = Ok w
             /\ holds platform w c4 = true) /\
  (exists w, buildCondition platform 0 (condition "totalSpend" "gt" (VString "500")) = Ok w
             /\ holds platform w c4 = false) /\
  (exists w, buildCondition platform 0 (condition "visitCount" "lte" (num 3)) = Ok w
             /\ holds platform w c4 = true) /\
  (exists w, buildCondition platform 0 (condition "visitCount" "lt" (num 3)) = Ok w
             /\ holds platform w c4 = false) /\
  (exists w, buildCondition platform 0
               (condition "lastVisit" "before" (VString "2024-12-31T00:00:00.000Z")) = Ok w
             /\ holds platform w c4 = false) /\
  (exists w, buildCondition platform 0 year2024 = Ok w
             /\ holds platform w c1 = true /\ holds platform w c4 = true).
Proof.
  split; [|split; [|split; [|split; [|split]]]].
  - apply (proj1 (BoundaryFacts.boundary_inclusive_or_strict platform 0 c4
                    (condition "totalSpend" "gte" (VString "500"))) 500%Q "gte");
      try reflexivity. now left.
  - apply (proj1 (BoundaryFacts.boundary_inclusive_or_strict platform 0 c4
                    (condition "totalSpend" "gt" (VString "500"))) 500%Q "gt");
      try reflexivity. now left.
  - apply (proj1 (proj2 (BoundaryFacts.boundary_inclusive_or_strict platform 0 c4
                    (condition "visitCount" "lte" (num 3)))) 3%Q "lte");
      try reflexivity. now right.
  - apply (proj1 (proj2 (BoundaryFacts.boundary_inclusive_or_strict platform 0 c4
                    (condition "visitCount" "lt" (num 3)))) 3%Q "lt");
      try reflexivity. now right.
  - apply (proj1 (proj2 (proj2 (BoundaryFacts.boundary_inclusive_or_strict platform 0 c4
                    (condition "lastVisit" "before" (VString "2024-12-31T00:00:00.000Z")))))
             1735603200000 "before"); try reflexivity. now left.
  - destruct (proj2 (proj2 (proj2 (BoundaryFacts.boundary_inclusive_or_strict platform 0 c1
                    year2024)))
                "2024-01-01T00:00:00.000Z,2024-12-31T00:00:00.000Z"
                "2024-01-01T00:00:00.000Z" "2024-12-31T00:00:00.000Z" []
                1704067200000 1735603200000
                eq_refl eq_refl eq_refl eq_refl eq_refl eq_refl)
      as [w [Hw [_ Hends]]].
    destruct (proj2 (proj2 (proj2 (BoundaryFacts.boundary_inclusive_or_strict platform 0 c4
                    year2024)))
                "2024-01-01T00:00:00.000Z,2024-12-31T00:00:00.000Z"
                "2024-01-01T00:00:00.000Z" "2024-12-31T00:00:00.000Z" []
                1704067200000 1735603200000
                eq_refl eq_refl eq_refl eq_refl eq_refl eq_refl)
      as [w' [Hw' [_ Hends']]].
    exists w. split; [exact Hw|]. split.
    + apply (proj1 (Hends ltac:(lia))). reflexivity.
    + assert (w' = w) as <- by congruence.
      apply (proj2 (Hends' ltac:(lia))). reflexivity.
Defined.

End BoundaryExamples.

(* ===================================================================== *)
(** * The front-end rule evaluator and the stored counts                  *)
(* ===================================================================== *)

Module MatchingFacts.
Import Js Frontend SegmentsPage CustomersPage Spec.

(** C10, as the code has it. [getMatchedCustomers] returns, for every
    rule list and customer list, the customers of the list that satisfy
    every rule; nothing in it can throw. A rule whose operator is not one
    of >, <, =, ==, != is false for every customer, so the result is
    empty. A rule whose field the customer does not have compares
    undefined with the value: it is false under > and <, and under = and
    == when the rule has a value; under != with a value it is true for
    every customer. *)
Theorem getMatchedCustomers_total_and_lenient :
  forall (customers : list Customer) (rules : list string),
  (forall c, In c (getMatchedCustomers customers rules) <->
             In c customers /\ forall rule, In rule rules -> ruleHolds c rule = true) /\
  (forall rule, In rule rules -> unknownOperator rule ->
                (forall c, ruleHolds c rule = false) /\
                getMatchedCustomers customers rules = []) /\
  (forall rule op c,
      noSuchProperty (fieldOf rule) ->
      operatorOf rule = Some op ->
      (op = ">" \/ op = "<" -> ruleHolds c rule = false) /\
      (op = "=" \/ op = "==" ->
       ruleHolds c rule = match valueOf rule with None => true | Some _ => false end) /\
      (op = "!=" ->
       ruleHolds c rule = match valueOf rule with None => false | Some _ => true end)).
Proof.
  intros customers rules. split; [|split].
  - intros c. unfold getMatchedCustomers. rewrite filter_In, forallb_forall. tauto.
  - intros rule Hin Hop. split.
    + intros c. now apply FrontendFacts.ruleHolds_unknown_operator.
    + apply FrontendFacts.filter_none. intros c.
      apply (FrontendFacts.forallb_false _ _ rule Hin).
      now apply FrontendFacts.ruleHolds_unknown_operator.
  - intros rule op c Hf Ho. now apply FrontendFacts.ruleHolds_missing_property.
Qed.

End MatchingFacts.

Module FrontendExamples.
Import Js Frontend SegmentsPage CustomersPage Spec Samples.

(** C10 as stated fails: [nokey] is not a property of a customer, and the
    rule [nokey != 1] holds for every customer instead of none. *)
Lemma missing_field_counterexample :
  isKey (fieldOf "nokey != 1") = false /\
  (forall c, ruleHolds c "nokey != 1" = true) /\
  getMatchedCustomers [buyer "1" 2; buyer "2" 3] ["nokey != 1"]
  = [buyer "1" 2; buyer "2" 3].
Proof.
  repeat split.
Qed.

Lemma getMatchedCustomers_total_and_lenient_witness :
  getMatchedCustomers [buyer "1" 2; buyer "2" 3] ["totalPurchases > 2"; "totalPurchases >= 1"]
    = [] /\
  ruleHolds (buyer "1" 2) "nokey > 1" = false /\
  ruleHolds (buyer "1" 2) "nokey == 1" = false /\
  ruleHolds (buyer "1" 2) "nokey ==" = true /\
  ruleHolds (buyer "1" 2) "nokey != 1" = true.
Proof.
  pose proof (MatchingFacts.getMatchedCustomers_total_and_lenient
                [buyer "1" 2; buyer "2" 3] ["totalPurchases > 2"; "totalPurchases >= 1"])
    as [_ [Hop Hfield]].
  assert (Hno : forall v, noSuchProperty (fieldOf ("nokey " ++ v))) by (intros v; now split).
  split; [|split; [|split; [|split]]].
  - apply (Hop "totalPurchases >= 1"); [right; now left | reflexivity].
  - apply (proj1 (Hfield "nokey > 1" ">" (buyer "1" 2) (Hno "> 1") eq_refl)). now left.
  - apply (proj1 (proj2 (Hfield "nokey == 1" "==" (buyer "1" 2) (Hno "== 1") eq_refl))).
    now right.
  - apply (proj1 (proj2 (Hfield "nokey ==" "==" (buyer "1" 2) (Hno "==") eq_refl))).
    now right.
  - apply (proj2 (proj2 (Hfield "nokey != 1" "!=" (buyer "1" 2) (Hno "!= 1") eq_refl))).
    reflexivity.
Defined.

(** C2 on the code. After a purchase by customer 1 the customers page
    overwrites the count of both stored segments with 2, the number of
    customers with more than one purchase before the purchase. The rules
    of the two segments ([totalPurchases > 5] and [totalPurchases < 1])
    select no customer, and the stored memberships stay empty. *)
Theorem purchase_recount_ignores_rules :
  let '(customers', ls') :=
    handleMakePurchase "1" [buyer "1" 2; buyer "2" 3] storageWithTwo in
  customers' = [buyer "1" 3; buyer "2" 3] /\
  map Frontend.rules (orEmpty (stored_segments ls'))
    = [["totalPurchases > 5"]; ["totalPurchases < 1"]] /\
  map customerCount (orEmpty (stored_segments ls')) = [2%nat; 2%nat] /\
  map (fun s => List.length (getMatchedCustomers customers' (Frontend.rules s)))
      (orEmpty (stored_segments ls')) = [0%nat; 0%nat] /\
  map matchedCustomerIds (orEmpty (stored_segments ls')) = [[]; []].
Proof.
  repeat split.
Qed.

(** C9 on the code. The segment stored by the segments page has a count
    equal to the size of its membership; after a purchase on the
    customers page its count is 2 and its membership still the one id. *)
Theorem purchase_recount_breaks_count :
  Forall countConsistent (orEmpty (stored_segments storageWithFrequent)) /\
  let ls' := snd (handleMakePurchase "1" [buyer "1" 2; buyer "2" 3] storageWithFrequent) in
  map customerCount (orEmpty (stored_segments ls')) = [2%nat] /\
  map matchedCustomerIds (orEmpty (stored_segments ls')) = [["2"]] /\
  ~ Forall countConsistent (orEmpty (stored_segments ls')).
Proof.
  split; [repeat constructor|]. simpl. repeat split.
  intros H. inversion H as [|s l Hs _]. discriminate Hs.
Qed.

End FrontendExamples.

(* ===================================================================== *)
(** * Further facts on rule evaluation                                    *)
(* ===================================================================== *)

Module EvaluatorMore.
Import Js Prisma SegmentEvaluator Spec.

Lemma NoDup_map_filter {A B} (f : A -> B) (p : A -> bool) (l : list A) :
  NoDup (map f l) -> NoDup (map f (List.filter p l)).
Proof.
  induction l as [|a l IH]; simpl; intros H; [constructor|].
  inversion H as [|? ? Hnotin Hnd]; subst. destruct (p a); simpl; [|now apply IH].
  constructor; [|now apply IH].
  intros Hin. apply Hnotin. apply in_map_iff in Hin as [b [Hb Hin]].
  apply filter_In in Hin as [Hin _]. apply in_map_iff. now exists b.
Qed.

Lemma incl_map_filter {A B} (f : A -> B) (p : A -> bool) (l : list A) :
  incl (map f (List.filter p l)) (map f l).
Proof.
  intros x Hx. apply in_map_iff in Hx as [a [Ha Hin]].
  apply filter_In in Hin as [Hin _]. apply in_map_iff. now exists a.
Qed.

Lemma mapM_Permutation {A B} (f : A -> result B) (l l' : list A) :
  Permutation l l' ->
  forall ws, mapM f l = Ok ws ->
  exists ws', mapM f l' = Ok ws' /\ Permutation ws ws'.
Proof.
  induction 1 as [|a l l' _ IH|a b l|l l' l'' _ IH1 _ IH2]; intros ws H; simpl in *.
  - exists ws. now split.
  - destruct (f a) as [x|]; simpl in *; [|discriminate].
    destruct (mapM f l) as [xs|]; simpl in *; [|discriminate].
    injection H as <-. destruct (IH xs eq_refl) as [xs' [-> Hp]].
    exists (x :: xs'). simpl. split; [reflexivity | now constructor].
  - destruct (f b) as [y|]; simpl in *; [|discriminate].
    destruct (f a) as [x|]; simpl in *; [|discriminate].
    destruct (mapM f l) as [xs|]; simpl in *; [|discriminate].
    injection H as <-. exists (x :: y :: xs). split; [reflexivity | constructor].
  - destruct (IH1 ws H) as [ws' [H' Hp]]. destruct (IH2 ws' H') as [ws'' [H'' Hp']].
    exists ws''. split; [assumption | now transitivity ws'].
Qed.

Lemma forallb_Permutation {A} (p : A -> bool) (l l' : list A) :
  Permutation l l' -> forallb p l = forallb p l'.
Proof.
  induction 1; simpl; try congruence.
  - now rewrite !andb_assoc, (andb_comm (p y)).
Qed.

Lemma existsb_Permutation {A} (p : A -> bool) (l l' : list A) :
  Permutation l l' -> existsb p l = existsb p l'.
Proof.
  induction 1; simpl; try congruence.
  - now rewrite !orb_assoc, (orb_comm (p y)).
Qed.

Section WithPlatform.
Variable P : Platform.
Variable now : Z.

(** What a successful evaluation went through. *)
Lemma evaluate_inv (rules : value) (db : Db) (ids : list string) :
  evaluateSegmentRules P now rules db = Ok ids ->
  exists w, buildWhereClause P now rules = Ok w /\ validWhere P w = true /\
            ids = matchedIds (matches P w) db.
Proof.
  unfold evaluateSegmentRules.
  destruct (buildWhereClause P now rules) as [w|] eqn:Hw; simpl; [|discriminate].
  unfold findMany. destruct (validWhere P w) eqn:Hv; simpl; [|discriminate].
  intros H. injection H as <-. now exists w.
Qed.

Lemma evaluate_of_where (rules : value) (w : CustomerWhere) (db : Db) :
  buildWhereClause P now rules = Ok w -> validWhere P w = true ->
  evaluateSegmentRules P now rules db = Ok (matchedIds (matches P w) db).
Proof.
  intros Hw Hv. unfold evaluateSegmentRules, findMany. rewrite Hw. simpl. now rewrite Hv.
Qed.

Lemma buildWhereClause_typed (rules : value) (t : string) (cs : list value) :
  get rules "type" = VString t -> t = "AND" \/ t = "OR" ->
  get rules "conditions" = VArray cs ->
  buildWhereClause P now rules =
  (ws <- mapM (buildCondition P now) cs ;; Ok (if String.eqb t "AND" then AND ws else OR ws)).
Proof.
  intros Ht Hor Hc.
  rewrite (BuilderFacts.buildWhereClause_connective P now rules cs); [|  | assumption].
  - rewrite Ht. reflexivity.
  - unfold isConnective. rewrite Ht. now destruct Hor as [-> | ->].
Qed.

Lemma evaluate_bare (c : value) (db : Db) :
  isConnective c = false ->
  evaluateSegmentRules P now c db =
  (w <- buildCondition P now c ;;
   customers <- findMany P (Single w) db ;; Ok (map id customers)).
Proof.
  intros Hc. unfold evaluateSegmentRules, buildWhereClause.
  unfold isConnective in Hc. apply orb_false_iff in Hc as [Ha Ho].
  destruct c; simpl in *; try reflexivity;
    rewrite ?Ha, ?Ho;
    match goal with
    | |- context [buildCondition P now ?v] => now destruct (buildCondition P now v)
    end.
Qed.

End WithPlatform.

(** X1. A rule that evaluates stands for a test on one customer: on any
    store it returns, in store order, the ids of the customers that pass
    that test. So the ids it returns are ids of the store, each at most
    once when customer ids are unique. *)
Theorem evaluation_is_pointwise :
  forall (P : Platform) (now : Z) (rules : value) (db : Db) (ids : list string),
  evaluateSegmentRules P now rules db = Ok ids ->
  (exists p : Customer -> bool,
      forall db', evaluateSegmentRules P now rules db' = Ok (matchedIds p db')) /\
  incl ids (allIds db) /\
  (NoDup (allIds db) -> NoDup ids).
Proof.
  intros P now rules db ids H.
  destruct (evaluate_inv P now rules db ids H) as [w [Hw [Hv ->]]].
  split; [|split].
  - exists (matches P w). intros db'. now apply evaluate_of_where.
  - apply incl_map_filter.
  - apply NoDup_map_filter.
Qed.

(** X2. The order of the conditions of an AND or OR node does not matter
    to a rule that evaluates: a rule with the same conditions in another
    order evaluates to the same ids. *)
Theorem condition_order_is_irrelevant :
  forall (P : Platform) (now : Z) (db : Db) (rules rules' : value)
         (t : string) (cs cs' : list value) (ids : list string),
  t = "AND" \/ t = "OR" ->
  get rules "type" = VString t -> get rules "conditions" = VArray cs ->
  get rules' "type" = VString t -> get rules' "conditions" = VArray cs' ->
  Permutation cs cs' ->
  evaluateSegmentRules P now rules db = Ok ids ->
  evaluateSegmentRules P now rules' db = Ok ids.
Proof.
  intros P now db rules rules' t cs cs' ids Ht Hty Hcs Hty' Hcs' Hperm H.
  destruct (evaluate_inv P now rules db ids H) as [w [Hw [Hv ->]]].
  rewrite (buildWhereClause_typed P now rules t cs Hty Ht Hcs) in Hw.
  destruct (mapM (buildCondition P now) cs) as [ws|] eqn:Hws; simpl in Hw; [|discriminate].
  destruct (mapM_Permutation _ _ _ Hperm ws Hws) as [ws' [Hws' Hp]].
  assert (Hb : buildWhereClause P now rules'
               = Ok (if String.eqb t "AND" then AND ws' else OR ws')).
  { rewrite (buildWhereClause_typed P now rules' t cs' Hty' Ht Hcs'), Hws'. reflexivity. }
  injection Hw as <-.
  rewrite (evaluate_of_where P now rules' _ db Hb).
  - f_equal. unfold matchedIds. f_equal. apply filter_ext. intros c.
    destruct Ht as [-> | ->]; simpl; symmetry;
      [now apply forallb_Permutation | now apply existsb_Permutation].
  - destruct Ht as [-> | ->]; simpl in *;
      now rewrite <- (forallb_Permutation (validFilter P) _ _ Hp).
Qed.

(** X3. An AND or OR node with a single condition evaluates like that
    condition on its own, to the same ids or to the same exception. *)
Theorem single_child_is_the_child :
  forall (P : Platform) (now : Z) (db : Db) (rules c : value) (t : string),
  t = "AND" \/ t = "OR" ->
  get rules "type" = VString t -> get rules "conditions" = VArray [c] ->
  isConnective c = false ->
  evaluateSegmentRules P now rules db = evaluateSegmentRules P now c db.
Proof.
  intros P now db rules c t Ht Hty Hcs Hc.
  rewrite (evaluate_bare P now c db Hc).
  unfold evaluateSegmentRules.
  rewrite (buildWhereClause_typed P now rules t [c] Hty Ht Hcs). simpl.
  destruct (buildCondition P now c) as [w|e]; simpl; [|reflexivity].
  unfold findMany.
  assert (Hv : validWhere P (if String.eqb t "AND" then AND [w] else OR [w])
               = validWhere P (Single w)).
  { destruct Ht as [-> | ->]; simpl; apply andb_true_r. }
  rewrite Hv. destruct (validWhere P (Single w)); simpl; [|reflexivity].
  f_equal. f_equal. apply filter_ext. intros x.
  destruct Ht as [-> | ->]; simpl; [apply andb_true_r | apply orb_false_r].
Qed.

(** X4. Without conditions an AND node selects every customer and an OR
    node none. *)
Theorem no_condition_all_or_none :
  forall (P : Platform) (now : Z) (db : Db) (rules : value),
  get rules "conditions" = VArray [] ->
  (get rules "type" = VString "AND" ->
   evaluateSegmentRules P now rules db = Ok (allIds db)) /\
  (get rules "type" = VString "OR" ->
   evaluateSegmentRules P now rules db = Ok []).
Proof.
  intros P now db rules Hcs. split; intros Hty.
  - rewrite (EvaluatorFacts.evaluate_AND P now db rules [] [] Hty Hcs eq_refl eq_refl).
    unfold matchedIds, allIds. simpl. f_equal. f_equal.
    induction (customer db) as [|a l IH]; simpl; [reflexivity | now rewrite IH].
  - rewrite (EvaluatorFacts.evaluate_OR P now db rules [] [] Hty Hcs eq_refl eq_refl).
    unfold matchedIds. simpl. f_equal.
    induction (customer db) as [|a l IH]; simpl; [reflexivity | exact IH].
Qed.

(** X5. Rule trees do not nest: a child of an AND or OR node that has no
    [field] of its own, as a nested tree has none, is rejected with the
    unsupported-field error for [undefined], once the children before it
    are built. The same holds for a rule whose [type] is neither AND nor
    OR and that has no [field]. *)
Theorem nested_tree_is_rejected :
  forall (P : Platform) (now : Z) (db : Db) (rules : value),
  (forall t pre post c,
      t = "AND" \/ t = "OR" ->
      get rules "type" = VString t ->
      get rules "conditions" = VArray (pre ++ c :: post)%list ->
      Forall (fun p => is_ok (buildCondition P now p) = true) pre ->
      getProp c "field" = Ok VUndefined ->
      evaluateSegmentRules P now rules db = Throw (UnsupportedField VUndefined)) /\
  (isConnective rules = false ->
   getProp rules "field" = Ok VUndefined ->
   evaluateSegmentRules P now rules db = Throw (UnsupportedField VUndefined)).
Proof.
  intros P now db rules. split.
  - intros t pre post c Ht Hty Hcs Hpre Hf.
    apply BuilderFacts.evaluate_throws_at_build.
    rewrite (buildWhereClause_typed P now rules t _ Hty Ht Hcs).
    rewrite (BuilderFacts.mapM_first_throw _ pre post c (UnsupportedField VUndefined) Hpre);
      [reflexivity|].
    now apply BuilderFacts.buildCondition_unrecognized.
  - intros Hc Hf. apply BuilderFacts.evaluate_throws_at_build.
    rewrite (BuilderFacts.buildWhereClause_bare P now rules VUndefined Hc Hf).
    now rewrite (BuilderFacts.buildCondition_unrecognized P now rules VUndefined Hf).
Qed.

End EvaluatorMore.

(* ===================================================================== *)
(** * Further facts on the builders                                       *)
(* ===================================================================== *)

Module BuilderMore.
Import Js Prisma SegmentEvaluator Spec Spec2.

Lemma is_string_true (v : value) (lit : string) :
  is_string v lit = true <-> v = VString lit.
Proof.
  destruct v; simpl; try (split; [discriminate | intros H; discriminate H]).
  rewrite String.eqb_eq. split; [now intros -> | now intros [= ->]].
Qed.

Lemma split_not_nil (sep : ascii) (s : string) : split sep s <> [].
Proof.
  induction s as [|a s IH]; simpl; [discriminate|].
  destruct (Ascii.eqb a sep); [discriminate|].
  destruct (split sep s); [contradiction | discriminate].
Qed.

(** Case analysis on every test [v === 'lit'] of the goal, each positive
    outcome turned into an equation. *)
Ltac case_tests :=
  repeat match goal with
         | |- context [is_string ?v ?l] =>
             let E := fresh "E" in
             destruct (is_string v l) eqn:E;
             [apply is_string_true in E|]
         end.

Lemma buildNumericCondition_outcomes (field : string) (operator : value) (v : number) :
  match buildNumericCondition field operator v with
  | Ok _ => exists os, operator = VString os /\ In os ["gt"; "gte"; "lt"; "lte"; "eq"]
  | Throw e => e = UnsupportedOperator operator
  end.
Proof.
  unfold buildNumericCondition. case_tests; subst;
    try reflexivity; eexists; (split; [reflexivity | simpl; tauto]).
Qed.

Lemma buildStringCondition_outcomes (field : string) (operator v : value) :
  match buildStringCondition field operator v with
  | Ok _ => exists os, operator = VString os /\
                       In os ["contains"; "startsWith"; "endsWith"; "equals"]
  | Throw e => e = UnsupportedOperator operator
  end.
Proof.
  unfold buildStringCondition. case_tests; subst;
    try reflexivity; eexists; (split; [reflexivity | simpl; tauto]).
Qed.

Section WithPlatform.
Variable P : Platform.
Variable now : Z.

Lemma buildDateCondition_outcomes (field : string) (operator v : value) :
  match buildDateCondition P now field operator v with
  | Ok _ => exists os, operator = VString os /\
                       In os ["before"; "after"; "between"; "daysAgo"] /\
                       (os = "between" -> exists s, v = VString s)
  | Throw e => e = UnsupportedOperator operator \/
               (e = TypeError /\ operator = VString "between" /\
                forall s, v <> VString s)
  end.
Proof.
  unfold buildDateCondition. case_tests; subst;
    try (eexists; split; [reflexivity|]; split; [simpl; tauto | discriminate]);
    try (now left).
  destruct v; try (right; repeat split; discriminate).
  destruct (map (fun d => newDate P (VString d)) (split "," s)) as [|a [|b r]] eqn:Hm.
  - apply map_eq_nil in Hm. now destruct (split_not_nil "," s).
  - eexists. split; [reflexivity|]. split; [simpl; tauto|]. intros _. now exists s.
  - eexists. split; [reflexivity|]. split; [simpl; tauto|]. intros _. now exists s.
Qed.

End WithPlatform.

Lemma listed_spec (f o v : value) :
  listed f o v = true <->
  exists fs os ops,
    f = VString fs /\ o = VString os /\ In (fs, ops) advertised /\ In os ops /\
    (os = "between" -> exists s, v = VString s).
Proof.
  unfold listed. rewrite andb_true_iff, existsb_exists. split.
  - intros [[[fs ops] [Hin Hrow]] Hv]. simpl in Hrow.
    apply andb_true_iff in Hrow as [Hf Ho]. apply is_string_true in Hf.
    apply existsb_exists in Ho as [os [Hos Ho]]. apply is_string_true in Ho.
    exists fs, os, ops. repeat split; try assumption.
    intros ->. subst o. simpl in Hv. destruct v; try discriminate. now eexists.
  - intros [fs [os [ops [-> [-> [Hin [Hos Hv]]]]]]]. split.
    + exists (fs, ops). split; [assumption|]. simpl. rewrite String.eqb_refl. simpl.
      apply existsb_exists. exists os. split; [assumption|]. simpl. apply String.eqb_refl.
    + simpl. destruct (String.eqb os "between") eqn:E; [|reflexivity].
      apply String.eqb_eq in E. destruct (Hv E) as [s ->]. reflexivity.
Qed.

Section Accepts.
Variable P : Platform.
Variable now : Z.

Lemma buildCondition_ok_iff_listed (c f : value) :
  getProp c "field" = Ok f ->
  is_ok (buildCondition P now c) = listed f (get c "operator") (get c "value").
Proof.
  intros Hf. unfold buildCondition. rewrite Hf. simpl.
  generalize (get c "operator") as o. generalize (get c "value") as v. intros v o.
  unfold buildNumericCondition, buildDateCondition, buildStringCondition, listed.
  simpl.
  repeat match goal with
         | |- context [is_string ?x ?l] =>
             let E := fresh "E" in
             destruct (is_string x l) eqn:E;
             [apply is_string_true in E; subst x; simpl | simpl]
         end; try reflexivity.
  destruct v; try reflexivity.
  pose proof (split_not_nil "," s) as Hs.
  destruct (split "," s) as [|s1 [|s2 r]]; [contradiction | reflexivity | reflexivity].
Qed.

End Accepts.

(** X6. The builder accepts the field and operator pairs the rule
    generator's prompt lists, and no other: a condition builds exactly
    when its field is one of the four listed and its operator one listed
    for that field (and, for [between], its value is a string). Any other
    condition is rejected with the unsupported-field error, the
    unsupported-operator error, or, for [between] on a value that is not
    a string, a TypeError; an operator of another field's type is just
    an unsupported operator. *)
Theorem builder_accepts_what_is_advertised :
  forall (P : Platform) (now : Z) (c f : value),
  getProp c "field" = Ok f ->
  (is_ok (buildCondition P now c) = true <->
   exists fs os ops,
     f = VString fs /\ get c "operator" = VString os /\
     In (fs, ops) advertised /\ In os ops /\
     (os = "between" -> exists s, get c "value" = VString s)) /\
  (forall e, buildCondition P now c = Throw e ->
     (recognizedField f = false /\ e = UnsupportedField f) \/
     (recognizedField f = true /\ e = UnsupportedOperator (get c "operator")) \/
     (f = VString "lastVisit" /\ get c "operator" = VString "between" /\
      e = TypeError)).
Proof.
  intros P now c f Hf.
  split.
  - rewrite (buildCondition_ok_iff_listed P now c f Hf). apply listed_spec.
  - unfold buildCondition. rewrite Hf. simpl. unfold recognizedField.
    destruct (is_string f "totalSpend") eqn:E1; simpl.
    { intros e He.
      pose proof (buildNumericCondition_outcomes "totalSpend" (get c "operator")
                    (parseFloat P (get c "value"))) as H.
      rewrite He in H. right. left. now split. }
    destruct (is_string f "visitCount") eqn:E2; simpl.
    { intros e He.
      pose proof (buildNumericCondition_outcomes "visitCount" (get c "operator")
                    (parseInt P (get c "value"))) as H.
      rewrite He in H. right. left. now split. }
    destruct (is_string f "lastVisit") eqn:E3; simpl.
    { intros e He. apply is_string_true in E3.
      pose proof (buildDateCondition_outcomes P now "lastVisit" (get c "operator")
                    (get c "value")) as H.
      rewrite He in H. destruct H as [-> | [-> [Ho _]]].
      - right. left. now split.
      - right. right. now repeat split. }
    destruct (is_string f "email") eqn:E4; simpl.
    { intros e He.
      pose proof (buildStringCondition_outcomes "email" (get c "operator")
                    (get c "value")) as H.
      rewrite He in H. right. left. now split. }
    intros e [= <-]. left. now split.
Qed.


Lemma TimeClip_integer (z : Z) :
  Z.abs z <= 8640000000000000 -> TimeClip (Fin (inject_Z z)) = Time z.
Proof.
  intros H. unfold TimeClip.
  assert (Hq : Qle_bool (Qabs (inject_Z z)) (inject_Z 8640000000000000) = true).
  { apply Qle_bool_iff. unfold Qabs, inject_Z, Qle. simpl. lia. }
  rewrite Hq. simpl. now rewrite Z.quot_1_r.
Qed.

Lemma daysBefore_integer (now n : Z) :
  daysBefore now (Fin (inject_Z n)) = TimeClip (Fin (inject_Z (now - n * msPerDay))).
Proof.
  unfold daysBefore, inject_Z. cbn [Qnum Qden]. now rewrite Z.div_1_r.
Qed.

(** X7. What [between] makes of its value. A string with no comma gives
    a range open at the end: every visit at or after the date matches.
    Of a string with two commas or more only the first two parts count.
    A value that is not a string is rejected with a TypeError. *)
Theorem between_takes_two_dates :
  forall (P : Platform) (now : Z) (c : value),
  getProp c "field" = Ok (VString "lastVisit") ->
  get c "operator" = VString "between" ->
  (forall s s1 d,
      get c "value" = VString s -> split "," s = [s1] -> Date_parse P s1 = Time d ->
      exists w, buildCondition P now c = Ok w /\ validFilter P w = true /\
                forall x, holds P w x = true <-> exists t, lastVisit x = Some t /\ d <= t) /\
  (forall s s1 s2 rest,
      get c "value" = VString s -> split "," s = s1 :: s2 :: rest ->
      buildCondition P now c
      = Ok {| key := "lastVisit";
              filter := DateTimeRange (Date_parse P s1) (Some (Date_parse P s2)) |}) /\
  ((forall s, get c "value" <> VString s) ->
   buildCondition P now c = Throw TypeError).
Proof.
  intros P now c Hf Ho. unfold buildCondition. rewrite Hf, Ho. simpl.
  unfold buildDateCondition. simpl. split; [|split].
  - intros s s1 d Hv Hs Hd. rewrite Hv, Hs. simpl. rewrite Hd.
    eexists. split; [reflexivity|]. split; [reflexivity|].
    intros x. unfold holds. simpl. destruct (lastVisit x) as [t|].
    + rewrite andb_true_r, Z.leb_le. split.
      * intros H. now exists t.
      * intros [t' [[= <-] H]]. exact H.
    + split; [discriminate | intros [t [H _]]; discriminate].
  - intros s s1 s2 rest Hv Hs. rewrite Hv, Hs. reflexivity.
  - intros Hv. destruct (get c "value"); try reflexivity. now destruct (Hv s).
Qed.

(** X8. [daysAgo] with a day count [n] matches exactly the customers
    whose last visit is strictly earlier than [n] times 24 hours before
    the clock reading (in a time zone without clock changes); a customer
    who never visited does not match. With a value that [parseInt]
    cannot read the condition still builds, with an invalid date as its
    bound. *)
Theorem daysAgo_is_strictly_earlier :
  forall (P : Platform) (now : Z) (c : value),
  getProp c "field" = Ok (VString "lastVisit") ->
  get c "operator" = VString "daysAgo" ->
  (forall n,
      parseInt P (get c "value") = Fin (inject_Z n) ->
      Z.abs (now - n * msPerDay) <= 8640000000000000 ->
      exists w, buildCondition P now c = Ok w /\ validFilter P w = true /\
                forall x, holds P w x = true <->
                          exists t, lastVisit x = Some t /\ t < now - n * msPerDay) /\
  (parseInt P (get c "value") = NaN ->
   buildCondition P now c
   = Ok {| key := "lastVisit"; filter := DateTimeFilter lt InvalidDate |}).
Proof.
  intros P now c Hf Ho. unfold buildCondition. rewrite Hf, Ho. simpl.
  unfold buildDateCondition. simpl. split.
  - intros n Hn Hrange. rewrite Hn, daysBefore_integer, (TimeClip_integer _ Hrange).
    eexists. split; [reflexivity|]. split; [reflexivity|].
    intros x. unfold holds. simpl. destruct (lastVisit x) as [t|].
    + rewrite Z.ltb_lt. split.
      * intros H. now exists t.
      * intros [t' [[= <-] H]]. exact H.
    + split; [discriminate | intros [t [H _]]; discriminate].
  - intros Hn. now rewrite Hn.
Qed.

End BuilderMore.

(* ===================================================================== *)
(** * Further facts on the segment routes                                 *)
(* ===================================================================== *)

Module RouteMore.
Import Js Prisma SegmentEvaluator SegmentsRoute Spec.

Lemma evaluate_reads_customers_only (P : Platform) (now : Z) (rules : value) (db db' : Db) :
  customer db = customer db' ->
  evaluateSegmentRules P now rules db = evaluateSegmentRules P now rules db'.
Proof.
  intros H. unfold evaluateSegmentRules, findMany. now rewrite H.
Qed.

Lemma insert_absent (rows : list CustomerSegment) (a : CustomerSegment) :
  ~ In a rows -> insertUnlessPresent rows a = (rows ++ [a])%list.
Proof.
  intros H. unfold insertUnlessPresent.
  destruct (existsb (sameRow a) rows) eqn:E; [|reflexivity].
  apply existsb_exists in E as [b [Hb Hs]].
  apply RouteFacts.sameRow_eq in Hs. subst b. contradiction.
Qed.

Lemma createMany_fresh (data rows : list CustomerSegment) :
  NoDup data -> (forall r, In r data -> ~ In r rows) ->
  fold_left insertUnlessPresent data rows = (rows ++ data)%list.
Proof.
  revert rows. induction data as [|a data IH]; intros rows Hnd Hfresh; simpl.
  - now rewrite app_nil_r.
  - inversion Hnd as [|? ? Hnotin Hnd']; subst.
    rewrite insert_absent by (apply Hfresh; now left).
    rewrite IH; [now rewrite <- app_assoc | assumption |].
    intros r Hr Hin. apply in_app_iff in Hin as [Hin | [<- | []]].
    + apply (Hfresh r); [now right | assumption].
    + contradiction.
Qed.

Lemma filter_nothing {A} (p : A -> bool) (l : list A) :
  (forall a, In a l -> p a = false) -> List.filter p l = [].
Proof.
  induction l as [|a l IH]; simpl; intros H; [reflexivity|].
  rewrite (H a) by now left. apply IH. intros b Hb. apply H. now right.
Qed.

(** With fuel for every batch, the batches add up to one [createMany]
    of all the rows. *)
Lemma addInBatches_rows (fuel : nat) :
  forall (i : nat) (l : list string) (segId : string) (db : Db),
  (List.length l - i <= fuel)%nat ->
  customerSegment (addInBatches fuel i l segId db)
  = fold_left insertUnlessPresent (map (member segId) (skipn i l)) (customerSegment db).
Proof.
  induction fuel as [|fuel IH]; intros i l segId db Hfuel; simpl.
  - rewrite skipn_all2 by lia. reflexivity.
  - destruct (i <? List.length l)%nat eqn:Hi.
    + apply Nat.ltb_lt in Hi. rewrite IH by (unfold batchSize; lia).
      unfold customerSegment_createMany, slice. simpl.
      replace (i + batchSize - i)%nat with batchSize by lia.
      replace (skipn (i + batchSize) l) with (skipn batchSize (skipn i l))
        by (rewrite skipn_skipn; f_equal; lia).
      rewrite <- fold_left_app. fold (member segId). rewrite <- map_app.
      now rewrite firstn_skipn.
    + apply Nat.ltb_ge in Hi. rewrite skipn_all2 by lia. reflexivity.
Qed.

Lemma mapM_ext_in {A B} (f g : A -> result B) (l : list A) :
  (forall x, In x l -> f x = g x) -> mapM f l = mapM g l.
Proof.
  induction l as [|a l IH]; intros H; simpl; [reflexivity|].
  rewrite (H a) by now left. rewrite IH; [reflexivity|].
  intros x Hx. apply H. now right.
Qed.

(** Only [daysAgo] reads the clock. *)
Lemma buildCondition_clock (P : Platform) (now now' : Z) (c : value) :
  is_string (get c "operator") "daysAgo" = false ->
  buildCondition P now c = buildCondition P now' c.
Proof.
  intros H. unfold buildCondition, buildDateCondition. cbv zeta.
  rewrite H. reflexivity.
Qed.

Lemma buildWhereClause_clock (P : Platform) (now now' : Z) (rules : value) :
  Spec2.clockFree rules = true ->
  buildWhereClause P now rules = buildWhereClause P now' rules.
Proof.
  unfold Spec2.clockFree, isConnective, buildWhereClause. intros H.
  assert (Hmap : forall cs,
             forallb (fun c => negb (is_string (get c "operator") "daysAgo")) cs = true ->
             mapM (buildCondition P now) cs = mapM (buildCondition P now') cs).
  { intros cs Hcs. apply mapM_ext_in. intros c Hc. apply buildCondition_clock.
    rewrite forallb_forall in Hcs. apply negb_true_iff. now apply Hcs. }
  destruct (getProp rules "type") as [type|e] eqn:Et; cbn [bind]; [|reflexivity].
  assert (Htype : type = get rules "type")
    by (unfold getProp in Et; destruct rules; congruence).
  subst type.
  destruct (is_string (get rules "type") "AND") eqn:Ea; cbn [orb] in H.
  - unfold array_map. destruct (get rules "conditions"); try reflexivity.
    now rewrite (Hmap _ H).
  - destruct (is_string (get rules "type") "OR") eqn:Eo.
    + unfold array_map. destruct (get rules "conditions"); try reflexivity.
      now rewrite (Hmap _ H).
    + now rewrite (buildCondition_clock P now now' _ (proj1 (negb_true_iff _) H)).
Qed.

Lemma evaluate_clock (P : Platform) (now now' : Z) (rules : value) (db : Db) :
  Spec2.clockFree rules = true ->
  evaluateSegmentRules P now rules db = evaluateSegmentRules P now' rules db.
Proof.
  intros H. unfold evaluateSegmentRules. now rewrite (buildWhereClause_clock P now now').
Qed.

(** X9. A preview tells what a create will store, for a rule that does
    not read the clock. The two are separate requests, each with its own
    clock reading. When no condition of the rule has the operator
    [daysAgo] and the create route answers 201 with a count, the preview
    route, asked with the same rules at any clock reading, on the store
    as it was before the create or as the create left it, answers with
    that count and with the first five of the ids that became members of
    the new segment. *)
Theorem preview_agrees_with_create :
  forall (P : Platform) (now now' : Z) (newId : string) (req : Request) (db db' : Db)
         (created : Segment) (n : nat),
  Spec2.clockFree (body_rules req) = true ->
  postSegment P now newId req db = (db', Status201 created n) ->
  exists ids,
    n = List.length ids /\
    postPreview P now' req db = (db, Status200 n (firstn 5 ids)) /\
    postPreview P now' req db' = (db', Status200 n (firstn 5 ids)) /\
    forall cid, In cid ids -> In (member newId cid) (customerSegment db').
Proof.
  intros P now now' newId req db db' created n Hclock H.
  destruct (nameValid req) eqn:Hn;
    [|unfold postSegment in H; rewrite Hn in H; discriminate].
  destruct (rulesValid req) eqn:Hr;
    [|unfold postSegment in H; rewrite Hn, Hr in H; discriminate].
  destruct (evaluateSegmentRules P now (body_rules req)
              (segment_create (newSegment newId req) db)) as [ids|e] eqn:He.
  - destruct (RouteFacts.postSegment_created P now newId req db ids Hn Hr He)
      as [db2 [Hrun [Hc [_ Hrows]]]].
    rewrite Hrun in H. injection H as -> _ <-.
    exists ids. split; [reflexivity|].
    assert (He0 : evaluateSegmentRules P now' (body_rules req) db = Ok ids).
    { rewrite <- He, <- (evaluate_clock P now now' _ _ Hclock).
      now apply evaluate_reads_customers_only. }
    assert (He1 : evaluateSegmentRules P now' (body_rules req) db' = Ok ids).
    { rewrite <- He, <- (evaluate_clock P now now' _ _ Hclock).
      apply evaluate_reads_customers_only. now rewrite Hc. }
    unfold postPreview. rewrite Hr, He0, He1. simpl.
    repeat split. intros cid Hin. apply Hrows. right. now exists cid.
  - rewrite (RouteFacts.postSegment_throws P now newId req db e Hn Hr He) in H.
    discriminate.
Qed.

(** X10. When customer ids are unique and no membership row carries the
    new segment's id yet, a successful create appends to the membership
    table exactly one row for each matched customer, in store order,
    whatever the number of batches: the reported count is the number of
    rows of the new segment. *)
Theorem create_appends_one_row_each :
  forall (P : Platform) (now : Z) (newId : string) (req : Request) (db db' : Db)
         (created : Segment) (n : nat),
  NoDup (allIds db) ->
  (forall r, In r (customerSegment db) -> segmentId r <> newId) ->
  postSegment P now newId req db = (db', Status201 created n) ->
  exists ids,
    evaluateSegmentRules P now (body_rules req) db = Ok ids /\
    customerSegment db' = (customerSegment db ++ map (member newId) ids)%list /\
    n = List.length ids /\
    List.length (List.filter (fun r => String.eqb (segmentId r) newId) (customerSegment db'))
    = n.
Proof.
  intros P now newId req db db' created n Hnd Hfresh H.
  unfold postSegment in H.
  destruct (nameValid req && rulesValid req); simpl in H; [|discriminate].
  destruct (evaluateSegmentRules P now (body_rules req)
              (segment_create _ db)) as [ids|e] eqn:He; [|discriminate].
  injection H as <- _ <-.
  assert (He0 : evaluateSegmentRules P now (body_rules req) db = Ok ids).
  { rewrite <- He. now apply evaluate_reads_customers_only. }
  destruct (EvaluatorMore.evaluate_inv P now _ _ _ He0) as [w [_ [_ Hids]]].
  assert (Hndids : NoDup ids).
  { rewrite Hids. now apply EvaluatorMore.NoDup_map_filter. }
  exists ids. split; [exact He0|].
  assert (Hrows : customerSegment
                    (addInBatches (List.length ids) 0 ids newId
                       (segment_create
                          {| segment_id := newId;
                             segment_name := match body_name req with
                                             | Some s => trim s
                                             | None => ""
                                             end;
                             segment_description := option_map trim (body_description req);
                             segment_rules := body_rules req;
                             createdById := user_id req |} db))
                  = (customerSegment db ++ map (member newId) ids)%list).
  { rewrite addInBatches_rows by lia. simpl. apply createMany_fresh.
    - clear - Hndids. induction Hndids as [|a l Hnotin _ IH]; simpl; constructor; auto.
      intros Hin. apply in_map_iff in Hin as [b [[= ->] Hb]]. contradiction.
    - intros r Hr Hin. apply in_map_iff in Hr as [cid [<- _]].
      now apply (Hfresh _ Hin). }
  split; [exact Hrows|]. split; [reflexivity|].
  rewrite Hrows, filter_app, length_app.
  assert (H0 : List.filter (fun r => String.eqb (segmentId r) newId) (customerSegment db) = []).
  { apply filter_nothing. intros r Hr.
    apply String.eqb_neq. now apply Hfresh. }
  rewrite H0. simpl.
  clear. induction ids as [|a l IH]; simpl; [reflexivity|].
  rewrite String.eqb_refl. simpl. now rewrite IH.
Qed.

End RouteMore.

(* ===================================================================== *)
(** * Further facts on the segments page                                  *)
(* ===================================================================== *)

Module SegmentsPageMore.
Import Js Frontend SegmentsPage SegmentsForm Spec Spec2.

Lemma split_word (w rest : string) :
  noSpace w = true -> split " " (w ++ String " " rest) = w :: split " " rest.
Proof.
  induction w as [|a w IH]; simpl; intros H; [reflexivity|].
  apply andb_true_iff in H as [Ha Hw]. apply negb_true_iff in Ha.
  rewrite Ha, (IH Hw). reflexivity.
Qed.

Lemma split_last_word (w : string) : noSpace w = true -> split " " w = [w].
Proof.
  induction w as [|a w IH]; simpl; intros H; [reflexivity|].
  apply andb_true_iff in H as [Ha Hw]. apply negb_true_iff in Ha.
  rewrite Ha, (IH Hw). reflexivity.
Qed.

Lemma split_three (f o v : string) :
  noSpace f = true -> noSpace o = true -> noSpace v = true ->
  split " " (f ++ " " ++ o ++ " " ++ v) = [f; o; v].
Proof.
  intros Hf Ho Hv. simpl.
  now rewrite (split_word f _ Hf), (split_word o _ Ho), (split_last_word v Hv).
Qed.

Lemma filter_filter {A} (p q : A -> bool) (l : list A) :
  List.filter q (List.filter p l) = List.filter (fun a => p a && q a) l.
Proof.
  induction l as [|a l IH]; simpl; [reflexivity|].
  destruct (p a); simpl; [destruct (q a); now rewrite IH | exact IH].
Qed.

(** X11. The rules of a list are applied as one filter after the other:
    matching against two lists of rules put together is matching the
    matches of the first against the second. A longer list so never
    matches more, the order of the rules does not matter, and no rule
    matches every customer. *)
Theorem rules_filter_in_sequence :
  forall (customers : list Customer) (rules more : list string),
  getMatchedCustomers customers (rules ++ more)
  = getMatchedCustomers (getMatchedCustomers customers rules) more /\
  incl (getMatchedCustomers customers (rules ++ more))
       (getMatchedCustomers customers rules) /\
  (forall rules', Permutation rules rules' ->
                  getMatchedCustomers customers rules'
                  = getMatchedCustomers customers rules) /\
  getMatchedCustomers customers [] = customers.
Proof.
  intros customers rules more. unfold getMatchedCustomers.
  assert (Hseq : List.filter (fun c => forallb (ruleHolds c) (rules ++ more)) customers
                 = List.filter (fun c => forallb (ruleHolds c) more)
                     (List.filter (fun c => forallb (ruleHolds c) rules) customers)).
  { rewrite filter_filter. apply filter_ext. intros c. apply forallb_app. }
  split; [exact Hseq|]. split; [|split].
  - rewrite Hseq. intros c Hc. apply filter_In in Hc as [Hc _]. exact Hc.
  - intros rules' Hp. apply filter_ext. intros c. symmetry.
    now apply EvaluatorMore.forallb_Permutation.
  - simpl. clear Hseq. induction customers as [|c l IH]; simpl; [reflexivity | now rewrite IH].
Qed.

(** X12. A rule on [totalPurchases] always compares numbers: the count
    of the customer with [Number(value)]. With a value that is a number
    the five operators are the usual comparisons; with a value that is
    not a number, [>], [<], [=] and [==] match no customer and [!=]
    matches every customer. *)
Theorem totalPurchases_rule_compares_numbers :
  forall (c : Customer) (op v : string),
  noSpace op = true -> noSpace v = true ->
  let rule := "totalPurchases " ++ op ++ " " ++ v in
  let purchases := inject_Z (totalPurchases c) in
  (forall q, Number_string v = Fin q ->
     (op = ">" -> ruleHolds c rule = Qlt_bool q purchases) /\
     (op = "<" -> ruleHolds c rule = Qlt_bool purchases q) /\
     (op = "=" \/ op = "==" -> ruleHolds c rule = Qeq_bool purchases q) /\
     (op = "!=" -> ruleHolds c rule = negb (Qeq_bool purchases q))) /\
  (Number_string v = NaN ->
     (op = ">" \/ op = "<" \/ op = "=" \/ op = "==" -> ruleHolds c rule = false) /\
     (op = "!=" -> ruleHolds c rule = true)).
Proof.
  intros c op v Hop Hv rule purchases.
  assert (Hs : split " " rule = ["totalPurchases"; op; v]).
  { apply (split_three "totalPurchases" op v); [reflexivity | assumption | assumption]. }
  unfold ruleHolds. rewrite Hs. simpl. unfold parseValue. split.
  - intros q Hq. rewrite Hq. simpl.
    repeat split; intros H; try destruct H as [H | H]; subst op; reflexivity.
  - intros Hn. rewrite Hn. simpl. split.
    + intros [H | [H | [H | H]]]; subst op; simpl;
        unfold greaterThan, lessThan, looseEquals; simpl; rewrite ?Hn; reflexivity.
    + intros ->. simpl. unfold looseEquals. simpl. now rewrite Hn.
Qed.

(** X13. Only the first three words of a rule count: whatever follows
    the value, after a space, is ignored. *)
Theorem words_after_the_third_are_ignored :
  forall (c : Customer) (f o v rest : string),
  noSpace f = true -> noSpace o = true -> noSpace v = true ->
  ruleHolds c (f ++ " " ++ o ++ " " ++ v ++ " " ++ rest)
  = ruleHolds c (f ++ " " ++ o ++ " " ++ v).
Proof.
  intros c f o v rest Hf Ho Hv. unfold ruleHolds.
  rewrite (split_three f o v Hf Ho Hv). simpl.
  now rewrite (split_word f _ Hf), (split_word o _ Ho), (split_word v _ Hv).
Qed.

Lemma map_replace_ids (i : string) (new : Segment) (l : list Segment) :
  segment_id new = i ->
  map segment_id (map (fun s => if String.eqb (segment_id s) i then new else s) l)
  = map segment_id l.
Proof.
  intros Hn. rewrite map_map. apply map_ext. intros s.
  destruct (String.eqb (segment_id s) i) eqn:E; [|reflexivity].
  apply String.eqb_eq in E. congruence.
Qed.

Lemma map_replace_absent (i : string) (new : Segment) (l : list Segment) :
  (forall s, In s l -> segment_id s <> i) ->
  map (fun s => if String.eqb (segment_id s) i then new else s) l = l.
Proof.
  intros H. induction l as [|a l IH]; simpl; [reflexivity|].
  rewrite (proj2 (String.eqb_neq _ _) (H a (or_introl eq_refl))).
  rewrite IH; [reflexivity|]. intros s Hs. apply H. now right.
Qed.

Lemma save_inv (dateNow : string) (st st' : State) (ls ls' : LocalStorage) :
  handleCreateSegment dateNow st ls = (st', ls', Saved) ->
  name st <> "" /\ description st <> "" /\ rules st <> [] /\
  exists i updated,
    i = (if truthy (editingId st)
         then match editingId st with Some i => i | None => dateNow end
         else dateNow) /\
    updated = (if truthy (editingId st)
               then map (fun s => if String.eqb (segment_id s) i
                                  then materialized i st else s) (segments st)
               else segments st ++ [materialized i st])%list /\
    st' = afterSave updated st /\ ls' = withSegments updated ls.
Proof.
  unfold handleCreateSegment.
  destruct (String.eqb (name st) "") eqn:En; simpl; [discriminate|].
  destruct (String.eqb (description st) "") eqn:Ed; simpl; [discriminate|].
  destruct (List.length (rules st) =? 0)%nat eqn:Er; simpl; [discriminate|].
  intros H. apply String.eqb_neq in En. apply String.eqb_neq in Ed.
  split; [assumption|]. split; [assumption|]. split.
  { intros Hr. rewrite Hr in Er. discriminate. }
  eexists. eexists. split; [reflexivity|]. split; [reflexivity|].
  destruct (truthy (editingId st)) eqn:Et.
  - destruct (editingId st) as [i|]; [|discriminate]. injection H as <- <-. now split.
  - injection H as <- <-. now split.
Qed.

(** X14. A save keeps the segment list in shape. What is stored is the
    list the page shows. An edit leaves the ids of the list as they are,
    in number and order; a create adds the id [dateNow] at the end, so
    ids stay unique when [dateNow] is new. Every segment of the list
    keeps a name, a description and at least one rule. *)
Theorem save_keeps_the_list_in_shape :
  forall (dateNow : string) (st st' : State) (ls ls' : LocalStorage),
  handleCreateSegment dateNow st ls = (st', ls', Saved) ->
  stored_segments ls' = Some (segments st') /\
  map segment_id (segments st')
  = (if truthy (editingId st) then map segment_id (segments st)
     else map segment_id (segments st) ++ [dateNow])%list /\
  (Forall wellFormed (segments st) -> Forall wellFormed (segments st')) /\
  (truthy (editingId st) = false ->
   NoDup (map segment_id (segments st)) ->
   ~ In dateNow (map segment_id (segments st)) ->
   NoDup (map segment_id (segments st'))).
Proof.
  intros dateNow st st' ls ls' H.
  destruct (save_inv dateNow st st' ls ls' H)
    as [Hn [Hd [Hr [i [updated [Hi [Hu [-> ->]]]]]]]].
  simpl. split; [reflexivity|].
  assert (Hwf : wellFormed (materialized i st)) by (now repeat split).
  destruct (truthy (editingId st)) eqn:Et.
  - subst updated. split; [now apply map_replace_ids|]. split; [|discriminate].
    intros Hall. apply Forall_map. eapply Forall_impl; [|exact Hall].
    intros s Hs. now destruct (String.eqb (segment_id s) i).
  - subst updated i. rewrite map_app. simpl. split; [reflexivity|]. split.
    + intros Hall. apply Forall_app. split; [assumption | now constructor].
    + intros _ Hnd Hfresh. apply NoDup_app; [assumption | repeat constructor; intros [] |].
      intros x Hx [<- | []]. contradiction.
Qed.

Lemma handleEdit_form (s : Segment) (st : State) :
  wellFormed s ->
  name (handleEdit s st) <> "" /\ description (handleEdit s st) <> "" /\
  rules (handleEdit s st) <> [].
Proof. intros [Hn [Hd Hr]]. now repeat split. Qed.

(** X15. An edit of a segment that was deleted while its form was open
    is lost without a word: the save reports success and stores the list
    as it was after the delete, without the segment. *)
Theorem edit_of_a_deleted_segment_is_dropped :
  forall (dateNow : string) (st : State) (ls : LocalStorage) (s : Segment),
  wellFormed s -> segment_id s <> "" ->
  let st1 := handleEdit s st in
  let st2 := fst (handleDelete true (segment_id s) st1 ls) in
  let ls2 := snd (handleDelete true (segment_id s) st1 ls) in
  handleCreateSegment dateNow st2 ls2
  = (afterSave (segments st2) st2, withSegments (segments st2) ls2, Saved) /\
  forall x, In x (segments st2) -> segment_id x <> segment_id s.
Proof.
  intros dateNow st ls s Hwf Hid st1 st2 ls2.
  destruct (handleEdit_form s st Hwf) as [Hn [Hd Hr]].
  assert (Hgone : forall x, In x (segments st2) -> segment_id x <> segment_id s).
  { intros x Hx. simpl in Hx. apply filter_In in Hx as [_ Hx].
    apply negb_true_iff in Hx. now apply String.eqb_neq. }
  split; [|exact Hgone].
  rewrite (FrontendFacts.handleCreateSegment_updates dateNow st2 ls2 (segment_id s));
    try assumption; try reflexivity.
  now rewrite (map_replace_absent _ _ _ Hgone).
Qed.

(** X16. Opening a stored segment for edit and saving at once keeps its
    id, name, description and rules and its place in the list, and
    brings its membership and count up to date with the customers the
    page has loaded; when they were up to date already, the list is
    stored as it was. *)
Theorem edit_then_save_refreshes :
  forall (dateNow : string) (st : State) (ls : LocalStorage) (s : Segment),
  In s (segments st) -> wellFormed s -> segment_id s <> "" ->
  NoDup (map segment_id (segments st)) ->
  let current := getMatchedCustomers (customers st) (Frontend.rules s) in
  exists s' saved,
    handleCreateSegment dateNow (handleEdit s st) ls
    = (afterSave saved (handleEdit s st), withSegments saved ls, Saved) /\
    saved = map (fun x => if String.eqb (segment_id x) (segment_id s) then s' else x)
              (segments st) /\
    In s' saved /\
    segment_id s' = segment_id s /\ segment_name s' = segment_name s /\
    segment_description s' = segment_description s /\
    Frontend.rules s' = Frontend.rules s /\
    matchedCustomerIds s' = map id current /\
    customerCount s' = List.length current /\
    (matchedCustomerIds s = map id current -> customerCount s = List.length current ->
     saved = segments st).
Proof.
  intros dateNow st ls s Hin Hwf Hid Hnd current.
  destruct (handleEdit_form s st Hwf) as [Hn [Hd Hr]].
  exists (materialized (segment_id s) (handleEdit s st)). eexists.
  split.
  { apply (FrontendFacts.handleCreateSegment_updates dateNow (handleEdit s st) ls
             (segment_id s)); try assumption; reflexivity. }
  simpl. split; [reflexivity|]. split.
  { apply in_map_iff. exists s. now rewrite String.eqb_refl. }
  repeat split.
  intros Hm Hc.
  assert (Hs : materialized (segment_id s) (handleEdit s st) = s).
  { unfold materialized. simpl. fold current. rewrite <- Hm, <- Hc. now destruct s. }
  rewrite Hs. rewrite <- (map_id (segments st)) at 2. apply map_ext_in.
  intros x Hx. destruct (String.eqb (segment_id x) (segment_id s)) eqn:E; [|reflexivity].
  apply String.eqb_eq in E. symmetry.
  now apply (EvaluatorFacts.unique_key segment_id (segments st)).
Qed.

(** X17. Removing a rule removes every copy of it and nothing else. So
    adding a rule and removing it again gives back the former rules only
    when the rule was not among them: otherwise the earlier copies go as
    well. A prompt that is dismissed or left empty adds nothing. *)
Theorem remove_rule_removes_every_copy :
  forall (rule : string) (st : State),
  ~ In rule (rules (handleRemoveRule rule st)) /\
  (forall r, r <> rule ->
             (In r (rules (handleRemoveRule rule st)) <-> In r (rules st))) /\
  (rule <> "" ->
   rules (handleRemoveRule rule (handleAddRule (Some rule) st))
   = List.filter (fun r => negb (String.eqb r rule)) (rules st)) /\
  (rule <> "" -> ~ In rule (rules st) ->
   handleRemoveRule rule (handleAddRule (Some rule) st) = st) /\
  (rule <> "" -> In rule (rules st) ->
   (List.length (rules (handleRemoveRule rule (handleAddRule (Some rule) st)))
    < List.length (rules st))%nat) /\
  handleAddRule None st = st /\ handleAddRule (Some "") st = st.
Proof.
  intros rule st.
  assert (Hadd : rule <> "" ->
                 rules (handleRemoveRule rule (handleAddRule (Some rule) st))
                 = List.filter (fun r => negb (String.eqb r rule)) (rules st)).
  { intros Hr. unfold handleAddRule. simpl.
    rewrite (FrontendFacts.eqb_empty_false _ Hr). simpl.
    rewrite filter_app. simpl. rewrite String.eqb_refl. simpl. apply app_nil_r. }
  split; [|split; [|split; [|split; [|split]]]].
  - simpl. intros H. apply filter_In in H as [_ H]. now rewrite String.eqb_refl in H.
  - intros r Hr. simpl. rewrite filter_In. apply String.eqb_neq in Hr. rewrite Hr.
    simpl. tauto.
  - exact Hadd.
  - intros Hr Hnotin.
    assert (Hsame : List.filter (fun r => negb (String.eqb r rule)) (rules st) = rules st).
    { clear Hadd. induction (rules st) as [|a l IH]; simpl; [reflexivity|].
      destruct (String.eqb a rule) eqn:E.
      - apply String.eqb_eq in E. subst a. exfalso. apply Hnotin. now left.
      - simpl. rewrite IH; [reflexivity|]. intros H. apply Hnotin. now right. }
    specialize (Hadd Hr). unfold handleRemoveRule, withRules in *. simpl in *.
    rewrite Hadd, Hsame. unfold handleAddRule. simpl.
    rewrite (FrontendFacts.eqb_empty_false _ Hr). simpl. now destruct st.
  - intros Hr Hin. rewrite (Hadd Hr). clear Hadd.
    induction (rules st) as [|a l IH]; simpl in *; [contradiction|].
    destruct (String.eqb a rule) eqn:E; simpl.
    + pose proof (filter_length_le (fun r => negb (String.eqb r rule)) l). lia.
    + destruct Hin as [-> | Hin]; [now rewrite String.eqb_refl in E|].
      specialize (IH Hin). lia.
  - split; reflexivity.
Qed.

(** X18. The Cancel button leaves the form filled: after opening a
    segment for edit and cancelling, a save creates a new segment, with
    the id [dateNow], that copies the name, the description and the rules
    of the segment that was opened; the stored segments stay as they
    were. *)
Theorem cancel_leaves_the_form_filled :
  forall (dateNow : string) (st : State) (ls : LocalStorage) (s : Segment),
  wellFormed s ->
  exists copy,
    handleCreateSegment dateNow (handleCancel (handleEdit s st)) ls
    = (afterSave (segments st ++ [copy]) (handleCancel (handleEdit s st)),
       withSegments (segments st ++ [copy]) ls, Saved) /\
    segment_id copy = dateNow /\ segment_name copy = segment_name s /\
    segment_description copy = segment_description s /\
    Frontend.rules copy = Frontend.rules s.
Proof.
  intros dateNow st ls s Hwf.
  destruct (handleEdit_form s st Hwf) as [Hn [Hd Hr]].
  exists (materialized dateNow (handleCancel (handleEdit s st))). split.
  - apply (FrontendFacts.handleCreateSegment_creates dateNow
             (handleCancel (handleEdit s st)) ls); try assumption; reflexivity.
  - now repeat split.
Qed.

End SegmentsPageMore.

(* ===================================================================== *)
(** * Further facts on the customers page                                 *)
(* ===================================================================== *)

Module CustomersPageMore.
Import Js Frontend CustomersPage CustomersForm Spec Spec2.

Lemma withId_unique (c : Customer) (l : list Customer) :
  NoDup (map id l) -> In c l -> withId (id c) l = [c].
Proof.
  unfold withId. induction l as [|a l IH]; simpl; [contradiction|].
  intros Hnd Hin. inversion Hnd as [|? ? Hnotin Hnd']; subst.
  destruct Hin as [-> | Hin].
  - rewrite String.eqb_refl. f_equal. apply RouteMore.filter_nothing.
    intros b Hb. apply String.eqb_neq. intros E. apply Hnotin. rewrite <- E.
    now apply in_map.
  - destruct (String.eqb (id a) (id c)) eqn:E; [|now apply IH].
    apply String.eqb_eq in E. exfalso. apply Hnotin. rewrite E. now apply in_map.
Qed.

Lemma purchase_keeps_ids (customerId : string) (customers : list Customer)
  (ls : LocalStorage) :
  map id (fst (handleMakePurchase customerId customers ls)) = map id customers.
Proof.
  simpl. rewrite map_map. apply map_ext. intros c.
  now destruct (String.eqb (id c) customerId).
Qed.

(** X19. A purchase adds one to the purchases of the customers with the
    given id and changes no one else and no other field: the ids stay as
    they are, in number and order, and the purchases of all customers
    together grow by the number of customers with that id, which is one
    when ids are unique and zero for an unknown id. The new list is what
    is stored. *)
Theorem purchase_adds_one_to_the_buyer :
  forall (customerId : string) (customers : list Customer) (ls : LocalStorage),
  let customers' := fst (handleMakePurchase customerId customers ls) in
  let ls' := snd (handleMakePurchase customerId customers ls) in
  stored_customers ls' = Some customers' /\
  map id customers' = map id customers /\
  (forall c, In c customers -> id c <> customerId -> In c customers') /\
  (forall c', In c' customers' -> id c' = customerId ->
     exists c, In c customers /\ id c = customerId /\
               totalPurchases c' = totalPurchases c + 1 /\
               name c' = name c /\ email c' = email c /\ phone c' = phone c) /\
  purchasesOf customers'
  = purchasesOf customers + Z.of_nat (List.length (withId customerId customers)) /\
  (forall c, NoDup (map id customers) -> In c customers -> id c = customerId ->
             purchasesOf customers' = purchasesOf customers + 1) /\
  (withId customerId customers = [] -> customers' = customers).
Proof.
  intros customerId customers ls. simpl.
  set (buy := fun customer : Customer =>
                if String.eqb (id customer) customerId
                then {| id := id customer; name := name customer;
                        email := email customer; phone := phone customer;
                        totalPurchases := totalPurchases customer + 1 |}
                else customer).
  assert (Hsum : purchasesOf (map buy customers)
                 = purchasesOf customers
                   + Z.of_nat (List.length (withId customerId customers))).
  { unfold withId. induction customers as [|a l IH]; simpl; [reflexivity|].
    rewrite IH. unfold buy at 1. destruct (String.eqb (id a) customerId); simpl.
    - rewrite Zpos_P_of_succ_nat. lia.
    - lia. }
  split; [reflexivity|]. split; [|split; [|split; [|split; [|split]]]].
  - rewrite map_map. apply map_ext. intros c. unfold buy.
    now destruct (String.eqb (id c) customerId).
  - intros c Hin Hne. apply in_map_iff. exists c. split; [|assumption].
    unfold buy. now rewrite (proj2 (String.eqb_neq _ _) Hne).
  - intros c' Hin Hid. apply in_map_iff in Hin as [c [Hc Hin]]. unfold buy in Hc.
    destruct (String.eqb (id c) customerId) eqn:E.
    + apply String.eqb_eq in E. exists c. subst c'. now repeat split.
    + apply String.eqb_neq in E. subst c'. contradiction.
  - exact Hsum.
  - intros c Hnd Hin Hid. rewrite Hsum. subst customerId.
    now rewrite (withId_unique c customers Hnd Hin).
  - intros Hnone. unfold withId in Hnone.
    rewrite <- (map_id customers) at 2. apply map_ext_in. intros c Hc. unfold buy.
    destruct (String.eqb (id c) customerId) eqn:E; [|reflexivity].
    assert (Hin : In c (List.filter (fun c => String.eqb (id c) customerId) customers))
      by (apply filter_In; now split).
    rewrite Hnone in Hin. destruct Hin.
Qed.

Lemma repeatBuyers_after (customerId : string) (customers : list Customer) :
  List.length (repeatBuyers (fst (handleMakePurchase customerId customers
                                    {| stored_customers := None; stored_segments := None |})))
  = (List.length (repeatBuyers customers)
     + List.length (List.filter (fun c => (totalPurchases c =? 1)%Z)
                      (withId customerId customers)))%nat.
Proof.
  simpl. unfold repeatBuyers, withId.
  induction customers as [|a l IH]; simpl; [reflexivity|].
  destruct (String.eqb (id a) customerId); simpl.
  - destruct (1 <? totalPurchases a + 1) eqn:E1, (1 <? totalPurchases a) eqn:E2,
             (totalPurchases a =? 1) eqn:E3; simpl; rewrite IH; try lia;
      exfalso; lia.
  - destruct (1 <? totalPurchases a); simpl; rewrite IH; lia.
Qed.

(** X20. The count written after a purchase is one purchase behind:
    every stored segment gets the number of customers that had more than
    one purchase before this purchase, so a customer whose second
    purchase this is, is not counted yet, and the count is one less than
    the customer list stored with it shows. Ids, names, rules and
    memberships of the stored segments are left as they were. *)
Theorem purchase_count_is_one_purchase_behind :
  forall (customerId : string) (customers : list Customer) (ls : LocalStorage),
  let customers' := fst (handleMakePurchase customerId customers ls) in
  let before := orEmpty (stored_segments ls) in
  let after := orEmpty (stored_segments (snd (handleMakePurchase customerId customers ls))) in
  Forall (fun s => customerCount s = List.length (repeatBuyers customers)) after /\
  map segment_id after = map segment_id before /\
  map segment_name after = map segment_name before /\
  map Frontend.rules after = map Frontend.rules before /\
  map matchedCustomerIds after = map matchedCustomerIds before /\
  (forall c, NoDup (map id customers) -> In c customers -> id c = customerId ->
             totalPurchases c = 1 ->
             List.length (repeatBuyers customers')
             = S (List.length (repeatBuyers customers))).
Proof.
  intros customerId customers ls. simpl.
  split; [|split; [|split; [|split; [|split]]]];
    try (rewrite map_map; reflexivity).
  - apply Forall_map. apply Forall_forall. reflexivity.
  - intros c Hnd Hin Hid H1.
    pose proof (repeatBuyers_after customerId customers) as H. simpl in H.
    rewrite H. subst customerId. rewrite (withId_unique c customers Hnd Hin). simpl.
    rewrite H1. simpl. lia.
Qed.

(** X21. Adding a customer needs a name, an e-mail address and a phone
    number, else nothing changes but an alert. The new customer goes to
    the end of the list with no purchase and the id [dateNow], and the
    stored segments are not touched. With a new [dateNow], adding and
    purchasing keep the ids of the list unique and no purchase count
    negative. *)
Theorem customers_stay_sound :
  forall (dateNow : string) (st : State) (ls : LocalStorage),
  let '(st', ls', alert) := handleAddCustomer dateNow st ls in
  stored_segments ls' = stored_segments ls /\
  (alert <> None <->
   new_name (newCustomer st) = "" \/ new_email (newCustomer st) = "" \/
   new_phone (newCustomer st) = "") /\
  (alert <> None -> st' = st /\ ls' = ls) /\
  (alert = None ->
   exists new,
     customers st' = (customers st ++ [new])%list /\
     stored_customers ls' = Some (customers st') /\
     id new = dateNow /\ totalPurchases new = 0 /\
     name new = new_name (newCustomer st) /\
     (sound (customers st) -> ~ In dateNow (map id (customers st)) ->
      sound (customers st'))) /\
  (forall customerId,
     sound (customers st) ->
     sound (fst (handleMakePurchase customerId (customers st) ls))).
Proof.
  intros dateNow st ls. unfold handleAddCustomer.
  assert (Hbuy : forall customerId,
             sound (customers st) ->
             sound (fst (handleMakePurchase customerId (customers st) ls))).
  { intros customerId [Hnd Hpos].
    split; [now rewrite purchase_keeps_ids|]. simpl. apply Forall_map.
    eapply Forall_impl; [|exact Hpos]. intros c Hc. cbv beta in *.
    destruct (String.eqb (id c) customerId); simpl; lia. }
  destruct (String.eqb (new_name (newCustomer st)) "") eqn:En; simpl.
  { apply String.eqb_eq in En. split; [reflexivity|].
    split; [split; [intros _; tauto | intros _; discriminate]|].
    split; [intros _; now split|]. split; [discriminate | exact Hbuy]. }
  destruct (String.eqb (new_email (newCustomer st)) "") eqn:Ee; simpl.
  { apply String.eqb_eq in Ee. split; [reflexivity|].
    split; [split; [intros _; tauto | intros _; discriminate]|].
    split; [intros _; now split|]. split; [discriminate | exact Hbuy]. }
  destruct (String.eqb (new_phone (newCustomer st)) "") eqn:Ep; simpl.
  { apply String.eqb_eq in Ep. split; [reflexivity|].
    split; [split; [intros _; tauto | intros _; discriminate]|].
    split; [intros _; now split|]. split; [discriminate | exact Hbuy]. }
  apply String.eqb_neq in En, Ee, Ep.
  split; [reflexivity|]. split; [|split; [|split]].
  - split; [intros H; now destruct H | intros [H | [H | H]]; contradiction].
  - intros H. now destruct H.
  - intros _. eexists. split; [reflexivity|]. repeat split.
    + rewrite map_app. simpl. destruct H as [Hnd _].
      apply NoDup_app; [assumption | repeat constructor; intros [] |].
      intros x Hx [<- | []]. contradiction.
    + destruct H as [_ Hpos]. apply Forall_app. split; [assumption|].
      repeat constructor. simpl. lia.
  - exact Hbuy.
Qed.

End CustomersPageMore.

(* ===================================================================== *)
(** * Facts on the campaigns page                                         *)
(* ===================================================================== *)

Module CampaignsFacts.
Import Js CampaignsPage Spec2.

Lemma floor_of_scaled (r : Q) (n : Z) :
  0 < n -> unitInterval r -> 0 <= Qfloor (r * inject_Z n) <= n - 1.
Proof.
  intros Hn [H0 H1].
  assert (Hlo : (0 <= r * inject_Z n)%Q).
  { apply Qmult_le_0_compat; [assumption|]. unfold Qle, inject_Z. simpl. lia. }
  assert (Hhi : (r * inject_Z n < inject_Z n)%Q).
  { rewrite <- (Qmult_1_l (inject_Z n)) at 2. apply Qmult_lt_compat_r; [|assumption].
    unfold Qlt, inject_Z. simpl. lia. }
  split.
  - rewrite <- (Qfloor_Z 0). now apply Qfloor_resp_le.
  - assert (H : (inject_Z (Qfloor (r * inject_Z n)) < inject_Z n)%Q).
    { eapply Qle_lt_trans; [apply Qfloor_le | exact Hhi]. }
    rewrite <- Zlt_Qlt in H. lia.
Qed.

(** X22. A status change sets the status of the campaigns with the given
    id and nothing else: ids, order, metrics and the other campaigns stay
    as they are, and the new list is what is stored. Under a status
    filter other than the new status the campaign leaves the view; under
    the filter of the new status, or under [all], it is in the view. *)
Theorem status_change_moves_the_campaign :
  forall (i newStatus : string) (st : State) (stored : option (list Campaign)),
  let st' := fst (handleStatusChange i newStatus st stored) in
  snd (handleStatusChange i newStatus st stored) = Some (campaigns st') /\
  map id (campaigns st') = map id (campaigns st) /\
  map metrics (campaigns st') = map metrics (campaigns st) /\
  (forall c, In c (campaigns st) -> id c <> i -> In c (campaigns st')) /\
  (forall c', In c' (campaigns st') -> id c' = i -> status c' = newStatus) /\
  (filterStatus st <> "all" -> filterStatus st <> newStatus ->
   forall c', In c' (filtered st') -> id c' <> i) /\
  (filterStatus st = "all" \/ filterStatus st = newStatus ->
   forall c, In c (campaigns st) -> id c = i ->
             exists c', In c' (filtered st') /\ id c' = i /\ status c' = newStatus).
Proof.
  intros i newStatus st stored. simpl.
  set (change := fun c : Campaign =>
                   if String.eqb (id c) i then withStatus newStatus c else c).
  assert (Hset : forall c', In c' (map change (campaigns st)) -> id c' = i ->
                            status c' = newStatus).
  { intros c' Hin Hid. apply in_map_iff in Hin as [c [<- _]]. unfold change in *.
    destruct (String.eqb (id c) i) eqn:E; [reflexivity|].
    apply String.eqb_neq in E. contradiction. }
  split; [reflexivity|]. split; [|split; [|split; [|split; [|split]]]].
  - rewrite map_map. apply map_ext. intros c. unfold change.
    now destruct (String.eqb (id c) i).
  - rewrite map_map. apply map_ext. intros c. unfold change.
    now destruct (String.eqb (id c) i).
  - intros c Hin Hne. apply in_map_iff. exists c. split; [|assumption].
    unfold change. now rewrite (proj2 (String.eqb_neq _ _) Hne).
  - exact Hset.
  - intros Hall Hnew c' Hin Hid. unfold filtered in Hin. simpl in Hin.
    rewrite (proj2 (String.eqb_neq _ _) Hall) in Hin.
    apply filter_In in Hin as [Hin Hst]. apply String.eqb_eq in Hst.
    apply Hnew. rewrite <- Hst. now apply Hset.
  - intros Hf c Hin Hid. exists (change c).
    assert (Hc : change c = withStatus newStatus c).
    { unfold change. now rewrite (proj2 (String.eqb_eq _ _) Hid). }
    assert (Hin' : In (change c) (map change (campaigns st))) by now apply in_map.
    rewrite Hc in *. simpl. split; [|now split].
    unfold filtered. simpl. destruct (String.eqb (filterStatus st) "all") eqn:E;
      [assumption|].
    apply filter_In. split; [assumption|]. simpl.
    destruct Hf as [Hf | Hf]; [rewrite Hf in E; discriminate|].
    rewrite Hf. apply String.eqb_refl.
Qed.

Lemma migrate_hasMetrics (c : Campaign) : hasMetrics (migrate c).
Proof. unfold hasMetrics. simpl. discriminate. Qed.

Lemma migrate_fixed (c : Campaign) : hasMetrics c -> migrate c = c.
Proof.
  unfold hasMetrics, migrate. destruct c as [i n d ds s [m|]]; simpl; [reflexivity|].
  intros H. now destruct H.
Qed.

(** X23. Loading the page gives every stored campaign its three
    counters: a campaign stored without metrics gets zeros, one with
    metrics is left as it is, and ids and order are kept. Loading again
    changes nothing more. Creating a campaign and changing a status keep
    every campaign with its counters. *)
Theorem mount_gives_every_campaign_metrics :
  forall (stored : option (list Campaign)) (st : State),
  let st' := fst (onMount stored st) in
  let stored' := snd (onMount stored st) in
  (stored = None -> st' = st /\ stored' = None) /\
  (forall parsed, stored = Some parsed ->
     stored' = Some (campaigns st') /\
     Forall hasMetrics (campaigns st') /\
     map id (campaigns st') = map id parsed /\
     (forall c, In c parsed -> hasMetrics c -> In c (campaigns st')) /\
     (Forall hasMetrics parsed -> campaigns st' = parsed) /\
     onMount stored' st' = (st', stored')) /\
  (forall dateNow r0 r1 r2 r3 st1 stored1,
     Forall hasMetrics (campaigns st1) ->
     Forall hasMetrics
       (campaigns (fst (fst (handleCreateCampaign dateNow r0 r1 r2 r3 st1 stored1))))) /\
  (forall i newStatus st1 stored1,
     Forall hasMetrics (campaigns st1) ->
     Forall hasMetrics (campaigns (fst (handleStatusChange i newStatus st1 stored1)))).
Proof.
  intros stored st. split; [|split; [|split]].
  - intros ->. now split.
  - intros parsed ->. simpl.
    assert (Hfix : Forall hasMetrics parsed -> map migrate parsed = parsed).
    { intros H. rewrite <- (map_id parsed) at 2. apply map_ext_in. intros c Hc.
      apply migrate_fixed. rewrite Forall_forall in H. now apply H. }
    assert (Hall : Forall hasMetrics (map migrate parsed)).
    { apply Forall_map. apply Forall_forall. intros c _. apply migrate_hasMetrics. }
    split; [reflexivity|]. split; [exact Hall|]. split; [|split; [|split]].
    + rewrite map_map. now apply map_ext.
    + intros c Hin Hm. apply in_map_iff. exists c. split; [now apply migrate_fixed | assumption].
    + exact Hfix.
    + unfold withCampaigns. simpl.
      assert (H2 : map migrate (map migrate parsed) = map migrate parsed).
      { rewrite <- (map_id (map migrate parsed)) at 2. apply map_ext_in. intros c Hc.
        apply migrate_fixed. rewrite Forall_forall in Hall. now apply Hall. }
      now rewrite H2.
  - intros dateNow r0 r1 r2 r3 st1 stored1 H. unfold handleCreateCampaign.
    destruct (String.eqb (form_name st1) "" || String.eqb (form_description st1) "");
      simpl; [assumption|].
    apply Forall_app. split; [assumption|]. repeat constructor. discriminate.
  - intros i newStatus st1 stored1 H. simpl. apply Forall_map.
    eapply Forall_impl; [|exact H]. intros c Hc.
    now destruct (String.eqb (id c) i).
Qed.

(** X24. A campaign is created only with a name and a description, else
    nothing changes but an alert. It goes to the end of the list with
    the id [dateNow] and the status chosen in the form, and the form goes
    back to draft. Whatever [Math.random] returns, its delivery status
    is SENT or NOT RECEIVED and its counters are within 0 to 99 sent, 0
    to 49 opened and 0 to 19 clicked. *)
Theorem new_campaign_is_within_bounds :
  forall (dateNow : string) (r0 r1 r2 r3 : Q) (st : State)
         (stored : option (list Campaign)),
  unitInterval r0 -> unitInterval r1 -> unitInterval r2 -> unitInterval r3 ->
  let '(st', stored', alert) := handleCreateCampaign dateNow r0 r1 r2 r3 st stored in
  (form_name st = "" \/ form_description st = "" ->
   alert <> None /\ st' = st /\ stored' = stored) /\
  (form_name st <> "" -> form_description st <> "" ->
   alert = None /\ form_status st' = "draft" /\
   exists new m,
     campaigns st' = (campaigns st ++ [new])%list /\
     stored' = Some (campaigns st') /\
     id new = dateNow /\ name new = form_name st /\ status new = form_status st /\
     (deliveryStatus new = "SENT" \/ deliveryStatus new = "NOT RECEIVED") /\
     metrics new = Some m /\ withinBounds m).
Proof.
  intros dateNow r0 r1 r2 r3 st stored H0 H1 H2 H3. unfold handleCreateCampaign.
  destruct (String.eqb (form_name st) "") eqn:En; simpl.
  { apply String.eqb_eq in En. split; [intros _; now repeat split | contradiction]. }
  destruct (String.eqb (form_description st) "") eqn:Ed; simpl.
  { apply String.eqb_eq in Ed. split; [intros _; now repeat split | contradiction]. }
  apply String.eqb_neq in En, Ed. split; [intros [H | H]; contradiction|].
  intros _ _. split; [reflexivity|]. split; [reflexivity|].
  eexists. eexists. split; [reflexivity|]. split; [reflexivity|].
  split; [reflexivity|]. split; [reflexivity|]. split; [reflexivity|]. split.
  { simpl. unfold simulateDeliveryStatus. destruct (Qlt_bool r0 (9 # 10)); auto. }
  split; [reflexivity|].
  unfold withinBounds, simulateMetrics. simpl.
  pose proof (floor_of_scaled r1 100 ltac:(lia) H1).
  pose proof (floor_of_scaled r2 50 ltac:(lia) H2).
  pose proof (floor_of_scaled r3 20 ltac:(lia) H3).
  simpl in *. lia.
Qed.

End CampaignsFacts.

(* ===================================================================== *)
(** * Facts on the dashboard page                                         *)
(* ===================================================================== *)

Module DashboardFacts.
Import Js DashboardPage Spec2.

Lemma positive_quotient (a b : Z) : 0 < b -> (0 <? a / b) = (b <=? a).
Proof.
  intros Hb. destruct (Z.leb_spec b a) as [H | H].
  - apply Z.ltb_lt. assert (1 <= a / b) by (apply Z.div_le_lower_bound; lia). lia.
  - apply Z.ltb_ge. assert (a / b < 1) by (apply Z.div_lt_upper_bound; lia). lia.
Qed.

Lemma formatTimestamp_units (now timestamp : Z) :
  formatTimestamp now timestamp =
  let diff := now - timestamp in
  if 86400000 <=? diff then decimal (diff / 86400000) ++ "d ago"
  else if 3600000 <=? diff then decimal (diff / 3600000) ++ "h ago"
  else if 60000 <=? diff then decimal (diff / 60000) ++ "m ago"
  else "Just now".
Proof.
  unfold formatTimestamp. cbv zeta.
  rewrite !Z.div_div by lia. rewrite !positive_quotient by lia.
  reflexivity.
Qed.

(** X25. The age of an activity is shown in the largest unit that fits:
    whole days from 24 hours on, else whole hours from one hour on, else
    whole minutes from one minute on. An activity less than a minute
    old, or stamped later than the clock, shows as Just now. *)
Theorem age_is_shown_in_the_largest_unit :
  forall (now timestamp : Z),
  let diff := now - timestamp in
  (diff < 60000 -> formatTimestamp now timestamp = "Just now") /\
  (60000 <= diff < 3600000 ->
   formatTimestamp now timestamp = decimal (diff / 60000) ++ "m ago" /\
   1 <= diff / 60000 <= 59) /\
  (3600000 <= diff < 86400000 ->
   formatTimestamp now timestamp = decimal (diff / 3600000) ++ "h ago" /\
   1 <= diff / 3600000 <= 23) /\
  (86400000 <= diff ->
   formatTimestamp now timestamp = decimal (diff / 86400000) ++ "d ago" /\
   1 <= diff / 86400000).
Proof.
  intros now timestamp diff. rewrite formatTimestamp_units. fold diff. cbv zeta.
  split; [|split; [|split]]; intros Hd.
  - rewrite !(proj2 (Z.leb_gt _ _)) by lia. reflexivity.
  - rewrite !(proj2 (Z.leb_gt _ _)) by lia. rewrite (proj2 (Z.leb_le _ _)) by lia.
    split; [reflexivity|].
    assert (diff / 60000 < 60) by (apply Z.div_lt_upper_bound; lia).
    assert (1 <= diff / 60000) by (apply Z.div_le_lower_bound; lia). lia.
  - rewrite (proj2 (Z.leb_gt 86400000 _)) by lia.
    rewrite (proj2 (Z.leb_le _ _)) by lia. split; [reflexivity|].
    assert (diff / 3600000 < 24) by (apply Z.div_lt_upper_bound; lia).
    assert (1 <= diff / 3600000) by (apply Z.div_le_lower_bound; lia). lia.
  - rewrite (proj2 (Z.leb_le _ _)) by lia. split; [reflexivity|].
    apply Z.div_le_lower_bound; lia.
Qed.

Lemma insert_Permutation (a : Activity) (l : list Activity) :
  Permutation (insertByTimestamp a l) (a :: l).
Proof.
  induction l as [|b l IH]; simpl; [reflexivity|].
  destruct (timestamp b <=? timestamp a); [reflexivity|].
  rewrite IH. apply perm_swap.
Qed.

Lemma sort_Permutation (l : list Activity) : Permutation (sortByTimestamp l) l.
Proof.
  induction l as [|a l IH]; simpl; [reflexivity|].
  rewrite insert_Permutation. now constructor.
Qed.

Lemma insert_sorted (a : Activity) (l : list Activity) :
  newestFirst l -> newestFirst (insertByTimestamp a l).
Proof.
  unfold newestFirst. induction 1 as [|b l Hl IH Hb]; simpl.
  - repeat constructor.
  - destruct (timestamp b <=? timestamp a) eqn:E.
    + apply Z.leb_le in E. constructor; [now constructor|].
      constructor; [assumption|].
      eapply Forall_impl; [|exact Hb]. intros c Hc. simpl in *. lia.
    + apply Z.leb_gt in E. constructor; [assumption|].
      apply Forall_forall. intros c Hc.
      apply (Permutation_in _ (insert_Permutation a l)) in Hc as [<- | Hc]; [lia|].
      rewrite Forall_forall in Hb. now apply Hb.
Qed.

Lemma sort_sorted (l : list Activity) : newestFirst (sortByTimestamp l).
Proof.
  induction l as [|a l IH]; simpl; [constructor | now apply insert_sorted].
Qed.

Lemma sorted_app {A} (R : A -> A -> Prop) (l1 l2 : list A) :
  StronglySorted R (l1 ++ l2) ->
  StronglySorted R l1 /\ forall a b, In a l1 -> In b l2 -> R a b.
Proof.
  induction l1 as [|x l1 IH]; simpl; intros H.
  - split; [constructor | intros a b []].
  - inversion H as [|? ? Hs Hx]; subst. destruct (IH Hs) as [H1 H2]. split.
    + constructor; [assumption|]. rewrite Forall_forall in *.
      intros y Hy. apply Hx. apply in_app_iff. now left.
    + intros a b [<- | Ha] Hb; [|now apply H2].
      rewrite Forall_forall in Hx. apply Hx. apply in_app_iff. now right.
Qed.

Lemma shown_is_firstn customers segments campaigns (stored : option (list Activity)) :
  snd (fetchStats customers segments campaigns stored)
  = firstn 5 (sortByTimestamp (Frontend.orEmpty stored)).
Proof. reflexivity. Qed.

(** X26. The dashboard shows the newest five activities, newest first:
    five of them when there are five or more, else all; each is a stored
    activity, and no stored activity that is left out is newer than one
    that is shown. *)
Theorem recent_activities_are_the_newest_five :
  forall customers segments campaigns (stored : option (list Activity)),
  let shown := snd (fetchStats customers segments campaigns stored) in
  let all := Frontend.orEmpty stored in
  List.length shown = Nat.min 5 (List.length all) /\
  newestFirst shown /\
  incl shown all /\
  (exists rest, Permutation (shown ++ rest) all /\
                forall a b, In a shown -> In b rest -> timestamp b <= timestamp a).
Proof.
  intros customers segments campaigns stored.
  rewrite shown_is_firstn. cbv zeta.
  set (all := Frontend.orEmpty stored).
  pose proof (sort_sorted all) as Hs. pose proof (sort_Permutation all) as Hp.
  unfold newestFirst in *.
  rewrite <- (firstn_skipn 5 (sortByTimestamp all)) in Hs.
  apply sorted_app in Hs as [Hs1 Hs2].
  split; [|split; [|split]].
  - rewrite length_firstn. now rewrite (Permutation_length Hp).
  - exact Hs1.
  - intros a Ha. apply (Permutation_in _ Hp).
    rewrite <- (firstn_skipn 5 (sortByTimestamp all)). apply in_app_iff. now left.
  - exists (skipn 5 (sortByTimestamp all)). split; [|exact Hs2].
    now rewrite firstn_skipn.
Qed.

(** X27. The counts of the dashboard follow what the pages store. After
    a save on the segments page the segment count is the length of the
    page's list, one more than before for a create and the same for an
    edit; after a customer was added the customer count is one more;
    after a campaign was created the campaign count is one more and the
    active count one more exactly when its status is active. No count of
    active campaigns is larger than the count of campaigns. *)
Theorem dashboard_counts_follow_the_pages :
  forall customers segments campaigns (activities : option (list Activity)),
  (activeCampaigns (fst (fetchStats customers segments campaigns activities))
   <= totalCampaigns (fst (fetchStats customers segments campaigns activities)))%nat /\
  (forall dateNow st ls st' ls',
     SegmentsPage.handleCreateSegment dateNow st ls = (st', ls', SegmentsPage.Saved) ->
     totalSegments (fst (fetchStats customers (Frontend.stored_segments ls')
                           campaigns activities))
     = (if SegmentsPage.truthy (SegmentsPage.editingId st)
        then List.length (SegmentsPage.segments st)
        else S (List.length (SegmentsPage.segments st)))) /\
  (forall dateNow st ls st' ls',
     CustomersForm.handleAddCustomer dateNow st ls = (st', ls', None) ->
     totalCustomers (fst (fetchStats (Frontend.stored_customers ls') segments
                            campaigns activities))
     = S (List.length (CustomersForm.customers st))) /\
  (forall dateNow r0 r1 r2 r3 st stored st' stored',
     CampaignsPage.handleCreateCampaign dateNow r0 r1 r2 r3 st stored
     = (st', stored', None) ->
     let before := fst (fetchStats customers segments
                          (Some (CampaignsPage.campaigns st)) activities) in
     let after := fst (fetchStats customers segments stored' activities) in
     totalCampaigns after = S (totalCampaigns before) /\
     activeCampaigns after
     = (activeCampaigns before
        + (if String.eqb (CampaignsPage.form_status st) "active" then 1 else 0))%nat).
Proof.
  intros customers segments campaigns activities. split; [|split; [|split]].
  - simpl. apply filter_length_le.
  - intros dateNow st ls st' ls' H.
    destruct (SegmentsPageMore.save_inv dateNow st st' ls ls' H)
      as [_ [_ [_ [i [updated [_ [Hu [_ ->]]]]]]]].
    simpl. subst updated. destruct (SegmentsPage.truthy (SegmentsPage.editingId st)).
    + apply length_map.
    + rewrite length_app. simpl. lia.
  - intros dateNow st ls st' ls'. unfold CustomersForm.handleAddCustomer.
    destruct (_ || _ || _); [discriminate|]. intros [= <- <-]. simpl.
    rewrite length_app. simpl. lia.
  - intros dateNow r0 r1 r2 r3 st stored st' stored'.
    unfold CampaignsPage.handleCreateCampaign.
    destruct (_ || _); [discriminate|]. intros [= <- <-]. simpl.
    rewrite filter_app, !length_app. simpl.
    destruct (String.eqb (CampaignsPage.form_status st) "active"); simpl; lia.
Qed.

End DashboardFacts.

(* ===================================================================== *)
(** * Facts on the customer list route                                    *)
(* ===================================================================== *)

Module CustomersRouteFacts.
Import Js CustomersRoute Spec2.






End CustomersRouteFacts.

(* ===================================================================== *)
(** * Facts on the delivery statistics route                              *)
(* ===================================================================== *)

Module DeliveryFacts.
Import Js DeliveryRoute Spec2.

Lemma fold_sum_shift (stats : list (string * Z)) (a : Z) :
  fold_left (fun acc curr => acc + snd curr) stats a
  = a + fold_left (fun acc curr => acc + snd curr) stats 0.
Proof.
  revert a. induction stats as [|g stats IH]; intros a; simpl; [lia|].
  rewrite (IH (a + snd g)), (IH (snd g)). lia.
Qed.

Lemma sum_bump (s : string) (groups : list (string * Z)) :
  fold_left (fun acc curr => acc + snd curr) (bump s groups) 0
  = fold_left (fun acc curr => acc + snd curr) groups 0 + 1.
Proof.
  induction groups as [|[s' n] groups IH]; simpl; [reflexivity|].
  destruct (String.eqb s s'); simpl.
  - rewrite (fold_sum_shift groups (n + 1)), (fold_sum_shift groups n). lia.
  - rewrite (fold_sum_shift (bump s groups) n), (fold_sum_shift groups n), IH. lia.
Qed.

Lemma countOf_bump (lit s : string) (groups : list (string * Z)) :
  countOf lit (bump s groups)
  = countOf lit groups + (if String.eqb s lit then 1 else 0).
Proof.
  unfold countOf. induction groups as [|[s' n] groups IH]; simpl.
  - destruct (String.eqb s lit); simpl; lia.
  - destruct (String.eqb s s') eqn:E; simpl.
    + apply String.eqb_eq in E. subst s'.
      destruct (String.eqb s lit); simpl; lia.
    + destruct (String.eqb s' lit) eqn:E'; simpl; [|exact IH].
      apply String.eqb_eq in E'. subst s'. rewrite E. lia.
Qed.

Lemma groups_of_rows (rows : list CommunicationLog) (groups : list (string * Z)) :
  let stats := fold_left (fun groups row => bump (status row) groups) rows groups in
  fold_left (fun acc curr => acc + snd curr) stats 0
  = fold_left (fun acc curr => acc + snd curr) groups 0 + Z.of_nat (List.length rows) /\
  forall lit, countOf lit stats
              = countOf lit groups + Z.of_nat (List.length (rowsWithStatus lit rows)).
Proof.
  revert groups. induction rows as [|r rows IH]; intros groups; simpl.
  - split; [lia | intros lit; lia].
  - destruct (IH (bump (status r) groups)) as [Hs Hc]. split.
    + rewrite Hs, sum_bump. lia.
    + intros lit. rewrite Hc, countOf_bump. unfold rowsWithStatus. simpl.
      destruct (String.eqb (status r) lit); simpl; lia.
Qed.

Lemma three_statuses (rows : list CommunicationLog) :
  (List.length (rowsWithStatus "SENT" rows) + List.length (rowsWithStatus "FAILED" rows)
   + List.length (rowsWithStatus "PENDING" rows) <= List.length rows)%nat /\
  (Forall (fun r => status r = "SENT" \/ status r = "FAILED" \/ status r = "PENDING") rows ->
   (List.length (rowsWithStatus "SENT" rows) + List.length (rowsWithStatus "FAILED" rows)
    + List.length (rowsWithStatus "PENDING" rows) = List.length rows)%nat).
Proof.
  unfold rowsWithStatus. induction rows as [|r rows [IH1 IH2]]; simpl; [split; lia|].
  split.
  - destruct (String.eqb (status r) "SENT") eqn:E1;
      [apply String.eqb_eq in E1; rewrite E1; simpl; lia|].
    destruct (String.eqb (status r) "FAILED") eqn:E2;
      [apply String.eqb_eq in E2; rewrite E2; simpl; lia|].
    destruct (String.eqb (status r) "PENDING"); simpl; lia.
  - intros H. inversion H as [|? ? Hr Hrows]; subst. specialize (IH2 Hrows).
    destruct Hr as [-> | [-> | ->]]; simpl; lia.
Qed.

(** X29. The statistics of a campaign follow its communication rows. For
    a campaign of the user, the total is the number of its rows, and
    sent, failed and pending are the numbers of its rows with those
    statuses: together they are at most the total, and equal to it when
    no row has another status. Each rate is the double
    [(count / total) * 100] of these counts, rounded on its own, and 0
    for a campaign without rows. A campaign that does not exist or
    belongs to someone else is answered with status 404. *)
Theorem delivery_statistics_add_up :
  forall (cid userId : string) (db : Db),
  ((forall c, In c (campaign db) -> id c = cid -> createdById c <> userId) ->
   getStats cid userId db = Status404 "Campaign not found") /\
  (forall stats, getStats cid userId db = Json stats ->
     let rows := rowsOf cid db in
     let sentRows := rowsWithStatus "SENT" rows in
     let failedRows := rowsWithStatus "FAILED" rows in
     total stats = Z.of_nat (List.length rows) /\
     sent stats = Z.of_nat (List.length sentRows) /\
     failed stats = Z.of_nat (List.length failedRows) /\
     pending stats = Z.of_nat (List.length (rowsWithStatus "PENDING" rows)) /\
     sent stats + failed stats + pending stats <= total stats /\
     (Forall (fun r => status r = "SENT" \/ status r = "FAILED" \/ status r = "PENDING")
        rows ->
      sent stats + failed stats + pending stats = total stats) /\
     (rows <> [] ->
      deliveryRate stats
      = percent (Z.of_nat (List.length sentRows)) (Z.of_nat (List.length rows)) /\
      failureRate stats
      = percent (Z.of_nat (List.length failedRows)) (Z.of_nat (List.length rows))) /\
     (rows = [] -> deliveryRate stats = double 0 /\ failureRate stats = double 0)).
Proof.
  intros cid userId db. split.
  - intros Hnone. unfold getStats.
    destruct (List.find _ (campaign db)) as [c|] eqn:E; [|reflexivity].
    apply find_some in E as [Hin Hc]. apply andb_true_iff in Hc as [Hi Hu].
    apply String.eqb_eq in Hi, Hu. now destruct (Hnone c Hin Hi).
  - intros stats. unfold getStats. destruct (List.find _ (campaign db)); [|discriminate].
    intros [= <-]. cbv zeta. cbn [total sent failed pending deliveryRate failureRate].
    destruct (groups_of_rows (rowsOf cid db) []) as [Hsum Hcount].
    unfold groupByStatus. fold (rowsOf cid db).
    set (rows := rowsOf cid db) in *. cbv zeta in Hsum, Hcount.
    set (stats := fold_left (fun groups row => bump (status row) groups) rows []) in *.
    rewrite Hsum, !Hcount. unfold countOf at 1 2 3 4 5 6 7 8 9 10 11 12. simpl List.find.
    cbn [fold_left]. rewrite !Z.add_0_l.
    destruct (three_statuses rows) as [Hle Heq].
    set (n := List.length rows) in *.
    set (s := List.length (rowsWithStatus "SENT" rows)) in *.
    set (f := List.length (rowsWithStatus "FAILED" rows)) in *.
    set (p := List.length (rowsWithStatus "PENDING" rows)) in *.
    split; [reflexivity|]. split; [reflexivity|]. split; [reflexivity|].
    split; [reflexivity|]. split; [lia|]. split; [intros H; specialize (Heq H); lia|].
    destruct (0 <? Z.of_nat n) eqn:En.
    + apply Z.ltb_lt in En. split; [intros _; split; reflexivity|].
      intros Hr. subst n. rewrite Hr in En. simpl in En. lia.
    + apply Z.ltb_ge in En. split; [|intros _; split; reflexivity].
      intros Hr. exfalso. apply Hr. subst n. destruct rows; [reflexivity|].
      simpl in En. lia.
Qed.

End DeliveryFacts.

(* ===================================================================== *)
(** * Facts on the bearer token check                                     *)
(* ===================================================================== *)

Module AuthFacts.
Import Js AuthRoute Spec2.

(** X30. Only a header that starts with [Bearer] and a space reaches the
    verification; a missing header or any other one is answered with
    401, No token provided, whatever the verifier would say. The token
    handed to the verifier is the word after that first space: what
    follows a second space is ignored. *)
Theorem token_is_the_second_word :
  forall (A : Type) (verify : option string -> Verified A),
  verifyTokenMiddleware verify None = Status401 "No token provided" /\
  (forall header, startsWith header "Bearer " = false ->
     verifyTokenMiddleware verify (Some header) = Status401 "No token provided") /\
  (forall token rest,
     noSpace token = true ->
     let outcome :=
       match verify (Some token) with
       | Decoded decoded => Next decoded
       | TokenExpiredError => Status401 "Token has expired. Please log in again."
       | OtherError => Status401 "Invalid token"
       end in
     verifyTokenMiddleware verify (Some ("Bearer " ++ token)) = outcome /\
     verifyTokenMiddleware verify (Some ("Bearer " ++ token ++ " " ++ rest)) = outcome).
Proof.
  intros A verify. split; [reflexivity|]. split.
  - intros header H. unfold verifyTokenMiddleware. rewrite H. simpl.
    now rewrite orb_true_r.
  - intros token rest Ht outcome. unfold verifyTokenMiddleware.
    assert (H1 : split " " ("Bearer " ++ token) = ["Bearer"; token]).
    { change ("Bearer " ++ token) with ("Bearer" ++ String " " token).
      rewrite SegmentsPageMore.split_word by reflexivity.
      now rewrite SegmentsPageMore.split_last_word. }
    assert (H2 : split " " ("Bearer " ++ token ++ " " ++ rest)
                 = "Bearer" :: token :: split " " rest).
    { change ("Bearer " ++ token ++ " " ++ rest)
        with ("Bearer" ++ String " " (token ++ String " " rest)).
      rewrite SegmentsPageMore.split_word by reflexivity.
      now rewrite SegmentsPageMore.split_word. }
    assert (Hb : forall s, (("Bearer " ++ s =? "")%string
                            || negb (startsWith ("Bearer " ++ s) "Bearer ")) = false).
    { intros s. simpl. now destruct s. }
    split.
    + rewrite H1, Hb. reflexivity.
    + rewrite H2, Hb. reflexivity.
Qed.

End AuthFacts.

(* ===================================================================== *)
(** * The further facts on the sample data                                *)
(* ===================================================================== *)

Module EvaluatorMoreExamples.
Import Js Prisma SegmentEvaluator Samples Samples2 Spec Spec2.

Lemma evaluation_is_pointwise_witness :
  (exists p : Customer -> bool,
      forall db', evaluateSegmentRules platform 0 (tree "AND" [spendOver500; threeVisits]) db'
                  = Ok (matchedIds p db')) /\
  incl ["1"; "3"] (allIds scenario) /\
  (NoDup (allIds scenario) -> NoDup ["1"; "3"]).
Proof.
  exact (EvaluatorMore.evaluation_is_pointwise platform 0
           (tree "AND" [spendOver500; threeVisits]) scenario ["1"; "3"] eq_refl).
Defined.

Lemma condition_order_is_irrelevant_witness :
  evaluateSegmentRules platform 0 (tree "AND" [threeVisits; spendOver500]) scenario
  = Ok ["1"; "3"].
Proof.
  apply (EvaluatorMore.condition_order_is_irrelevant platform 0 scenario
           (tree "AND" [spendOver500; threeVisits]) (tree "AND" [threeVisits; spendOver500])
           "AND" [spendOver500; threeVisits] [threeVisits; spendOver500]);
    try reflexivity; [now left | apply perm_swap].
Defined.

Lemma single_child_is_the_child_witness :
  evaluateSegmentRules platform 0 (tree "OR" [spendOver1000]) scenario
  = evaluateSegmentRules platform 0 spendOver1000 scenario.
Proof.
  apply (EvaluatorMore.single_child_is_the_child platform 0 scenario
           (tree "OR" [spendOver1000]) spendOver1000 "OR");
    try reflexivity. now right.
Defined.

Lemma no_condition_all_or_none_witness :
  evaluateSegmentRules platform 0 (tree "AND" []) scenario = Ok ["1"; "2"; "3"] /\
  evaluateSegmentRules platform 0 (tree "OR" []) scenario = Ok [].
Proof.
  split.
  - exact (proj1 (EvaluatorMore.no_condition_all_or_none platform 0 scenario
                    (tree "AND" []) eq_refl) eq_refl).
  - exact (proj2 (EvaluatorMore.no_condition_all_or_none platform 0 scenario
                    (tree "OR" []) eq_refl) eq_refl).
Defined.

Lemma nested_tree_is_rejected_witness :
  evaluateSegmentRules platform 0 nestedTree scenario = Throw (UnsupportedField VUndefined).
Proof.
  apply (proj1 (EvaluatorMore.nested_tree_is_rejected platform 0 scenario nestedTree)
           "AND" [spendOver500] [] (tree "OR" [threeVisits]));
    try reflexivity; [now left | repeat constructor].
Defined.

End EvaluatorMoreExamples.

Module BuilderMoreExamples.
Import Js Prisma SegmentEvaluator Samples Samples2 Spec Spec2.

Lemma builder_accepts_what_is_advertised_witness :
  is_ok (buildCondition platform 0 spendOver500) = true /\
  forall e, buildCondition platform 0 (condition "email" "gt" (num 1)) = Throw e ->
            e = UnsupportedOperator (VString "gt").
Proof.
  split.
  - apply (proj1 (BuilderMore.builder_accepts_what_is_advertised platform 0 spendOver500
                    (VString "totalSpend") eq_refl)).
    exists "totalSpend", "gt", ["gt"; "gte"; "lt"; "lte"; "eq"].
    repeat split; simpl; auto. discriminate.
  - intros e He.
    destruct (proj2 (BuilderMore.builder_accepts_what_is_advertised platform 0
                       (condition "email" "gt" (num 1)) (VString "email") eq_refl) e He)
      as [[Hf _] | [[_ Hop] | [Hf _]]]; [discriminate | exact Hop | discriminate].
Defined.

Lemma between_takes_two_dates_witness :
  buildCondition platform 0 year2024
  = Ok {| key := "lastVisit";
          filter := DateTimeRange (Time 1704067200000) (Some (Time 1735603200000)) |} /\
  exists w, buildCondition platform 0 sinceNewYear = Ok w /\ validFilter platform w = true /\
            forall x, holds platform w x = true <->
                      exists t, lastVisit x = Some t /\ 1704067200000 <= t.
Proof.
  split.
  - exact (proj1 (proj2 (BuilderMore.between_takes_two_dates platform 0 year2024
                           eq_refl eq_refl))
             "2024-01-01T00:00:00.000Z,2024-12-31T00:00:00.000Z"
             "2024-01-01T00:00:00.000Z" "2024-12-31T00:00:00.000Z" [] eq_refl eq_refl).
  - exact (proj1 (BuilderMore.between_takes_two_dates platform 0 sinceNewYear
                    eq_refl eq_refl)
             "2024-01-01T00:00:00.000Z" "2024-01-01T00:00:00.000Z" 1704067200000
             eq_refl eq_refl eq_refl).
Defined.

Lemma daysAgo_is_strictly_earlier_witness :
  exists w, buildCondition platform 1735603200000 thirtyDays = Ok w /\
            validFilter platform w = true /\
            forall x, holds platform w x = true <->
                      exists t, lastVisit x = Some t /\ t < 1735603200000 - 30 * msPerDay.
Proof.
  apply (proj1 (BuilderMore.daysAgo_is_strictly_earlier platform 1735603200000 thirtyDays
                  eq_refl eq_refl) 30);
    [reflexivity | vm_compute; discriminate].
Defined.

End BuilderMoreExamples.

Module RouteMoreExamples.
Import Js Prisma SegmentEvaluator SegmentsRoute Samples Samples2 Spec Spec2.

(** The create at clock reading 0, the previews forty days after the
    end of 2024. *)
Lemma preview_agrees_with_create_witness :
  exists ids,
    3%nat = List.length ids /\
    postPreview platform fortyDaysOn bigSpenders db = (db, Status200 3 (firstn 5 ids)) /\
    postPreview platform fortyDaysOn bigSpenders
      (fst (postSegment platform 0 "s1" bigSpenders db))
    = (fst (postSegment platform 0 "s1" bigSpenders db), Status200 3 (firstn 5 ids)) /\
    forall cid, In cid ids ->
                In (member "s1" cid)
                   (customerSegment (fst (postSegment platform 0 "s1" bigSpenders db))).
Proof.
  exact (RouteMore.preview_agrees_with_create platform 0 fortyDaysOn "s1" bigSpenders db
           (fst (postSegment platform 0 "s1" bigSpenders db))
           (newSegment "s1" bigSpenders) 3 eq_refl eq_refl).
Defined.

(** With [daysAgo] a preview follows the clock of its own request: the
    same rule on the same store selects five customers at the end of
    2024 and six forty days later. *)
Example preview_with_daysAgo_follows_the_clock :
  postPreview platform 1735603200000 awayThirtyDays db
  = (db, Status200 5 ["c1"; "c3"; "c5"; "c6"; "c7"]) /\
  postPreview platform fortyDaysOn awayThirtyDays db
  = (db, Status200 6 ["c1"; "c3"; "c4"; "c5"; "c6"]) /\
  clockFree (body_rules awayThirtyDays) = false.
Proof. repeat split. Qed.

Lemma create_appends_one_row_each_witness :
  exists ids,
    evaluateSegmentRules platform 0 (body_rules bigSpenders) db = Ok ids /\
    customerSegment (fst (postSegment platform 0 "s1" bigSpenders db))
    = (customerSegment db ++ map (member "s1") ids)%list /\
    3%nat = List.length ids /\
    List.length (List.filter (fun r => String.eqb (segmentId r) "s1")
                   (customerSegment (fst (postSegment platform 0 "s1" bigSpenders db))))
    = 3%nat.
Proof.
  apply (RouteMore.create_appends_one_row_each platform 0 "s1" bigSpenders db
           (fst (postSegment platform 0 "s1" bigSpenders db))
           (newSegment "s1" bigSpenders) 3).
  - unfold allIds. simpl. repeat constructor; simpl; intuition discriminate.
  - intros r [].
  - reflexivity.
Defined.

End RouteMoreExamples.

Module SegmentsPageMoreExamples.
Import Js Frontend SegmentsPage SegmentsForm Samples Samples2 Spec Spec2.

Lemma frequent_wellFormed : wellFormed frequent.
Proof. repeat split; discriminate. Qed.

Lemma totalPurchases_rule_compares_numbers_witness :
  ruleHolds (buyer "1" 2) "totalPurchases > 1" = true /\
  ruleHolds (buyer "1" 2) "totalPurchases != many" = true.
Proof.
  split.
  - exact (proj1 (proj1 (SegmentsPageMore.totalPurchases_rule_compares_numbers
                           (buyer "1" 2) ">" "1" eq_refl eq_refl) 1%Q eq_refl) eq_refl).
  - exact (proj2 (proj2 (SegmentsPageMore.totalPurchases_rule_compares_numbers
                           (buyer "1" 2) "!=" "many" eq_refl eq_refl) eq_refl) eq_refl).
Defined.

Lemma words_after_the_third_are_ignored_witness :
  ruleHolds (buyer "1" 2) "totalPurchases > 1 or more"
  = ruleHolds (buyer "1" 2) "totalPurchases > 1".
Proof.
  exact (SegmentsPageMore.words_after_the_third_are_ignored (buyer "1" 2)
           "totalPurchases" ">" "1" "or more" eq_refl eq_refl eq_refl).
Defined.

Lemma save_keeps_the_list_in_shape_witness :
  stored_segments storageWithFrequent = Some (segments afterFrequent) /\
  map segment_id (segments afterFrequent) = ["100"] /\
  NoDup (map segment_id (segments afterFrequent)).
Proof.
  destruct (SegmentsPageMore.save_keeps_the_list_in_shape "100" frequentForm afterFrequent
              emptyStorage storageWithFrequent eq_refl) as [H1 [H2 [_ H4]]].
  split; [exact H1|]. split; [exact H2|].
  apply H4; [reflexivity | constructor | intros []].
Defined.

Lemma edit_of_a_deleted_segment_is_dropped_witness :
  handleCreateSegment "101" (fst deletedWhileEditing) (snd deletedWhileEditing)
  = (afterSave [] (fst deletedWhileEditing), withSegments [] (snd deletedWhileEditing),
     Saved).
Proof.
  exact (proj1 (SegmentsPageMore.edit_of_a_deleted_segment_is_dropped "101" afterFrequent
                  storageWithFrequent frequent frequent_wellFormed
                  ltac:(discriminate))).
Defined.

Lemma edit_then_save_refreshes_witness :
  exists s',
    handleCreateSegment "101" (handleEdit frequent afterFrequent) storageWithFrequent
    = (afterSave [s'] (handleEdit frequent afterFrequent),
       withSegments [s'] storageWithFrequent, Saved) /\
    segment_id s' = "100" /\ matchedCustomerIds s' = ["2"] /\ customerCount s' = 1%nat.
Proof.
  destruct (SegmentsPageMore.edit_then_save_refreshes "101" afterFrequent
              storageWithFrequent frequent) as (s' & saved & Hrun & Hsaved & _ & Hid & _ & _ & _ & Hm & Hc & _).
  - left. reflexivity.
  - exact frequent_wellFormed.
  - discriminate.
  - repeat constructor. intros [].
  - exists s'. rewrite Hrun, Hsaved. repeat split; assumption.
Defined.

Lemma cancel_leaves_the_form_filled_witness :
  exists copy,
    handleCreateSegment "101" (handleCancel (handleEdit frequent afterFrequent))
      storageWithFrequent
    = (afterSave (segments afterFrequent ++ [copy])
         (handleCancel (handleEdit frequent afterFrequent)),
       withSegments (segments afterFrequent ++ [copy]) storageWithFrequent, Saved) /\
    segment_id copy = "101" /\ segment_name copy = "Frequent" /\
    segment_description copy = "more than two purchases" /\
    Frontend.rules copy = ["totalPurchases > 2"].
Proof.
  exact (SegmentsPageMore.cancel_leaves_the_form_filled "101" afterFrequent
           storageWithFrequent frequent frequent_wellFormed).
Defined.

Lemma rules_filter_in_sequence_witness :
  getMatchedCustomers [buyer "1" 2; buyer "2" 3] ["totalPurchases < 9"; "totalPurchases > 2"]
  = getMatchedCustomers [buyer "1" 2; buyer "2" 3] ["totalPurchases > 2"; "totalPurchases < 9"].
Proof.
  apply (proj1 (proj2 (proj2 (SegmentsPageMore.rules_filter_in_sequence
                                [buyer "1" 2; buyer "2" 3]
                                ["totalPurchases > 2"; "totalPurchases < 9"] [])))).
  apply perm_swap.
Defined.

Lemma remove_rule_removes_every_copy_witness :
  handleRemoveRule "totalPurchases < 9"
    (handleAddRule (Some "totalPurchases < 9") frequentForm) = frequentForm /\
  SegmentsPage.rules
    (handleRemoveRule "totalPurchases > 2"
       (handleAddRule (Some "totalPurchases > 2") frequentForm)) = [].
Proof.
  destruct (SegmentsPageMore.remove_rule_removes_every_copy "totalPurchases < 9"
              frequentForm) as (_ & _ & _ & Hback & _).
  destruct (SegmentsPageMore.remove_rule_removes_every_copy "totalPurchases > 2"
              frequentForm) as (_ & _ & Hfilter & _).
  split.
  - apply Hback; [discriminate|]. intros [H | []]. discriminate.
  - apply Hfilter. discriminate.
Defined.

End SegmentsPageMoreExamples.

Module CustomersPageMoreExamples.
Import Js Frontend CustomersPage CustomersForm Samples Samples2 Spec Spec2.

Lemma two_buyers_sound : sound [buyer "1" 1; buyer "2" 3].
Proof.
  split.
  - simpl. repeat constructor; simpl; intuition discriminate.
  - repeat constructor; simpl; discriminate.
Qed.

Lemma purchase_adds_one_to_the_buyer_witness :
  purchasesOf (fst (handleMakePurchase "1" [buyer "1" 1; buyer "2" 3] emptyStorage)) = 5 /\
  fst (handleMakePurchase "9" [buyer "1" 1; buyer "2" 3] emptyStorage)
  = [buyer "1" 1; buyer "2" 3].
Proof.
  destruct (CustomersPageMore.purchase_adds_one_to_the_buyer "1"
              [buyer "1" 1; buyer "2" 3] emptyStorage) as (_ & _ & _ & _ & _ & Hone & _).
  destruct (CustomersPageMore.purchase_adds_one_to_the_buyer "9"
              [buyer "1" 1; buyer "2" 3] emptyStorage) as (_ & _ & _ & _ & _ & _ & Hnone).
  split.
  - apply (Hone (buyer "1" 1)); [apply two_buyers_sound | now left | reflexivity].
  - apply Hnone. reflexivity.
Defined.

Lemma purchase_count_is_one_purchase_behind_witness :
  Forall (fun s => customerCount s = 1%nat)
    (orEmpty (stored_segments
                (snd (handleMakePurchase "1" [buyer "1" 1; buyer "2" 3] storageWithFrequent)))) /\
  List.length (repeatBuyers
                 (fst (handleMakePurchase "1" [buyer "1" 1; buyer "2" 3] storageWithFrequent)))
  = 2%nat.
Proof.
  destruct (CustomersPageMore.purchase_count_is_one_purchase_behind "1"
              [buyer "1" 1; buyer "2" 3] storageWithFrequent)
    as (Hcount & _ & _ & _ & _ & Hbehind).
  split; [exact Hcount|].
  apply (Hbehind (buyer "1" 1)); [apply two_buyers_sound | now left | reflexivity | reflexivity].
Defined.

Lemma customers_stay_sound_witness :
  sound (customers (fst (fst (handleAddCustomer "3" addAnn emptyStorage)))) /\
  sound (fst (handleMakePurchase "1" (customers addAnn) emptyStorage)).
Proof.
  pose proof (CustomersPageMore.customers_stay_sound "3" addAnn emptyStorage) as H.
  simpl in H. destruct H as (_ & _ & _ & Hadd & Hbuy).
  destruct (Hadd eq_refl) as (new & _ & _ & _ & _ & _ & Hsound).
  split.
  - apply Hsound; [apply two_buyers_sound|].
    simpl. intuition discriminate.
  - exact (Hbuy "1" two_buyers_sound).
Defined.

End CustomersPageMoreExamples.

Module CampaignsExamples.
Import Js CampaignsPage Samples Samples2 Spec Spec2.

Lemma half_in_unitInterval : unitInterval (1 # 2).
Proof. split; [discriminate | reflexivity]. Qed.

Lemma new_campaign_is_within_bounds_witness :
  exists new m,
    campaigns (fst (fst (handleCreateCampaign "200" (1 # 2) (1 # 2) (1 # 2) (1 # 2)
                           springForm None)))
    = [new] /\
    id new = "200" /\ status new = "active" /\ metrics new = Some m /\ withinBounds m.
Proof.
  pose proof (CampaignsFacts.new_campaign_is_within_bounds "200" (1 # 2) (1 # 2) (1 # 2)
                (1 # 2) springForm None half_in_unitInterval half_in_unitInterval
                half_in_unitInterval half_in_unitInterval) as H.
  destruct (proj2 H ltac:(discriminate) ltac:(discriminate))
    as (_ & _ & new & m & Hc & _ & Hi & _ & Hs & _ & Hm & Hb).
  exists new, m. repeat split; try assumption; apply Hb.
Defined.

Lemma status_change_moves_the_campaign_witness :
  exists c', In c' (filtered (fst (handleStatusChange "200" "paused" afterSpring None))) /\
             id c' = "200" /\ status c' = "paused".
Proof.
  destruct (CampaignsFacts.status_change_moves_the_campaign "200" "paused" afterSpring None)
    as (_ & _ & _ & _ & _ & _ & Hshown).
  eapply Hshown; [now left | now left | reflexivity].
Defined.

Lemma mount_gives_every_campaign_metrics_witness :
  Forall hasMetrics (campaigns (fst (onMount (Some [legacy]) springForm))) /\
  Forall hasMetrics
    (campaigns (fst (handleStatusChange "200" "paused" afterSpring None))).
Proof.
  destruct (CampaignsFacts.mount_gives_every_campaign_metrics (Some [legacy]) springForm)
    as (_ & Hmount & _ & Hchange).
  split.
  - apply (Hmount [legacy] eq_refl).
  - apply Hchange. repeat constructor. discriminate.
Defined.

End CampaignsExamples.

Module DashboardExamples.
Import Js DashboardPage Samples Samples2 Spec Spec2.

Lemma age_is_shown_in_the_largest_unit_witness :
  formatTimestamp 1735603200000 1735596000000 = "2h ago" /\
  formatTimestamp 1735603200000 1735603199000 = "Just now".
Proof.
  split.
  - apply (DashboardFacts.age_is_shown_in_the_largest_unit 1735603200000 1735596000000).
    lia.
  - apply (DashboardFacts.age_is_shown_in_the_largest_unit 1735603200000 1735603199000).
    lia.
Defined.

Lemma dashboard_counts_follow_the_pages_witness :
  totalCustomers
    (fst (fetchStats
            (Frontend.stored_customers
               (snd (fst (CustomersForm.handleAddCustomer "3" addAnn emptyStorage))))
            None None None)) = 3%nat /\
  totalSegments (fst (fetchStats None (Frontend.stored_segments storageWithFrequent)
                        None None)) = 1%nat.
Proof.
  destruct (DashboardFacts.dashboard_counts_follow_the_pages None None None None)
    as (_ & _ & Hcustomers & _).
  destruct (DashboardFacts.dashboard_counts_follow_the_pages None None None None)
    as (_ & Hsegments & _).
  split.
  - exact (Hcustomers "3" addAnn emptyStorage _ _ eq_refl).
  - exact (Hsegments "100" frequentForm emptyStorage afterFrequent storageWithFrequent
             eq_refl).
Defined.

End DashboardExamples.

Module BackendExamples.
Import Js Samples Samples2 Spec Spec2.


(** Two sent and nine failed of eleven: the two rates, each rounded on
    its own, are together more than 100. *)
Lemma delivery_statistics_add_up_witness :
  DeliveryRoute.getStats "k1" "u2" deliveries
  = DeliveryRoute.Status404 "Campaign not found" /\
  exists stats,
    DeliveryRoute.getStats "k1" "u1" deliveries = DeliveryRoute.Json stats /\
    DeliveryRoute.total stats = 11 /\ DeliveryRoute.sent stats = 2 /\
    DeliveryRoute.failed stats = 9 /\
    DeliveryRoute.sent stats + DeliveryRoute.failed stats + DeliveryRoute.pending stats
    = DeliveryRoute.total stats /\
    DeliveryRoute.deliveryRate stats = DeliveryRoute.percent 2 11 /\
    DeliveryRoute.failureRate stats = DeliveryRoute.percent 9 11 /\
    SpecFloat.SFltb (DeliveryRoute.double 100)
      (SpecFloat.SFadd 53 1024 (DeliveryRoute.percent 2 11) (DeliveryRoute.percent 9 11))
    = true.
Proof.
  split.
  - apply (proj1 (DeliveryFacts.delivery_statistics_add_up "k1" "u2" deliveries)).
    intros c [<- | []] _. discriminate.
  - eexists. split; [reflexivity|].
    destruct (proj2 (DeliveryFacts.delivery_statistics_add_up "k1" "u1" deliveries)
                _ eq_refl) as (Ht & Hs & Hf & _ & _ & Hsum & Hrates & _).
    split; [exact Ht|]. split; [exact Hs|]. split; [exact Hf|].
    split; [|split; [|split]].
    + apply Hsum. unfold rowsOf. simpl.
      repeat (apply Forall_cons; [simpl; auto|]). apply Forall_nil.
    + apply Hrates. discriminate.
    + apply Hrates. discriminate.
    + reflexivity.
Defined.

Lemma token_is_the_second_word_witness :
  AuthRoute.verifyTokenMiddleware verifier (Some "Basic abc")
  = AuthRoute.Status401 "No token provided" /\
  AuthRoute.verifyTokenMiddleware verifier (Some "Bearer abc") = AuthRoute.Next "user-1" /\
  AuthRoute.verifyTokenMiddleware verifier (Some "Bearer abc def") = AuthRoute.Next "user-1" /\
  AuthRoute.verifyTokenMiddleware verifier (Some "Bearer old")
  = AuthRoute.Status401 "Token has expired. Please log in again.".
Proof.
  pose proof (AuthFacts.token_is_the_second_word string verifier) as [_ [Hno Htoken]].
  split; [exact (Hno "Basic abc" eq_refl)|].
  split; [exact (proj1 (Htoken "abc" "def" eq_refl))|].
  split; [exact (proj2 (Htoken "abc" "def" eq_refl))|].
  exact (proj1 (Htoken "old" "" eq_refl)).
Defined.

End BackendExamples.
